(** * Library-fee tracker backend: document store, archive, backup and chat gateway

    A shallow embedding of the two server variants of the repository:

    - the database-backed server ([DbServer], the variant that keeps one
      JSON document in the row [STATE_ID] of the table [app_state] and its
      snapshots in the table [backups]);
    - the file-backed server ([FileServer], the variant that keeps
      [data.json] and [archive.json] next to the program).

    JSON values are an inductive type, JavaScript's [undefined] is [None],
    exceptions are the [Throw] side of [result], the database and the file
    system are explicit states threaded through the handlers, and the
    upstream language-model providers are oracles recorded in a trace.

    What the model leaves to its environment: the database answers every
    query (a select fails only for want of the row), [JSON.stringify] and
    [JSON.parse] are a codec given to the file-backed handlers, the clock
    is an argument, and one request is served at a time.  Equality of
    modelled values is finer than deep equality of the JavaScript values:
    it also compares the order of the properties.  The numbers of the
    model are the integer-valued ones, and a string is kept as its UTF-8
    bytes. *)

From stdpp Require Import gmap strings list pretty.

Open Scope string_scope.
Open Scope list_scope.

(** ** JSON values and the JavaScript operations the handlers use *)

Module Js.

(** Numbers are the integer-valued ones, modelled by integers; objects
    keep their properties in insertion order. *)
#[warnings="-register-all"]
Inductive json : Type :=
| JNull
| JBool (b : bool)
| JNum (n : Z)
| JStr (s : string)
| JArr (items : list json)
| JObj (fields : list (string * json)).

(** A JavaScript value that may be [undefined]. *)
Abbreviation value := (option json).

(** Either a result or a thrown error with its [message]. *)
Inductive result (A : Type) : Type :=
| Ok (a : A)
| Throw (message : string).
Arguments Ok {A} a.
Arguments Throw {A} message.

Definition rbind {A B} (r : result A) (k : A → result B) : result B :=
  match r with
  | Ok a => k a
  | Throw m => Throw m
  end.

#[global] Instance result_ret : MRet result := λ _ a, Ok a.
#[global] Instance result_bind : MBind result := λ _ _ k r, rbind r k.

(** [!!v] is true on [truthy] values. *)
Definition truthy (v : json) : bool :=
  match v with
  | JNull => false
  | JBool b => b
  | JNum n => negb (n =? 0)%Z
  | JStr s => negb (bool_decide (s = ""))
  | JArr _ | JObj _ => true
  end.

Definition truthyv (v : value) : bool :=
  match v with
  | None => false
  | Some j => truthy j
  end.

(** [a || b] *)
Definition or_else (a b : value) : value :=
  if truthyv a then a else b.

(** [a === b], for values that come from two different parses (a request
    body and a stored document): primitives compare by value, arrays and
    objects are distinct references. *)
Definition strict_eq (a b : value) : bool :=
  match a, b with
  | None, None => true
  | Some JNull, Some JNull => true
  | Some (JBool x), Some (JBool y) => bool_decide (x = y)
  | Some (JNum x), Some (JNum y) => bool_decide (x = y)
  | Some (JStr x), Some (JStr y) => bool_decide (x = y)
  | _, _ => false
  end.

Definition isArray (v : value) : bool :=
  match v with
  | Some (JArr _) => true
  | _ => false
  end.

(** *** Objects as ordered property lists *)

Fixpoint obj_get (k : string) (fs : list (string * json)) : value :=
  match fs with
  | [] => None
  | (k', v) :: fs' => if decide (k' = k) then Some v else obj_get k fs'
  end.

(** Assignment keeps the position of an existing property and appends a
    new one. *)
Fixpoint obj_set (k : string) (v : json) (fs : list (string * json))
  : list (string * json) :=
  match fs with
  | [] => [(k, v)]
  | (k', v') :: fs' =>
      if decide (k' = k) then (k, v) :: fs' else (k', v') :: obj_set k v fs'
  end.

Definition obj_delete (k : string) (fs : list (string * json))
  : list (string * json) :=
  filter (λ kv, kv.1 ≠ k) fs.

(** [v.k] for the property names of this program (none of them is a
    built-in property of arrays, strings, numbers or booleans). *)
Definition get (v : json) (k : string) : result value :=
  match v with
  | JNull =>
      Throw ("Cannot read properties of null (reading '" +:+ k +:+ "')")
  | JObj fs => Ok (obj_get k fs)
  | _ => Ok None
  end.

Definition getv (v : value) (k : string) : result value :=
  match v with
  | None =>
      Throw ("Cannot read properties of undefined (reading '" +:+ k +:+ "')")
  | Some j => get j k
  end.

(** [v?.k] *)
Definition opt_get (v : value) (k : string) : value :=
  match v with
  | Some (JObj fs) => obj_get k fs
  | _ => None
  end.

Definition first_char (s : string) : value :=
  match s with
  | EmptyString => None
  | String a _ => Some (JStr (String a EmptyString))
  end.

(** [v?.[0]] *)
Definition opt_idx0 (v : value) : value :=
  match v with
  | Some (JArr l) => head l
  | Some (JObj fs) => obj_get "0" fs
  | Some (JStr s) => first_char s
  | _ => None
  end.

Definition type_name (v : json) : string :=
  match v with
  | JNull => "object"
  | JBool _ => "boolean"
  | JNum _ => "number"
  | JStr _ => "string"
  | JArr _ | JObj _ => "object"
  end.

(** [v.k = x] in a module (strict mode), observed through the JSON
    serialisation of [v]: a property set to [undefined] is not
    serialised, a named property of an array is not serialised, and a
    primitive cannot take a property. *)
Definition assign (v : json) (k : string) (x : value) : result json :=
  match v with
  | JObj fs =>
      Ok (JObj (match x with
                | Some j => obj_set k j fs
                | None => obj_delete k fs
                end))
  | JArr l => Ok (JArr l)
  | JNull =>
      Throw ("Cannot set properties of null (setting '" +:+ k +:+ "')")
  | _ =>
      Throw ("Cannot create property '" +:+ k +:+ "' on " +:+ type_name v)
  end.

Fixpoint join (sep : string) (l : list string) : string :=
  match l with
  | [] => ""
  | [s] => s
  | s :: l' => s +:+ sep +:+ join sep l'
  end.

(** *** [String(v)]

    A number is printed as [Number::toString] prints it: the shortest
    decimal that reads back as the same Number, written out in full up
    to twenty-one digits and with an exponent beyond.  An integer is
    taken to the Number nearest to it first, as a parse does. *)

(** The spacing of the Numbers at the magnitude of [x ≥ 1]. *)
Definition spacing (x : Z) : Z := (2 ^ Z.max 0 (Z.log2 x - 52))%Z.

(** The Number nearest to [x ≥ 1], ties to the even significand. *)
Definition nearest_Number (x : Z) : Z :=
  let u := spacing x in
  let m := (x / u)%Z in
  let r := (x mod u)%Z in
  if (2 * r <? u)%Z then (m * u)%Z
  else if (u <? 2 * r)%Z then ((m + 1) * u)%Z
  else if Z.even m then (m * u)%Z else ((m + 1) * u)%Z.

(** The multiple of [10 ^ q] nearest to the Number [x] among those that
    read back as [x], if there is one. *)
Definition candidate (x : Z) (q : nat) : option Z :=
  let p := (10 ^ Z.of_nat q)%Z in
  let lo := (x / p * p)%Z in
  let hi := (lo + p)%Z in
  match (nearest_Number lo =? x)%Z, (nearest_Number hi =? x)%Z with
  | true, true =>
      Some (if (x - lo <? hi - x)%Z then lo
            else if (hi - x <? x - lo)%Z then hi
            else if Z.even (x / p) then lo else hi)
  | true, false => Some lo
  | false, true => Some hi
  | false, false => None
  end.

(** The decimal with the fewest significant digits that reads back as
    the Number [x]: the scales are tried from [10 ^ q] down. *)
Fixpoint shortest (x : Z) (q : nat) : Z :=
  match q with
  | O => x
  | S q' =>
      match candidate x q with
      | Some v => v
      | None => shortest x q'
      end
  end.

Fixpoint drop_zeros (rev_digits : string) : string :=
  match rev_digits with
  | String a s' =>
      if bool_decide (Ascii.nat_of_ascii a = 48%nat) then drop_zeros s'
      else rev_digits
  | EmptyString => EmptyString
  end.

(** [d.ddde+n] for the digits of a decimal of more than twenty-one
    digits. *)
Definition exponential (digits : string) : string :=
  let e := pretty (String.length digits - 1)%nat in
  match String.rev (drop_zeros (String.rev digits)) with
  | String a EmptyString => String a EmptyString +:+ "e+" +:+ e
  | String a rest => String a ("." +:+ rest) +:+ "e+" +:+ e
  | EmptyString => digits
  end.

Definition number_to_String (n : Z) : string :=
  if (n =? 0)%Z then "0"
  else
    let x := nearest_Number (Z.abs n) in
    let v := if (x <? 2 ^ 53)%Z then x
             else shortest x (String.length (pretty x) - 1) in
    let digits := pretty v in
    (if (n <? 0)%Z then "-" else "")
    +:+ (if bool_decide (String.length digits ≤ 21)%nat then digits
         else exponential digits).

(** [String(v)].  An array is joined with commas, [null] entries
    printing as nothing; an object prints through
    [Object.prototype.toString] unless it has a property [toString] of
    its own, which a parsed document cannot make callable: the conversion
    then throws a [TypeError], as it does for an array that holds such an
    object. *)
Fixpoint to_String (v : json) : result string :=
  match v with
  | JNull => Ok "null"
  | JBool true => Ok "true"
  | JBool false => Ok "false"
  | JNum n => Ok (number_to_String n)
  | JStr s => Ok s
  | JArr l =>
      match (fix items (l : list json) : result (list string) :=
               match l with
               | [] => Ok []
               | x :: l' =>
                   match (match x with
                          | JNull => Ok ""
                          | _ => to_String x
                          end) with
                   | Throw m => Throw m
                   | Ok s =>
                       match items l' with
                       | Throw m => Throw m
                       | Ok ss => Ok (s :: ss)
                       end
                   end
               end) l with
      | Throw m => Throw m
      | Ok ss => Ok (join "," ss)
      end
  | JObj fs =>
      match obj_get "toString" fs with
      | Some _ => Throw "Cannot convert object to primitive value"
      | None => Ok "[object Object]"
      end
  end.

Definition to_Stringv (v : value) : result string :=
  match v with
  | None => Ok "undefined"
  | Some j => to_String j
  end.

(** [l.map(f)]: the callback runs on the entries in order, and the first
    exception leaves the loop. *)
Fixpoint map_result {A B : Type} (f : A → result B) (l : list A)
  : result (list B) :=
  match l with
  | [] => Ok []
  | x :: l' =>
      y ← f x;
      ys ← map_result f l';
      Ok (y :: ys)
  end.

(** The own enumerable properties that an object spread [{...v}] copies. *)
Fixpoint chars_from (i : nat) (s : string) : list (string * json) :=
  match s with
  | EmptyString => []
  | String a s' => (pretty i, JStr (String a EmptyString)) :: chars_from (S i) s'
  end.

Definition own_entries (v : value) : list (string * json) :=
  match v with
  | Some (JObj fs) => fs
  | Some (JArr l) => imap (λ i x, (pretty i, x)) l
  | Some (JStr s) => chars_from 0 s
  | _ => []
  end.

Definition obj_assign (target entries : list (string * json))
  : list (string * json) :=
  foldl (λ acc kv, obj_set kv.1 kv.2 acc) target entries.

(** [{...a, ...b}] *)
Definition spread2 (a b : value) : list (string * json) :=
  obj_assign (obj_assign [] (own_entries a)) (own_entries b).

(** The ASCII white space characters. *)
Definition is_space (a : Ascii.ascii) : bool :=
  let n := Ascii.nat_of_ascii a in
  bool_decide (n = 32 ∨ (9 ≤ n ∧ n ≤ 13))%nat.

Fixpoint trim_start (s : string) : string :=
  match s with
  | EmptyString => EmptyString
  | String a s' => if is_space a then trim_start s' else s
  end.

(** *** [s.trim()]

    A string is kept as its UTF-8 bytes.  [trim] strips the white space
    and the line terminators of the language: the ASCII ones, U+00A0,
    U+1680, U+2000 to U+200A, U+2028, U+2029, U+202F, U+205F, U+3000 and
    U+FEFF. *)
Definition space2 (a b : Ascii.ascii) : bool :=
  bool_decide (Ascii.nat_of_ascii a = 194 ∧ Ascii.nat_of_ascii b = 160)%nat.

Definition space3 (a b c : Ascii.ascii) : bool :=
  let a := Ascii.nat_of_ascii a in
  let b := Ascii.nat_of_ascii b in
  let c := Ascii.nat_of_ascii c in
  bool_decide ((a = 225 ∧ b = 154 ∧ c = 128)
               ∨ (a = 226 ∧ b = 128
                  ∧ ((128 ≤ c ∧ c ≤ 138) ∨ c = 168 ∨ c = 169 ∨ c = 175))
               ∨ (a = 226 ∧ b = 129 ∧ c = 159)
               ∨ (a = 227 ∧ b = 128 ∧ c = 128)
               ∨ (a = 239 ∧ b = 187 ∧ c = 191))%nat.

(** Strips the white space at the front of [s]; with [back] the bytes of
    [s] are read in reverse, as at the end of a string. *)
Fixpoint strip (back : bool) (s : string) : string :=
  match s with
  | EmptyString => EmptyString
  | String a s1 =>
      if is_space a then strip back s1
      else
        match s1 with
        | EmptyString => s
        | String b s2 =>
            if (if back then space2 b a else space2 a b) then strip back s2
            else
              match s2 with
              | EmptyString => s
              | String c s3 =>
                  if (if back then space3 c b a else space3 a b c)
                  then strip back s3
                  else s
              end
        end
  end.

Definition trim (s : string) : string :=
  String.rev (strip true (String.rev (strip false s))).

(** An HTTP response: [res.status(n).json(body)]. *)
Record response : Type := Response { status : nat; body : json }.

Definition res_json (b : json) : response := Response 200 b.
Definition res_error (code : nat) (msg : string) : response :=
  Response code (JObj [("error", JStr msg)]).
Definition ok_true : json := JObj [("ok", JBool true)].

End Js.

(** ** The upstream language-model providers *)

Module Providers.
Import Js.

(** What the primary provider answers to a request with a given message
    list: the [fetch] is rejected (network error, abort at the deadline),
    or an HTTP reply arrives whose body [r.json()] parses or not. *)
Inductive openai_reply : Type :=
| OpenAIFetchError (message : string)
| OpenAIReply (status : nat) (data : option json).

(** What the secondary provider answers for a model and a [contents]
    list: a request error, or a reply whose body [JSON.parse] accepts or
    not. *)
Inductive gemini_reply : Type :=
| GeminiNetError (message : string)
| GeminiReply (statusCode : nat) (parsed : option json).

Record upstream : Type := Upstream {
  openai : list json → openai_reply;
  gemini : string → list json → gemini_reply
}.

(** The requests a handler sent, in order. *)
Inductive call : Type :=
| OpenAICall (messages : list json)
| GeminiCall (model : string) (contents : list json).

(** [r.ok] *)
Definition http_ok (status : nat) : bool :=
  bool_decide (200 ≤ status ∧ status < 300)%nat.

Definition is_gemini_call (c : call) : bool :=
  match c with
  | GeminiCall _ _ => true
  | OpenAICall _ => false
  end.

End Providers.

(** ** The database-backed server *)

Module DbServer.
Import Js.

(** The two tables the server uses.  [app_state] maps a row id to its
    [data] column (the [updated_at] column is written and never read),
    [backups] maps a generated row id to its [data] column.  The database
    is reliable: a select fails only when the row is absent, an insert
    takes an id that is not in use. *)
Record db : Type := Db {
  app_state : gmap string json;
  backups : gmap N json
}.

(** [supabase] tells whether the client was created (the service URL and
    the service key are both set); [STATE_ID] is the id of the document's
    row. *)
Record config : Type := Config {
  supabase : bool;
  STATE_ID : string
}.

(** Handlers run in a state-and-exception monad over the database. *)
Definition M (A : Type) : Type := db → result A * db.

#[export] Instance M_ret : MRet M := λ _ a d, (Ok a, d).

#[export] Instance M_bind : MBind M := λ _ _ k m d,
  match m d with
  | (Ok a, d') => k a d'
  | (Throw e, d') => (Throw e, d')
  end.

Definition lift {A} (r : result A) : M A := λ d, (r, d).

(** [try { ... } catch (e) { res.status(500).json({ error: e.message }) }] *)
Definition handle (m : M response) (d : db) : response * db :=
  match m d with
  | (Ok r, d') => (r, d')
  | (Throw e, d') => (res_error 500 e, d')
  end.

Definition default_state : json :=
  JObj [("students", JArr []); ("archived", JArr []); ("settings", JObj [])].

Definition upsert_state (c : config) (data : json) (d : db) : db :=
  {| app_state := <[STATE_ID c := data]> (app_state d);
     backups := backups d |}.

Definition loadState (c : config) : M json := λ d,
  if negb (supabase c) then (Ok default_state, d)
  else match app_state d !! STATE_ID c with
       | None =>
           (* If row doesn't exist, create it *)
           (Ok default_state, upsert_state c default_state d)
       | Some data =>
           (Ok (if truthy data then data else default_state), d)
       end.

Definition saveState (c : config) (nextState : json) : M unit := λ d,
  if negb (supabase c) then (Ok tt, d)
  else (Ok tt, upsert_state c nextState d).

(** [arr.findIndex(p)], [None] standing for [-1]. *)
Fixpoint findIndex (p : json → result bool) (l : list json) (i : nat)
  : result (option nat) :=
  match l with
  | [] => Ok None
  | s :: l' =>
      b ← p s;
      if b : bool then Ok (Some i) else findIndex p l' (S i)
  end.

Definition has_id (studentId : value) (s : json) : result bool :=
  id ← get s "id"; Ok (strict_eq id studentId).

Definition as_array (what : string) (v : value) : result (list json) :=
  match v with
  | Some (JArr l) => Ok l
  | _ => Throw (what +:+ " is not a function")
  end.

(** GET /api/data *)
Definition get_data (c : config) : db → response * db :=
  handle (
    state ← loadState c;
    students ← lift (get state "students");
    mret (res_json
            (JObj [("students",
                    default (JArr []) (or_else students (Some (JArr []))))]))).

(** GET /api/archive *)
Definition get_archive (c : config) : db → response * db :=
  handle (
    state ← loadState c;
    archived ← lift (get state "archived");
    mret (res_json
            (JObj [("archived",
                    default (JArr []) (or_else archived (Some (JArr []))))]))).

(** POST /api/data *)
Definition post_data (c : config) (req_body : value) : db → response * db :=
  handle (
    state ← loadState c;
    students ←
      (if isArray (opt_get req_body "students")
       then mret (opt_get req_body "students")
       else if isArray (opt_get (opt_get req_body "data") "students")
       then mret (opt_get (opt_get req_body "data") "students")
       else lift (get state "students"));
    state ← lift (assign state "students" students);
    _ ← saveState c state;
    mret (res_json ok_true)).

(** POST /api/archive *)
Definition post_archive (c : config) (req_body : value) : db → response * db :=
  handle (
    state ← loadState c;
    archived ←
      (if isArray (opt_get req_body "archived")
       then mret (opt_get req_body "archived")
       else if isArray (opt_get (opt_get req_body "data") "archived")
       then mret (opt_get (opt_get req_body "data") "archived")
       else lift (get state "archived"));
    state ← lift (assign state "archived" archived);
    _ ← saveState c state;
    mret (res_json ok_true)).

(** [const { studentId } = req.body || {}] *)
Definition studentId_of (req_body : value) : value :=
  opt_get (or_else req_body (Some (JObj []))) "studentId".

(** POST /api/archive/student; [now] is [new Date().toISOString()]. *)
Definition post_archive_student (c : config) (now : string) (req_body : value)
  : db → response * db :=
  handle (
    let studentId := studentId_of req_body in
    if negb (truthyv studentId) then mret (res_error 400 "studentId required")
    else
      state ← loadState c;
      students ← lift (get state "students");
      list ← lift (as_array "(intermediate value).findIndex"
                     (or_else students (Some (JArr []))));
      idx ← lift (findIndex (has_id studentId) list 0);
      match idx with
      | None => mret (res_json ok_true) (* already moved *)
      | Some idx =>
          let student := list !! idx in
          let list := delete idx list in
          state ← lift (assign state "students" (Some (JArr list)));
          student ← lift (match student with
                          | Some s => assign s "status" (Some (JStr "Archived"))
                          | None => Throw "Cannot set properties of undefined (setting 'status')"
                          end);
          student ← lift (assign student "archivedAt" (Some (JStr now)));
          archived ← lift (get state "archived");
          let archived := or_else archived (Some (JArr [])) in
          state ← lift (assign state "archived" archived);
          archived ← lift (as_array "state.archived.unshift" archived);
          state ← lift (assign state "archived" (Some (JArr (student :: archived))));
          _ ← saveState c state;
          mret (res_json ok_true)
      end).

(** POST /api/backup *)
Definition post_backup (c : config) (req_body : value) : db → response * db :=
  handle (
    if negb (supabase c) then mret (res_error 400 "Supabase not configured")
    else
      let payload := opt_get req_body "data" in
      match payload with
      | Some p =>
          if truthy p then
            λ d, let id := fresh (dom (backups d)) in
                 (Ok (res_json (JObj [("backup", JNum (Z.of_N id))])),
                  {| app_state := app_state d;
                     backups := <[id := p]> (backups d) |})
          else mret (res_error 400 "data required")
      | None => mret (res_error 400 "data required")
      end).

(** GET /api/restore/:id; the route parameter is the row id. *)
Definition get_restore (c : config) (id : N) : db → response * db :=
  handle (
    if negb (supabase c) then mret (res_error 400 "Supabase not configured")
    else
      λ d, match backups d !! id with
           | Some data => (Ok (res_json data), d)
           | None => (Throw "Cannot coerce the result to a single JSON object", d)
           end).

(** GET /api/settings *)
Definition get_settings (c : config) : db → response * db :=
  handle (
    state ← loadState c;
    settings ← lift (get state "settings");
    mret (res_json (default (JObj []) (or_else settings (Some (JObj [])))))).

Definition delete_if_truthy (k : string) (fs : list (string * json))
  : list (string * json) :=
  if truthyv (obj_get k fs) then obj_delete k fs else fs.

(** POST /api/settings *)
Definition post_settings (c : config) (req_body : value) : db → response * db :=
  handle (
    state ← loadState c;
    settings ← lift (get state "settings");
    let merged :=
      spread2 (or_else settings (Some (JObj [])))
              (or_else req_body (Some (JObj []))) in
    state ← lift (assign state "settings" (Some (JObj merged)));
    (* Never store API keys from browser into DB *)
    let merged := delete_if_truthy "openaiKey" merged in
    let merged := delete_if_truthy "geminiKey" merged in
    state ← lift (assign state "settings" (Some (JObj merged)));
    _ ← saveState c state;
    mret (res_json ok_true)).

(** The requests that read or write the stored document or the backups. *)
Inductive request : Type :=
| GetData
| PostData (req_body : value)
| GetArchive
| PostArchive (req_body : value)
| PostArchiveStudent (now : string) (req_body : value)
| PostBackup (req_body : value)
| GetRestore (id : N)
| GetSettings
| PostSettings (req_body : value).

Definition serve (c : config) (r : request) : db → response * db :=
  match r with
  | GetData => get_data c
  | PostData b => post_data c b
  | GetArchive => get_archive c
  | PostArchive b => post_archive c b
  | PostArchiveStudent now b => post_archive_student c now b
  | PostBackup b => post_backup c b
  | GetRestore id => get_restore c id
  | GetSettings => get_settings c
  | PostSettings b => post_settings c b
  end.

(** The database after a sequence of requests, served one after the
    other. *)
Definition run (c : config) (rs : list request) (d : db) : db :=
  foldl (λ d r, (serve c r d).2) d rs.

(** *** Chat (Responses API) *)

Definition developer_instruction : json :=
  JObj [("role", JStr "developer");
        ("content", JStr "You are SSL Bot for Savitri Success Library. Answer in simple Hinglish. Be concise and helpful.")].

(** The [input] list of [callOpenAI]. *)
Definition build_input (message history : value) : list json :=
  developer_instruction
    :: (match history with
        | Some (JArr l) => l
        | _ => []
        end)
    ++ [JObj (("role", JStr "user")
              :: match message with
                 | Some m => [("content", m)]
                 | None => []
                 end)].

(** [callOpenAI({ message, history })]; [OPENAI_API_KEY] is the
    environment variable read at the call, empty when unset.  The abort
    of [withTimeout] at [TIMEOUT_MS] is a rejected fetch. *)
Definition callOpenAI (OPENAI_API_KEY : string) (up : Providers.upstream)
    (message history : value) : result json * list Providers.call :=
  if bool_decide (OPENAI_API_KEY = "") then (Throw "Missing OPENAI_API_KEY", [])
  else
    let input := build_input message history in
    (match Providers.openai up input with
     | Providers.OpenAIFetchError m => Throw m
     | Providers.OpenAIReply st data =>
         if negb (Providers.http_ok st) then Throw ("OpenAI error " +:+ pretty st)
         else match data with
              | None => Throw "Unexpected end of JSON input"
              | Some data =>
                  Ok (default (JStr "")
                        (or_else (opt_get (Some data) "output_text")
                                 (Some (JStr ""))))
              end
     end, [Providers.OpenAICall input]).

Definition chat_failed (message : string) : string :=
  if bool_decide (message = "") then "Chat failed" else message.

(** POST /api/chat *)
Definition post_chat (OPENAI_API_KEY : string) (up : Providers.upstream)
    (req_body : value) : response * list Providers.call :=
  let body := or_else req_body (Some (JObj [])) in
  let message := opt_get body "message" in
  let history := opt_get body "history" in
  if negb (truthyv message) then (res_error 400 "message is required", [])
  else
    match callOpenAI OPENAI_API_KEY up message history with
    | (Ok reply, tr) =>
        (res_json (JObj [("reply", reply); ("provider", JStr "openai")]), tr)
    | (Throw e, tr) => (res_error 500 (chat_failed e), tr)
    end.

End DbServer.

(** ** The file-backed server *)

Module FileServer.
Import Js.

(** [JSON.stringify(v, null, 2)] and [JSON.parse], the latter answering
    [None] where it throws a [SyntaxError]. *)
Record codec : Type := Codec {
  stringify : json → string;
  parse : string → option json
}.

(** The files by path, and the paths [fs.writeFileSync] cannot write. *)
Record filesystem : Type := Fs {
  files : gmap string string;
  locked : gset string
}.

Record config : Type := Config {
  dirname : string;
  OPENAI_API_KEY : string;
  GEMINI_API_KEY : string
}.

Definition DATA_FILE (c : config) : string := dirname c +:+ "/data.json".
Definition ARCHIVE_FILE (c : config) : string := dirname c +:+ "/archive.json".

Definition readJSONFile (J : codec) (fs : filesystem) (filePath : string)
    (fallback : json) : json :=
  match files fs !! filePath with
  | None => fallback
  | Some raw =>
      match parse J (if bool_decide (raw = "") then stringify J fallback else raw) with
      | Some v => v
      | None => fallback
      end
  end.

Definition writeJSONFile (J : codec) (filePath : string) (data : json)
    (fs : filesystem) : bool * filesystem :=
  if bool_decide (filePath ∈ locked fs) then (false, fs)
  else (true, {| files := <[filePath := stringify J data]> (files fs);
                 locked := locked fs |}).

Definition no_students : json := JObj [("students", JArr [])].
Definition no_archived : json := JObj [("archived", JArr [])].

(** GET /api/data *)
Definition get_data (J : codec) (c : config) (fs : filesystem)
  : response * filesystem :=
  (res_json (readJSONFile J fs (DATA_FILE c) no_students), fs).

(** POST /api/data *)
Definition post_data (J : codec) (c : config) (req_body : value)
    (fs : filesystem) : response * filesystem :=
  let (success, fs') :=
    writeJSONFile J (DATA_FILE c)
      (default no_students (or_else req_body (Some no_students))) fs in
  if success then (res_json ok_true, fs')
  else (res_error 500 "Failed to save data", fs').

(** GET /api/archive *)
Definition get_archive (J : codec) (c : config) (fs : filesystem)
  : response * filesystem :=
  (res_json (readJSONFile J fs (ARCHIVE_FILE c) no_archived), fs).

(** POST /api/archive *)
Definition post_archive (J : codec) (c : config) (req_body : value)
    (fs : filesystem) : response * filesystem :=
  let (success, fs') :=
    writeJSONFile J (ARCHIVE_FILE c)
      (default no_archived (or_else req_body (Some no_archived))) fs in
  if success then (res_json ok_true, fs')
  else (res_error 500 "Failed to save archive", fs').

(** GET /api/settings and POST /api/settings: kept only so the UI does
    not break. *)
Definition get_settings (fs : filesystem) : response * filesystem :=
  (res_json ok_true, fs).

Definition post_settings (req_body : value) (fs : filesystem)
  : response * filesystem :=
  (res_json ok_true, fs).

(** *** Backups on disk *)

Definition BACKUPS_DIR (c : config) : string := dirname c +:+ "/backups".

(** [s.replace(/[:.]/g, "-")] *)
Fixpoint dashes (s : string) : string :=
  match s with
  | EmptyString => EmptyString
  | String a s' =>
      String (if bool_decide (Ascii.nat_of_ascii a = 58%nat
                              ∨ Ascii.nat_of_ascii a = 46%nat)
              then Ascii.ascii_of_nat 45 else a) (dashes s')
  end.

(** [s.slice(0, n)] *)
Fixpoint slice0 (n : nat) (s : string) : string :=
  match n, s with
  | S n', String a s' => String a (slice0 n' s')
  | _, _ => EmptyString
  end.

Definition backup_path (c : config) (now : string) : string :=
  BACKUPS_DIR c +:+ "/backup_" +:+ slice0 19 (dashes now) +:+ ".json".

(** [createBackup()]; the clock is read twice, for the file name and for
    the time stamp of the snapshot.  The helpers catch their own
    exceptions, so the [catch] that returns [null] is not entered. *)
Definition createBackup (J : codec) (c : config) (now stamped : string)
    (fs : filesystem) : option string * filesystem :=
  let data := readJSONFile J fs (DATA_FILE c) no_students in
  let archive := readJSONFile J fs (ARCHIVE_FILE c) no_archived in
  let backupFile := backup_path c now in
  let backupData :=
    JObj [("timestamp", JStr stamped); ("data", data); ("archive", archive)] in
  let (_, fs') := writeJSONFile J backupFile backupData fs in
  (Some backupFile, fs').

(** POST /api/backup *)
Definition post_backup (J : codec) (c : config) (now stamped : string)
    (fs : filesystem) : response * filesystem :=
  match createBackup J c now stamped fs with
  | (Some backupFile, fs') =>
      if truthy (JStr backupFile)
      then (res_json (JObj [("ok", JBool true); ("backupFile", JStr backupFile)]),
            fs')
      else (res_error 500 "Backup failed", fs')
  | (None, fs') => (res_error 500 "Backup failed", fs')
  end.

(** *** Chat: OpenAI primary and Gemini fallback *)

Definition sys : json :=
  JObj [("role", JStr "system");
        ("content", JStr "You are SSL BOT for Savitri Success Library. Answer in simple Hinglish. Help students for any subject/exam. Be polite, concise, and accurate. If asked for study material, share official/free resources links when possible.")].

Definition turn (role content : string) : json :=
  JObj [("role", JStr role); ("content", JStr content)].

(** [String(v || "")] *)
Definition text_of (v : value) : result string :=
  to_Stringv (or_else v (Some (JStr ""))).

(** The callback of [hist.map]; [h.role] cannot throw once [h] is truthy. *)
Definition map_history (h : json) : result json :=
  if negb (truthy h) then Ok JNull
  else if strict_eq (opt_get (Some h) "role") (Some (JStr "user"))
  then
    content ← text_of (opt_get (Some h) "text");
    Ok (turn "user" content)
  else if strict_eq (opt_get (Some h) "role") (Some (JStr "model"))
          || strict_eq (opt_get (Some h) "role") (Some (JStr "assistant"))
  then
    content ← text_of (opt_get (Some h) "text");
    Ok (turn "assistant" content)
  else Ok JNull.

Definition history_list (history : value) : list json :=
  match history with
  | Some (JArr l) => l
  | _ => []
  end.

Definition buildMessages (message history : value) : result (list json) :=
  let hist := history_list history in
  mapped ← map_result map_history hist;
  let mapped := List.filter truthy mapped in
  content ← text_of message;
  Ok (sys :: mapped ++ [turn "user" content]).

(** [callOpenAI(message, history)]: an exception of [buildMessages]
    leaves the function before the request is made. *)
Definition callOpenAI (c : config) (up : Providers.upstream)
    (message history : value) : result string * list Providers.call :=
  if bool_decide (OPENAI_API_KEY c = "")
  then (Throw "OPENAI_API_KEY not set on server", [])
  else
    match buildMessages message history with
    | Throw e => (Throw e, [])
    | Ok messages =>
        (match Providers.openai up messages with
         | Providers.OpenAIFetchError m => Throw m
         | Providers.OpenAIReply st data =>
             let data := Some (default (JObj []) data) in
             if negb (Providers.http_ok st)
             then
               match to_Stringv
                       (or_else (opt_get (opt_get data "error") "message")
                          (Some (JStr ("OpenAI error HTTP " +:+ pretty st)))) with
               | Ok m => Throw m
               | Throw m => Throw m
               end
             else
               match or_else (opt_get (opt_get (opt_idx0 (opt_get data "choices"))
                                               "message") "content")
                             (Some (JStr "")) with
               | Some (JStr s) => Ok (trim s)
               | _ => Throw "(intermediate value).trim is not a function"
               end
         end, [Providers.OpenAICall messages])
    end.

(** One entry of the [contents] array that [history.map] builds. *)
Definition gemini_content (msg : json) : result json :=
  role ← get msg "role";
  text ← get msg "text";
  text ← text_of text;
  Ok (JObj [("role", JStr (if strict_eq role (Some (JStr "user"))
                           then "user" else "model"));
            ("parts", JArr [JObj [("text", JStr text)]])]).

Fixpoint map_contents (l : list json) : result (list json) :=
  match l with
  | [] => Ok []
  | msg :: l' =>
      x ← gemini_content msg;
      xs ← map_contents l';
      Ok (x :: xs)
  end.

Definition models : list string :=
  ["gemini-2.0-flash"; "gemini-2.5-flash"; "gemini-2.0-flash-lite-001"].

(** The promise of [tryModel]: resolved with [{ json, model }] or rejected
    with [{ status, json, model }]. *)
Inductive attempt : Type :=
| Resolved (json_body : json)
| Rejected (status : nat) (json_body : json).

Definition tryModel (up : Providers.upstream) (contents : list json)
    (model : string) : attempt :=
  match Providers.gemini up model contents with
  | Providers.GeminiNetError m => Rejected 500 (JObj [("error", JStr m)])
  | Providers.GeminiReply st None =>
      Rejected 500 (JObj [("error", JStr "Parse Error")])
  | Providers.GeminiReply st (Some j) =>
      if bool_decide (st = 200%nat) then Resolved j else Rejected st j
  end.

(** [out.json?.candidates?.[0]?.content?.parts?.[0]?.text || ""] *)
Definition candidate_text (j : json) : value :=
  or_else
    (opt_get (opt_idx0 (opt_get (opt_get (opt_idx0 (opt_get (Some j) "candidates"))
                                         "content") "parts")) "text")
    (Some (JStr "")).

(** The message of the error built in the [catch] of the loop:
    [new Error(x)] converts [x] to a string, which can throw. *)
Definition rejection_message (model : string) (j : json) : result string :=
  to_Stringv
    (or_else (opt_get (opt_get (Some j) "error") "message")
       (or_else (opt_get (Some j) "error")
          (Some (JStr ("Gemini failed (" +:+ model +:+ ")"))))).

(** The [for (const m of models)] loop, with the message of [lastErr].
    An exception thrown in the [catch] of the loop leaves the loop. *)
Fixpoint try_models (up : Providers.upstream) (contents : list json)
    (ms : list string) (lastErr : option string)
  : result (string * string) * list Providers.call :=
  match ms with
  | [] => (Throw (default "Gemini failed" lastErr), [])
  | m :: ms' =>
      let continue_with e :=
        let (r, tr) := try_models up contents ms' (Some e) in
        (r, Providers.GeminiCall m contents :: tr) in
      match tryModel up contents m with
      | Resolved j =>
          match candidate_text j with
          | Some (JStr txt) =>
              if negb (bool_decide (trim txt = ""))
              then (Ok (trim txt, m), [Providers.GeminiCall m contents])
              else continue_with ("Gemini empty response (" +:+ m +:+ ")")
          | _ =>
              (* txt.trim is not a function, caught by the loop *)
              continue_with "Gemini failed (undefined)"
          end
      | Rejected _ j =>
          match rejection_message m j with
          | Ok e => continue_with e
          | Throw e => (Throw e, [Providers.GeminiCall m contents])
          end
      end
  end.

Definition callGemini (c : config) (up : Providers.upstream)
    (message history : value)
  : result (string * string) * list Providers.call :=
  if bool_decide (GEMINI_API_KEY c = "")
  then (Throw "GEMINI_API_KEY not set on server", [])
  else
    match map_contents (history_list history) with
    | Throw e => (Throw e, [])
    | Ok contents =>
        match text_of message with
        | Throw e => (Throw e, [])
        | Ok text =>
            let contents :=
              (contents ++ [JObj [("role", JStr "user");
                                  ("parts", JArr [JObj [("text", JStr text)]])]])%list in
            try_models up contents models None
        end
    end.

Definition chat_failed (message : string) : string :=
  if bool_decide (message = "") then "Chat failed" else message.

(** POST /api/chat *)
Definition post_chat (c : config) (up : Providers.upstream) (req_body : value)
  : response * list Providers.call :=
  let body := or_else req_body (Some (JObj [])) in
  let history := opt_get body "history" in
  let message := opt_get body "message" in
  if negb (truthyv message) then (res_error 400 "message is required", [])
  else
    (* 1) OpenAI primary *)
    match callOpenAI c up message history with
    | (Ok text, tr) =>
        (res_json (JObj [("text", JStr text); ("provider", JStr "openai")]), tr)
    | (Throw e1, tr) =>
        (* 2) Gemini fallback (optional) *)
        if negb (bool_decide (GEMINI_API_KEY c = "")) then
          match callGemini c up message history with
          | (Ok (text, model), tr') =>
              (res_json (JObj [("text", JStr text);
                               ("provider", JStr "gemini");
                               ("modelUsed", JStr model)]), (tr ++ tr')%list)
          | (Throw e, tr') => (res_error 500 (chat_failed e), (tr ++ tr')%list)
          end
        else (res_error 500 (chat_failed e1), tr)
    end.

End FileServer.

(** ** A JSON text codec

    A printer in the layout of [JSON.stringify(v, null, 2)] and a
    recursive-descent reader, for the documents of the examples below
    (escapes other than the two-character ones are not covered). *)

Module JsonText.
Import Js.

Definition nl : string := String (Ascii.ascii_of_nat 10) EmptyString.
Definition dq : Ascii.ascii := Ascii.ascii_of_nat 34.
Definition bs : Ascii.ascii := Ascii.ascii_of_nat 92.

Fixpoint spaces (n : nat) : string :=
  match n with
  | O => ""
  | S n' => String (Ascii.ascii_of_nat 32) (spaces n')
  end.

Fixpoint escape (s : string) : string :=
  match s with
  | EmptyString => EmptyString
  | String a s' =>
      let n := Ascii.nat_of_ascii a in
      if bool_decide (n = 34%nat) then String bs (String dq (escape s'))
      else if bool_decide (n = 92%nat) then String bs (String bs (escape s'))
      else if bool_decide (n = 10%nat) then String bs (String (Ascii.ascii_of_nat 110) (escape s'))
      else if bool_decide (n = 13%nat) then String bs (String (Ascii.ascii_of_nat 114) (escape s'))
      else if bool_decide (n = 9%nat) then String bs (String (Ascii.ascii_of_nat 116) (escape s'))
      else String a (escape s')
  end.

Definition quote (s : string) : string :=
  String dq (escape s) +:+ String dq EmptyString.

Fixpoint print (ind : nat) (v : json) : string :=
  match v with
  | JNull => "null"
  | JBool true => "true"
  | JBool false => "false"
  | JNum n => pretty n
  | JStr s => quote s
  | JArr [] => "[]"
  | JArr l =>
      "[" +:+ nl
      +:+ join ("," +:+ nl)
            (List.map (λ x, spaces (ind + 2) +:+ print (ind + 2) x) l)
      +:+ nl +:+ spaces ind +:+ "]"
  | JObj [] => "{}"
  | JObj fs =>
      "{" +:+ nl
      +:+ join ("," +:+ nl)
            (List.map (λ kv, match kv with
                             | (k, x) =>
                                 spaces (ind + 2) +:+ quote k +:+ ": "
                                 +:+ print (ind + 2) x
                             end) fs)
      +:+ nl +:+ spaces ind +:+ "}"
  end.

(** Reads the rest of a string literal, after its opening quote. *)
Fixpoint read_string (s : string) (acc : string) : option (string * string) :=
  match s with
  | EmptyString => None
  | String a s' =>
      let n := Ascii.nat_of_ascii a in
      if bool_decide (n = 34%nat) then Some (String.rev acc, s')
      else if bool_decide (n = 92%nat) then
        match s' with
        | EmptyString => None
        | String b s'' =>
            let m := Ascii.nat_of_ascii b in
            let unescaped :=
              if bool_decide (m = 110%nat) then Some (Ascii.ascii_of_nat 10)
              else if bool_decide (m = 114%nat) then Some (Ascii.ascii_of_nat 13)
              else if bool_decide (m = 116%nat) then Some (Ascii.ascii_of_nat 9)
              else if bool_decide (m = 34 ∨ m = 92 ∨ m = 47)%nat then Some b
              else None in
            match unescaped with
            | Some u => read_string s'' (String u acc)
            | None => None
            end
        end
      else read_string s' (String a acc)
  end.

Definition digit (a : Ascii.ascii) : option Z :=
  let n := Ascii.nat_of_ascii a in
  if bool_decide (48 ≤ n ∧ n ≤ 57)%nat then Some (Z.of_nat n - 48)%Z else None.

Fixpoint read_digits (s : string) (acc : Z) : Z * string :=
  match s with
  | EmptyString => (acc, s)
  | String a s' =>
      match digit a with
      | Some d => read_digits s' (10 * acc + d)%Z
      | None => (acc, s)
      end
  end.

Fixpoint strip_prefix (word s : string) : option string :=
  match word, s with
  | EmptyString, _ => Some s
  | String a word', String b s' =>
      if bool_decide (a = b) then strip_prefix word' s' else None
  | String _ _, EmptyString => None
  end.

Definition expect (word : string) (v : json) (s : string)
  : option (json * string) :=
  rest ← strip_prefix word s; Some (v, rest).

Fixpoint read_value (fuel : nat) (s : string) : option (json * string) :=
  match fuel with
  | O => None
  | S fuel' =>
      match trim_start s with
      | EmptyString => None
      | String a s' =>
          let n := Ascii.nat_of_ascii a in
          if bool_decide (n = 110%nat) then expect "ull" JNull s'
          else if bool_decide (n = 116%nat) then expect "rue" (JBool true) s'
          else if bool_decide (n = 102%nat) then expect "alse" (JBool false) s'
          else if bool_decide (n = 34%nat) then
            '(str, rest) ← read_string s' ""; Some (JStr str, rest)
          else if bool_decide (n = 45%nat) then
            match s' with
            | String b _ =>
                match digit b with
                | Some _ => let (z, rest) := read_digits s' 0 in
                            Some (JNum (- z), rest)
                | None => None
                end
            | EmptyString => None
            end
          else if bool_decide (n = 91%nat) then
            match trim_start s' with
            | String b rest =>
                if bool_decide (Ascii.nat_of_ascii b = 93%nat)
                then Some (JArr [], rest)
                else '(l, rest) ← read_items fuel' s'; Some (JArr l, rest)
            | EmptyString => None
            end
          else if bool_decide (n = 123%nat) then
            match trim_start s' with
            | String b rest =>
                if bool_decide (Ascii.nat_of_ascii b = 125%nat)
                then Some (JObj [], rest)
                else '(fs, rest) ← read_members fuel' s'; Some (JObj fs, rest)
            | EmptyString => None
            end
          else
            match digit a with
            | Some _ => let (z, rest) := read_digits (String a s') 0 in
                        Some (JNum z, rest)
            | None => None
            end
      end
  end
with read_items (fuel : nat) (s : string) : option (list json * string) :=
  match fuel with
  | O => None
  | S fuel' =>
      '(v, rest) ← read_value fuel' s;
      match trim_start rest with
      | String a rest' =>
          let n := Ascii.nat_of_ascii a in
          if bool_decide (n = 93%nat) then Some ([v], rest')
          else if bool_decide (n = 44%nat) then
            '(l, rest'') ← read_items fuel' rest'; Some (v :: l, rest'')
          else None
      | EmptyString => None
      end
  end
with read_members (fuel : nat) (s : string)
  : option (list (string * json) * string) :=
  match fuel with
  | O => None
  | S fuel' =>
      match trim_start s with
      | String q s1 =>
          if bool_decide (Ascii.nat_of_ascii q = 34%nat) then
            '(k, s2) ← read_string s1 "";
            match trim_start s2 with
            | String colon s3 =>
                if bool_decide (Ascii.nat_of_ascii colon = 58%nat) then
                  '(v, rest) ← read_value fuel' s3;
                  match trim_start rest with
                  | String a rest' =>
                      let n := Ascii.nat_of_ascii a in
                      if bool_decide (n = 125%nat) then Some ([(k, v)], rest')
                      else if bool_decide (n = 44%nat) then
                        '(fs, rest'') ← read_members fuel' rest';
                        Some ((k, v) :: fs, rest'')
                      else None
                  | EmptyString => None
                  end
                else None
            | EmptyString => None
            end
          else None
      | EmptyString => None
      end
  end.

Definition read (s : string) : option json :=
  '(v, rest) ← read_value (S (String.length s)) s;
  match trim_start rest with
  | EmptyString => Some v
  | String _ _ => None
  end.

Definition json_text : FileServer.codec :=
  {| FileServer.stringify := print 0; FileServer.parse := read |}.

End JsonText.

(** ** Vocabulary of the statements *)

Module Shape.
Import Js.

(** A stored student other than the one asked for: [s.id] can be read
    and is not the identifier. *)
Definition other_student (studentId : json) (s : json) : Prop :=
  s ≠ JNull ∧ strict_eq (opt_get (Some s) "id") (Some studentId) = false.

(** The stored document behind a configuration, if the row exists. *)
Definition stored (c : DbServer.config) (d : DbServer.db) : value :=
  DbServer.app_state d !! DbServer.STATE_ID c.

(** The stored document, if there is one, is an object. *)
Definition shaped (c : DbServer.config) (d : DbServer.db) : Prop :=
  ∀ doc, stored c d = Some doc → ∃ fields, doc = JObj fields.

(** The student as it is archived at time [now]. *)
Definition archived_student (now : string) (sfields : list (string * json))
  : json :=
  JObj (obj_set "archivedAt" (JStr now)
          (obj_set "status" (JStr "Archived") sfields)).

End Shape.

(** ** Sample data *)

Module Sample.
Import Js.

Definition config : DbServer.config := DbServer.Config true "main".
Definition offline : DbServer.config := DbServer.Config false "main".
Definition now : string := "2026-01-01T00:00:00.000Z".

Definition ravi : json := JObj [("id", JNum 3); ("name", JStr "Ravi")].
Definition asha : list (string * json) :=
  [("id", JNum 7); ("name", JStr "Asha")].
Definition asha_twice : json :=
  JObj [("id", JNum 7); ("name", JStr "Asha, entered twice")].
Definition meena : json :=
  JObj [("id", JNum 1); ("name", JStr "Meena"); ("status", JStr "Archived");
        ("archivedAt", JStr "2025-06-30T10:00:00.000Z")].

Definition fields : list (string * json) :=
  [("students", JArr [ravi; JObj asha; asha_twice]);
   ("archived", JArr [meena]);
   ("settings", JObj [("theme", JStr "dark")])].

Definition database : DbServer.db :=
  DbServer.Db {[ "main" := JObj fields ]} ∅.

Definition empty_database : DbServer.db := DbServer.Db ∅ ∅.

(** A document whose only student has the identifier [0]. *)
Definition zero : json := JObj [("id", JNum 0); ("name", JStr "Zoya")].
Definition zero_database : DbServer.db :=
  DbServer.Db
    {[ "main" := JObj [("students", JArr [zero]); ("archived", JArr []);
                       ("settings", JObj [])] ]} ∅.

Definition ask (studentId : json) : value :=
  Some (JObj [("studentId", studentId)]).

End Sample.

(** ** Sample files *)

Module SampleFiles.
Import Js.

Definition config : FileServer.config :=
  FileServer.Config "/srv/fees" "sk-primary" "g-secondary".

Definition no_fallback : FileServer.config :=
  FileServer.Config "/srv/fees" "sk-primary" "".

(** A disk on which neither [data.json] nor [archive.json] exists yet. *)
Definition blank : FileServer.filesystem := FileServer.Fs ∅ ∅.

Definition document : json :=
  JObj [("students", JArr [Sample.ravi; JObj Sample.asha])].

End SampleFiles.

(** ** Vocabulary of the chat statements *)

Module Turns.
Import Js.

(** [const { history, message } = req.body || {}] *)
Definition message_of (req_body : value) : value :=
  opt_get (or_else req_body (Some (JObj []))) "message".
Definition history_of (req_body : value) : value :=
  opt_get (or_else req_body (Some (JObj []))) "history".

(** The entries of a history; a history that is no array has none. *)
Definition entries (history : value) : list json :=
  match history with
  | Some (JArr l) => l
  | _ => []
  end.

(** A text as an upstream request carries it: the text made a string,
    and the empty string for a text that is missing or falsy. *)
Definition as_text (text : value) : result string :=
  match text with
  | Some t => if truthy t then to_String t else Ok ""
  | None => Ok ""
  end.

(** The role under which a history entry goes to the primary provider,
    as the description has it: an entry that is an object with the role
    ["user"], ["model"] or ["assistant"] is kept, the last two as
    ["assistant"]; anything else, [null] included, is dropped. *)
Definition kept_as (h : json) : option string :=
  match h with
  | JObj fs =>
      match obj_get "role" fs with
      | Some (JStr r) =>
          if decide (r = "user") then Some "user"
          else if decide (r = "model" ∨ r = "assistant") then Some "assistant"
          else None
      | _ => None
      end
  | _ => None
  end.

(** The turns of the kept entries, in their order; a text that cannot be
    made a string stops the construction. *)
Fixpoint upstream_turns (l : list json) : result (list json) :=
  match l with
  | [] => Ok []
  | h :: l' =>
      match kept_as h with
      | None => upstream_turns l'
      | Some role =>
          content ← as_text (opt_get (Some h) "text");
          rest ← upstream_turns l';
          Ok (JObj [("role", JStr role); ("content", JStr content)] :: rest)
      end
  end.

(** The message list of the primary provider's request. *)
Definition primary_messages (message : value) (history : list json)
  : result (list json) :=
  turns ← upstream_turns history;
  content ← as_text message;
  Ok (JObj [("role", JStr "system");
            ("content", JStr "You are SSL BOT for Savitri Success Library. Answer in simple Hinglish. Help students for any subject/exam. Be polite, concise, and accurate. If asked for study material, share official/free resources links when possible.")]
      :: turns ++ [JObj [("role", JStr "user"); ("content", JStr content)]]).

(** One entry of the secondary provider's [contents]. *)
Definition part (role text : string) : json :=
  JObj [("role", JStr role); ("parts", JArr [JObj [("text", JStr text)]])].

(** The entries of the secondary provider's [contents] for a history:
    every entry is kept, as ["user"] when that is its role and as
    ["model"] otherwise; a [null] entry cannot be read. *)
Fixpoint secondary_turns (l : list json) : result (list json) :=
  match l with
  | [] => Ok []
  | JNull :: _ => Throw "Cannot read properties of null (reading 'role')"
  | h :: l' =>
      text ← as_text (opt_get (Some h) "text");
      rest ← secondary_turns l';
      Ok (part (match opt_get (Some h) "role" with
                | Some (JStr r) => if decide (r = "user") then "user" else "model"
                | _ => "model"
                end) text :: rest)
  end.

(** The [contents] of the secondary provider's request. *)
Definition gemini_contents (message : value) (history : list json)
  : result (list json) :=
  turns ← secondary_turns history;
  text ← as_text message;
  Ok (turns ++ [part "user" text]).

(** What one attempt on a model comes to: an answer, a failure that the
    loop records before it goes on, or an error that ends the loop. *)
Inductive outcome : Type :=
| Answered (text : string)
| Failed (message : string)
| Aborted (message : string).

(** The text of the first part of the first candidate of a reply. *)
Definition reply_text (j : json) : value :=
  opt_get (opt_idx0 (opt_get (opt_get (opt_idx0 (opt_get (Some j) "candidates"))
                                      "content") "parts")) "text".

(** What a refused request reports: the [message] of the error of the
    reply, or else the error itself, made a string. *)
Definition refusal (model : string) (j : json) : outcome :=
  let report x :=
    match to_String x with
    | Ok s => Failed s
    | Throw e => Aborted e
    end in
  match opt_get (opt_get (Some j) "error") "message", opt_get (Some j) "error" with
  | Some x, Some y =>
      if truthy x then report x
      else if truthy y then report y
      else Failed ("Gemini failed (" +:+ model +:+ ")")
  | None, Some y =>
      if truthy y then report y
      else Failed ("Gemini failed (" +:+ model +:+ ")")
  | _, None => Failed ("Gemini failed (" +:+ model +:+ ")")
  end.

Definition attempt_outcome (up : Providers.upstream) (contents : list json)
    (model : string) : outcome :=
  match Providers.gemini up model contents with
  | Providers.GeminiNetError m => refusal model (JObj [("error", JStr m)])
  | Providers.GeminiReply _ None => Failed "Parse Error"
  | Providers.GeminiReply st (Some j) =>
      if decide (st = 200%nat)
      then
        match reply_text j with
        | Some (JStr txt) =>
            if decide (trim txt = "")
            then Failed ("Gemini empty response (" +:+ model +:+ ")")
            else Answered (trim txt)
        | Some t =>
            if truthy t then Failed "Gemini failed (undefined)"
            else Failed ("Gemini empty response (" +:+ model +:+ ")")
        | None => Failed ("Gemini empty response (" +:+ model +:+ ")")
        end
      else refusal model j
  end.

(** What one attempt on [model] yields: the trimmed text of a 200 reply
    whose first candidate carries text that is not blank. *)
Definition answer (up : Providers.upstream) (contents : list json)
    (model : string) : option string :=
  match attempt_outcome up contents model with
  | Answered text => Some text
  | _ => None
  end.

(** The message recorded for a model that failed. *)
Definition failure (up : Providers.upstream) (contents : list json)
    (model : string) : option string :=
  match attempt_outcome up contents model with
  | Failed message => Some message
  | _ => None
  end.

Definition gemini_calls (contents : list json) (ms : list string)
  : list Providers.call :=
  List.map (λ m, Providers.GeminiCall m contents) ms.

Definition gemini_reply (text model : string) : response :=
  res_json (JObj [("text", JStr text); ("provider", JStr "gemini");
                  ("modelUsed", JStr model)]).

End Turns.

(** ** Sample conversation *)

Module SampleChat.
Import Js.

(** The primary is overloaded, the first secondary model is out of quota
    and the second one answers. *)
Definition busy : Providers.upstream :=
  {| Providers.openai := λ _,
       Providers.OpenAIReply 503
         (Some (JObj [("error", JObj [("message", JStr "The server is overloaded")])]));
     Providers.gemini := λ model _,
       if decide (model = "gemini-2.5-flash")
       then Providers.GeminiReply 200
              (Some (JObj [("candidates",
                            JArr [JObj [("content",
                                         JObj [("parts",
                                                JArr [JObj [("text", JStr "  Namaste! Fees 5 tareekh tak.  ")]])])]])]))
       else Providers.GeminiReply 429
              (Some (JObj [("error", JObj [("message", JStr "Quota exceeded")])])) |}.

(** The primary is overloaded and every secondary model is out of
    quota. *)
Definition down : Providers.upstream :=
  {| Providers.openai := λ _,
       Providers.OpenAIReply 503
         (Some (JObj [("error", JObj [("message", JStr "The server is overloaded")])]));
     Providers.gemini := λ _ _,
       Providers.GeminiReply 429
         (Some (JObj [("error", JObj [("message", JStr "Quota exceeded")])])) |}.

(** U+00A0, U+2028 and U+FEFF in UTF-8. *)
Definition nbsp : string :=
  String (Ascii.ascii_of_nat 194) (String (Ascii.ascii_of_nat 160) "").
Definition line_separator : string :=
  String (Ascii.ascii_of_nat 226)
    (String (Ascii.ascii_of_nat 128) (String (Ascii.ascii_of_nat 168) "")).
Definition bom : string :=
  String (Ascii.ascii_of_nat 239)
    (String (Ascii.ascii_of_nat 187) (String (Ascii.ascii_of_nat 191) "")).

Definition earlier : list json :=
  [JObj [("role", JStr "user"); ("text", JStr "hi")];
   JObj [("role", JStr "model"); ("text", JStr "Namaste!")]].

Definition question : value :=
  Some (JObj [("message", JStr "fees kab jama karni hai?");
              ("history", JArr earlier)]).

(** The same question after a history with an empty slot. *)
Definition question_after_gap : value :=
  Some (JObj [("message", JStr "fees kab jama karni hai?");
              ("history", JArr [JNull])]).

Definition question_alone : value :=
  Some (JObj [("message", JStr "fees kab jama karni hai?");
              ("history", JArr [])]).

End SampleChat.

(** ** Vocabulary of the settings statements *)

Module Secrets.
Import Js.

(** A document whose settings hold no truthy [openaiKey]. *)
Definition clean (doc : json) : Prop :=
  truthyv (opt_get (opt_get (Some doc) "settings") "openaiKey") = false.

(** The stored document, where the store is configured, is clean. *)
Definition no_secret (c : DbServer.config) (d : DbServer.db) : Prop :=
  DbServer.supabase c = true →
  ∀ doc, DbServer.app_state d !! DbServer.STATE_ID c = Some doc → clean doc.

(** The settings as stored by POST /api/settings. *)
Definition stripped (merged : list (string * json)) : list (string * json) :=
  DbServer.delete_if_truthy "geminiKey"
    (DbServer.delete_if_truthy "openaiKey" merged).

Definition a1 : value := Some (JObj [("a", JNum 1)]).
Definition b2 : value := Some (JObj [("b", JNum 2)]).
Definition secret (k : json) : value := Some (JObj [("openaiKey", k)]).

End Secrets.

(** ** Vocabulary of the statements on request sequences *)

Module Effects.
Import Js.

Definition is_object (v : value) : bool :=
  match v with
  | Some (JObj _) => true
  | _ => false
  end.

(** A document with a [students] array, an [archived] array and a
    [settings] object. *)
Definition wf_doc (doc : json) : bool :=
  match doc with
  | JObj fs =>
      isArray (obj_get "students" fs) && isArray (obj_get "archived" fs)
      && is_object (obj_get "settings" fs)
  | _ => false
  end.

Definition wellformed (c : DbServer.config) (d : DbServer.db) : Prop :=
  ∀ doc, Shape.stored c d = Some doc → wf_doc doc = true.

(** The settings of a document hold no truthy property [key]. *)
Definition key_free (key : string) (doc : json) : Prop :=
  truthyv (opt_get (opt_get (Some doc) "settings") key) = false.

Definition no_key (key : string) (c : DbServer.config) (d : DbServer.db)
  : Prop :=
  DbServer.supabase c = true →
  ∀ doc, Shape.stored c d = Some doc → key_free key doc.

(** The database with one more backup record. *)
Definition with_backup (p : json) (d : DbServer.db) : DbServer.db :=
  {| DbServer.app_state := DbServer.app_state d;
     DbServer.backups :=
       <[fresh (dom (DbServer.backups d)) := p]> (DbServer.backups d) |}.

(** The GET requests. *)
Definition reads_only (r : DbServer.request) : bool :=
  match r with
  | DbServer.GetData | DbServer.GetArchive | DbServer.GetSettings
  | DbServer.GetRestore _ => true
  | _ => false
  end.

(** The array a POST /api/data takes from its body, if any. *)
Definition posted_list (key : string) (req_body : value) : option (list json) :=
  match opt_get req_body key with
  | Some (JArr l) => Some l
  | _ =>
      match opt_get (opt_get req_body "data") key with
      | Some (JArr l) => Some l
      | _ => None
      end
  end.

End Effects.

(** ** Vocabulary of the statements on the files *)

Module Disk.
Import Js.

(** The snapshot that a backup writes at the time [stamped]. *)
Definition snapshot (J : FileServer.codec) (c : FileServer.config)
    (stamped : string) (fs : FileServer.filesystem) : json :=
  JObj [("timestamp", JStr stamped);
        ("data", FileServer.readJSONFile J fs (FileServer.DATA_FILE c)
                   FileServer.no_students);
        ("archive", FileServer.readJSONFile J fs (FileServer.ARCHIVE_FILE c)
                      FileServer.no_archived)].

(** The document that POST /api/data writes for a body. *)
Definition data_of (req_body : value) : json :=
  default FileServer.no_students (or_else req_body (Some FileServer.no_students)).

(** The document that POST /api/archive writes for a body. *)
Definition archive_of (req_body : value) : json :=
  default FileServer.no_archived (or_else req_body (Some FileServer.no_archived)).

Definition colon_or_dot (a : Ascii.ascii) : Prop :=
  Ascii.nat_of_ascii a = 58%nat ∨ Ascii.nat_of_ascii a = 46%nat.

Fixpoint chars (s : string) : list Ascii.ascii :=
  match s with
  | EmptyString => []
  | String a s' => a :: chars s'
  end.

End Disk.

(** ** Vocabulary of the statements on chat answers *)

Module Outcomes.
Import Js.

(** A message of the chat-completions request. *)
Definition chat_message (m : json) : Prop :=
  ∃ role content,
    m = JObj [("role", JStr role); ("content", JStr content)]
    ∧ (role = "system" ∨ role = "user" ∨ role = "assistant").

(** An error answer with a message. *)
Definition error_answer (r : response) : Prop :=
  ∃ code msg, r = res_error code msg ∧ msg ≠ ""
              ∧ (code = 400%nat ∨ code = 500%nat).

(** A value that [String] can convert: no object with a property
    [toString] of its own, and no array that holds one. *)
Fixpoint convertible (v : json) : bool :=
  match v with
  | JArr l => forallb convertible l
  | JObj fs =>
      match obj_get "toString" fs with
      | Some _ => false
      | None => true
      end
  | _ => true
  end.

End Outcomes.

(** * Properties *)

Import Js.

(** ** Objects *)

Section ObjectFacts.
Implicit Types (k : string) (v : json) (fs : list (string * json)).

Lemma obj_get_set_eq k v fs : obj_get k (obj_set k v fs) = Some v.
Proof.
  induction fs as [|[k' v'] fs IH]; simpl.
  - by rewrite decide_True.
  - destruct (decide (k' = k)) as [->|Hne]; simpl.
    + by rewrite decide_True.
    + by rewrite decide_False.
Qed.

Lemma obj_get_set_ne k k' v fs :
  k ≠ k' → obj_get k' (obj_set k v fs) = obj_get k' fs.
Proof.
  intros Hne. induction fs as [|[k0 v0] fs IH]; simpl.
  - by rewrite decide_False.
  - destruct (decide (k0 = k)) as [->|Hk]; simpl.
    + by rewrite !decide_False.
    + destruct (decide (k0 = k')); [done | apply IH].
Qed.

Lemma obj_set_set k v w fs : obj_set k v (obj_set k w fs) = obj_set k v fs.
Proof.
  induction fs as [|[k' v'] fs IH]; simpl.
  - by rewrite decide_True.
  - destruct (decide (k' = k)) as [->|Hne]; simpl.
    + by rewrite decide_True.
    + rewrite decide_False; [by rewrite IH | done].
Qed.

Lemma obj_set_id k v fs : obj_get k fs = Some v → obj_set k v fs = fs.
Proof.
  induction fs as [|[k' v'] fs IH]; simpl; [done|].
  destruct (decide (k' = k)) as [->|Hne].
  - by intros [= ->].
  - intros H. by rewrite IH.
Qed.

Lemma obj_get_delete k k' fs :
  obj_get k' (obj_delete k fs) = if decide (k = k') then None else obj_get k' fs.
Proof.
  unfold obj_delete. induction fs as [|[k0 v0] fs IH]; simpl.
  - by destruct (decide (k = k')).
  - rewrite filter_cons. simpl.
    destruct (decide (k0 ≠ k)) as [Hk|Hk]; simpl; rewrite IH;
      repeat case_decide; by simplify_eq.
Qed.

Lemma obj_delete_id k fs : obj_get k fs = None → obj_delete k fs = fs.
Proof.
  unfold obj_delete. induction fs as [|[k' v'] fs IH]; simpl; [done|].
  destruct (decide (k' = k)) as [->|Hne]; [done|].
  intros H. rewrite filter_cons. simpl. rewrite decide_True; [|done].
  by rewrite IH.
Qed.

(** Writing back the value just read changes nothing. *)
Lemma assign_same k fs : assign (JObj fs) k (obj_get k fs) = Ok (JObj fs).
Proof.
  simpl. destruct (obj_get k fs) eqn:E.
  - by rewrite obj_set_id.
  - by rewrite obj_delete_id.
Qed.

End ObjectFacts.

Lemma truthy_object fs : truthy (JObj fs) = true.
Proof. done. Qed.

Lemma get_non_null v k : v ≠ JNull → get v k = Ok (opt_get (Some v) k).
Proof. by destruct v. Qed.

(** ** The archive operation *)

Import DbServer Shape.

Lemma has_id_other (studentId x : json) :
  other_student studentId x → has_id (Some studentId) x = Ok false.
Proof.
  intros [Hnull Hx]. unfold has_id. rewrite (get_non_null x "id" Hnull).
  unfold mbind, result_bind, rbind. by rewrite Hx.
Qed.

Lemma findIndex_first (studentId s : json) (pre post : list json) (i : nat) :
  Forall (other_student studentId) pre →
  has_id (Some studentId) s = Ok true →
  findIndex (has_id (Some studentId)) (pre ++ s :: post) i
  = Ok (Some (i + length pre)).
Proof.
  intros Hpre Hs. revert i.
  induction Hpre as [|x pre Hx _ IH]; intros i; simpl.
  - rewrite Hs. simpl. by rewrite Nat.add_0_r.
  - rewrite (has_id_other _ _ Hx). simpl. rewrite IH. do 2 f_equal. lia.
Qed.

Lemma findIndex_none (studentId : json) (l : list json) (i : nat) :
  Forall (other_student studentId) l →
  findIndex (has_id (Some studentId)) l i = Ok None.
Proof.
  intros Hl. revert i.
  induction Hl as [|x l Hx _ IH]; intros i; simpl; [done|].
  rewrite (has_id_other _ _ Hx). simpl. apply IH.
Qed.

(** Only an object can carry the identifier asked for. *)
Lemma has_id_object (studentId s : json) :
  truthy studentId = true →
  has_id (Some studentId) s = Ok true →
  ∃ sfields, s = JObj sfields
             ∧ strict_eq (obj_get "id" sfields) (Some studentId) = true.
Proof.
  intros Ht. destruct s; simpl; try by (intros [= H]; destruct studentId).
  intros [= H]. eauto.
Qed.

(** Claim C1, as amended: for a truthy [studentId] and a stored document
    whose [students] array holds a first student with that identifier
    (the entries before it being readable records with another
    identifier), [post_archive_student] takes that student out of
    [students], sets its [status] to ["Archived"] and its [archivedAt] to
    the current time stamp, puts it at the front of [archived], saves the
    whole document and answers [{ok: true}]. *)
Theorem archive_student_moves_first_match
    (c : config) (now : string) (d : db) (req_body : value)
    (studentId : json) (fields sfields : list (string * json))
    (pre post archived : list json) :
  supabase c = true →
  studentId_of req_body = Some studentId →
  truthy studentId = true →
  stored c d = Some (JObj fields) →
  obj_get "students" fields = Some (JArr (pre ++ JObj sfields :: post)) →
  Forall (other_student studentId) pre →
  strict_eq (obj_get "id" sfields) (Some studentId) = true →
  or_else (obj_get "archived" fields) (Some (JArr [])) = Some (JArr archived) →
  post_archive_student c now req_body d
  = (res_json ok_true,
     upsert_state c
       (JObj (obj_set "archived"
                (JArr (archived_student now sfields :: archived))
                (obj_set "students" (JArr (pre ++ post)) fields))) d).
Proof.
  intros Hsup Hid Ht Hst Hstud Hpre Hs Harch.
  unfold post_archive_student, handle, mbind, M_bind, lift, loadState,
    saveState, mret, M_ret.
  cbv zeta. rewrite Hid.
  change (truthyv (Some studentId)) with (truthy studentId).
  rewrite Ht, Hsup. cbn [negb]. cbv beta iota.
  unfold stored in Hst. rewrite Hst, truthy_object.
  simpl get. rewrite Hstud. simpl or_else. simpl as_array. cbv beta iota.
  rewrite (findIndex_first studentId (JObj sfields) pre post 0 Hpre)
    by (unfold has_id; simpl; by rewrite Hs).
  cbv beta iota. rewrite Nat.add_0_l.
  rewrite list_lookup_middle by done. rewrite delete_middle.
  cbn [assign get]. cbv beta iota.
  rewrite obj_get_set_ne by done. rewrite Harch.
  cbn [as_array]. cbv beta iota. by rewrite obj_set_set.
Qed.

Lemma archive_student_moves_first_match_witness :
  supabase Sample.config = true
  ∧ studentId_of (Sample.ask (JNum 7)) = Some (JNum 7)
  ∧ truthy (JNum 7) = true
  ∧ stored Sample.config Sample.database = Some (JObj Sample.fields)
  ∧ obj_get "students" Sample.fields
    = Some (JArr ([Sample.ravi] ++ JObj Sample.asha :: [Sample.asha_twice]))
  ∧ Forall (other_student (JNum 7)) [Sample.ravi]
  ∧ strict_eq (obj_get "id" Sample.asha) (Some (JNum 7)) = true
  ∧ or_else (obj_get "archived" Sample.fields) (Some (JArr []))
    = Some (JArr [Sample.meena])
  ∧ post_archive_student Sample.config Sample.now (Sample.ask (JNum 7))
      Sample.database
    = (res_json ok_true,
       upsert_state Sample.config
         (JObj (obj_set "archived"
                  (JArr (archived_student Sample.now Sample.asha
                           :: [Sample.meena]))
                  (obj_set "students"
                     (JArr ([Sample.ravi] ++ [Sample.asha_twice]))
                     Sample.fields))) Sample.database).
Proof.
  assert (Hpre : Forall (other_student (JNum 7)) [Sample.ravi]).
  { constructor; [split; [discriminate | reflexivity] | constructor]. }
  repeat (split; [first [reflexivity | exact Hpre] |]).
  apply (archive_student_moves_first_match Sample.config Sample.now
           Sample.database (Sample.ask (JNum 7)) (JNum 7) Sample.fields
           Sample.asha [Sample.ravi] [Sample.asha_twice] [Sample.meena]);
    first [reflexivity | exact Hpre].
Defined.

(** Claim C1 fails as stated: the only student has the identifier [0],
    the request asks for [0], and the answer is the 400 of the guard on a
    falsy [studentId]; nothing is moved. *)
Lemma archive_student_rejects_identifier_zero :
  has_id (Some (JNum 0)) Sample.zero = Ok true
  ∧ post_archive_student Sample.config Sample.now (Sample.ask (JNum 0))
      Sample.zero_database
    = (res_error 400 "studentId required", Sample.zero_database).
Proof. split; reflexivity. Qed.

(** ** Loading and saving the document *)

Lemma loadState_truthy (c : config) (d d1 : db) (state : json) :
  loadState c d = (Ok state, d1) → truthy state = true.
Proof.
  unfold loadState. destruct (supabase c); simpl.
  - destruct (app_state d !! STATE_ID c) as [data|] eqn:E.
    + destruct (truthy data) eqn:Ht; by intros [= <- <-].
    + by intros [= <- <-].
  - by intros [= <- <-].
Qed.

Lemma truthy_non_null (v : json) : truthy v = true → v ≠ JNull.
Proof. by destruct v. Qed.

(** A second load reads what the first one returned and changes nothing. *)
Lemma loadState_stable (c : config) (d d1 : db) (state : json) :
  loadState c d = (Ok state, d1) → loadState c d1 = (Ok state, d1).
Proof.
  unfold loadState. destruct (supabase c); simpl.
  - destruct (app_state d !! STATE_ID c) as [data|] eqn:E.
    + intros [= <- <-]. by rewrite E.
    + intros [= <- <-]. simpl. by rewrite lookup_insert_eq.
  - by intros [= <- <-].
Qed.

(** A load writes only when the store is configured and the row absent. *)
Lemma loadState_reads (c : config) (d d1 : db) (state : json) :
  loadState c d = (Ok state, d1) →
  is_Some (stored c d) ∨ supabase c = false → d1 = d.
Proof.
  unfold loadState, stored. destruct (supabase c); simpl.
  - destruct (app_state d !! STATE_ID c) as [data|] eqn:E.
    + by intros [= <- <-].
    + intros _ [[x Hx]|Hx]; done.
  - by intros [= <- <-].
Qed.

(** Claim C2, as amended: for a truthy [studentId] that no entry of the
    loaded [students] carries (the entries being readable records),
    [post_archive_student] answers [{ok: true}] and saves nothing: the
    database is left as [loadState] leaves it, which is unchanged when the
    row exists or the store is not configured; a second call gives the
    same answer and the same database, and the document read afterwards
    is the one read before. *)
Theorem archive_student_unknown_is_noop
    (c : config) (now : string) (d d1 : db) (req_body : value)
    (studentId state : json) (students : list json) :
  studentId_of req_body = Some studentId →
  truthy studentId = true →
  loadState c d = (Ok state, d1) →
  or_else (opt_get (Some state) "students") (Some (JArr []))
  = Some (JArr students) →
  Forall (other_student studentId) students →
  post_archive_student c now req_body d = (res_json ok_true, d1)
  ∧ post_archive_student c now req_body d1 = (res_json ok_true, d1)
  ∧ loadState c d1 = (Ok state, d1)
  ∧ (is_Some (stored c d) ∨ supabase c = false → d1 = d).
Proof.
  intros Hid Ht Hload Hstud Hall.
  assert (Hcall : ∀ d0, loadState c d0 = (Ok state, d1) →
            post_archive_student c now req_body d0 = (res_json ok_true, d1)).
  { intros d0 H0.
    unfold post_archive_student, handle, mbind, M_bind, lift, mret, M_ret.
    cbv zeta. rewrite Hid.
    change (truthyv (Some studentId)) with (truthy studentId).
    rewrite Ht. cbn [negb]. cbv beta iota. rewrite H0.
    rewrite (get_non_null state "students")
      by (eapply truthy_non_null, loadState_truthy, Hload).
    rewrite Hstud. cbn [as_array]. cbv beta iota.
    by rewrite (findIndex_none studentId students 0 Hall). }
  split; [by apply Hcall|].
  split; [by eapply Hcall, loadState_stable|].
  split; [by eapply loadState_stable|].
  by eapply loadState_reads.
Qed.

Lemma archive_student_unknown_is_noop_witness :
  studentId_of (Sample.ask (JNum 9)) = Some (JNum 9)
  ∧ truthy (JNum 9) = true
  ∧ loadState Sample.config Sample.database
    = (Ok (JObj Sample.fields), Sample.database)
  ∧ or_else (opt_get (Some (JObj Sample.fields)) "students") (Some (JArr []))
    = Some (JArr [Sample.ravi; JObj Sample.asha; Sample.asha_twice])
  ∧ Forall (other_student (JNum 9))
      [Sample.ravi; JObj Sample.asha; Sample.asha_twice]
  ∧ post_archive_student Sample.config Sample.now (Sample.ask (JNum 9))
      Sample.database
    = (res_json ok_true, Sample.database).
Proof.
  assert (Hall : Forall (other_student (JNum 9))
                   [Sample.ravi; JObj Sample.asha; Sample.asha_twice]).
  { repeat (constructor; [split; [discriminate | reflexivity] |]).
    constructor. }
  repeat (split; [first [reflexivity | exact Hall] |]).
  apply (archive_student_unknown_is_noop Sample.config Sample.now
           Sample.database Sample.database (Sample.ask (JNum 9)) (JNum 9)
           (JObj Sample.fields)
           [Sample.ravi; JObj Sample.asha; Sample.asha_twice]);
    first [reflexivity | exact Hall].
Defined.

(** Claim C2 fails as stated: no stored student has the identifier [0],
    yet asking for [0] (or sending no identifier) is answered with the
    error status 400 and not with [{ok: true}]. *)
Lemma archive_student_unknown_zero_is_an_error :
  Forall (other_student (JNum 0)) [Sample.ravi; JObj Sample.asha; Sample.asha_twice]
  ∧ post_archive_student Sample.config Sample.now (Sample.ask (JNum 0))
      Sample.database
    = (res_error 400 "studentId required", Sample.database)
  ∧ post_archive_student Sample.config Sample.now (Some (JObj []))
      Sample.database
    = (res_error 400 "studentId required", Sample.database).
Proof.
  split; [|split; reflexivity].
  repeat (constructor; [split; [discriminate | reflexivity] |]). constructor.
Qed.

(** Claim C3, as amended.  Database-backed variant with no row: when the
    store is configured [loadState] returns the empty default and upserts
    it, so that the next load reads the persisted row and writes nothing
    more; when it is not configured the default is returned and nothing
    is written.  File-backed variant: with the file absent [readJSONFile]
    returns the fallback of its caller and no file is created, the GET
    handlers leaving the file system as it is. *)
Theorem load_without_document
    (c : config) (d : db) (J : FileServer.codec) (fc : FileServer.config)
    (fs : FileServer.filesystem) (filePath : string) (fallback : json) :
  stored c d = None →
  FileServer.files fs !! filePath = None →
  let d' := if supabase c then upsert_state c default_state d else d in
  loadState c d = (Ok default_state, d')
  ∧ stored c d' = (if supabase c then Some default_state else None)
  ∧ loadState c d' = (Ok default_state, d')
  ∧ FileServer.readJSONFile J fs filePath fallback = fallback
  ∧ (FileServer.get_data J fc fs).2 = fs
  ∧ (FileServer.get_archive J fc fs).2 = fs.
Proof.
  intros Hrow Hfile. unfold stored in *. cbv zeta.
  assert (Hload : loadState c d
            = (Ok default_state,
               if supabase c then upsert_state c default_state d else d)).
  { unfold loadState. destruct (supabase c); simpl; by rewrite ?Hrow. }
  split; [exact Hload|]. split.
  { destruct (supabase c); simpl; [apply lookup_insert_eq | exact Hrow]. }
  split; [by eapply loadState_stable|].
  split; [|done].
  unfold FileServer.readJSONFile. by rewrite Hfile.
Qed.

Lemma load_without_document_witness :
  stored Sample.config Sample.empty_database = None
  ∧ FileServer.files SampleFiles.blank
      !! FileServer.DATA_FILE SampleFiles.config = None
  ∧ loadState Sample.config Sample.empty_database
    = (Ok default_state,
       upsert_state Sample.config default_state Sample.empty_database).
Proof.
  split; [reflexivity|]. split; [reflexivity|].
  apply (load_without_document Sample.config Sample.empty_database
           JsonText.json_text SampleFiles.config SampleFiles.blank
           (FileServer.DATA_FILE SampleFiles.config) FileServer.no_students);
    reflexivity.
Defined.

(** Claim C3 fails as stated in the file-backed variant: on a disk with
    no [data.json], GET /api/data answers the caller's fallback
    [{students: []}], which is not the three-field default, and the file
    still does not exist afterwards. *)
Lemma file_load_creates_nothing :
  FileServer.get_data JsonText.json_text SampleFiles.config SampleFiles.blank
  = (res_json (JObj [("students", JArr [])]), SampleFiles.blank)
  ∧ JObj [("students", JArr [])] ≠ default_state
  ∧ FileServer.files
      (FileServer.get_data JsonText.json_text SampleFiles.config
         SampleFiles.blank).2
      !! FileServer.DATA_FILE SampleFiles.config = None.
Proof. split; [reflexivity|]. split; [discriminate | reflexivity]. Qed.

(** Claim C4, as amended.  Database-backed variant: a load right after
    [saveState] returns the saved document when the store is configured
    and the document is truthy (every object and every array is), and the
    empty default otherwise; it writes nothing.  File-backed variant: when
    [writeJSONFile] reports success for a document that the JSON text
    round-trips, [readJSONFile] of the same path returns that document,
    whatever the fallback. *)
Theorem save_then_load
    (c : config) (d : db) (doc : json)
    (J : FileServer.codec) (fs fs' : FileServer.filesystem)
    (filePath : string) (fallback : json) :
  FileServer.parse J (FileServer.stringify J doc) = Some doc →
  FileServer.stringify J doc ≠ "" →
  FileServer.writeJSONFile J filePath doc fs = (true, fs') →
  loadState c (saveState c doc d).2
  = (Ok (if supabase c && truthy doc then doc else default_state),
     (saveState c doc d).2)
  ∧ FileServer.readJSONFile J fs' filePath fallback = doc.
Proof.
  intros Hrt Hne Hw. split.
  - unfold saveState, loadState. destruct (supabase c); simpl; [|done].
    by rewrite lookup_insert_eq.
  - unfold FileServer.writeJSONFile in Hw.
    case_bool_decide; [done|]. injection Hw as <-.
    unfold FileServer.readJSONFile. simpl. rewrite lookup_insert_eq.
    rewrite bool_decide_eq_false_2 by done. by rewrite Hrt.
Qed.

Lemma save_then_load_witness :
  FileServer.parse JsonText.json_text
      (FileServer.stringify JsonText.json_text (JObj Sample.fields))
    = Some (JObj Sample.fields)
  ∧ FileServer.stringify JsonText.json_text (JObj Sample.fields) ≠ ""
  ∧ FileServer.writeJSONFile JsonText.json_text
      (FileServer.DATA_FILE SampleFiles.config) (JObj Sample.fields)
      SampleFiles.blank
    = (true,
       FileServer.Fs
         {[ FileServer.DATA_FILE SampleFiles.config
              := JsonText.print 0 (JObj Sample.fields) ]} ∅)
  ∧ loadState Sample.config
      (saveState Sample.config (JObj Sample.fields) Sample.empty_database).2
    = (Ok (JObj Sample.fields),
       (saveState Sample.config (JObj Sample.fields) Sample.empty_database).2)
  ∧ FileServer.readJSONFile JsonText.json_text
      (FileServer.Fs
         {[ FileServer.DATA_FILE SampleFiles.config
              := JsonText.print 0 (JObj Sample.fields) ]} ∅)
      (FileServer.DATA_FILE SampleFiles.config) FileServer.no_students
    = JObj Sample.fields.
Proof.
  assert (Hrt : FileServer.parse JsonText.json_text
                  (FileServer.stringify JsonText.json_text (JObj Sample.fields))
                = Some (JObj Sample.fields)) by (vm_compute; reflexivity).
  assert (Hne : FileServer.stringify JsonText.json_text (JObj Sample.fields) ≠ "")
    by (vm_compute; discriminate).
  assert (Hw : FileServer.writeJSONFile JsonText.json_text
      (FileServer.DATA_FILE SampleFiles.config) (JObj Sample.fields)
      SampleFiles.blank
    = (true,
       FileServer.Fs
         {[ FileServer.DATA_FILE SampleFiles.config
              := JsonText.print 0 (JObj Sample.fields) ]} ∅))
    by (vm_compute; reflexivity).
  split; [exact Hrt|]. split; [exact Hne|]. split; [exact Hw|].
  exact (save_then_load Sample.config Sample.empty_database
           (JObj Sample.fields) JsonText.json_text SampleFiles.blank _
           (FileServer.DATA_FILE SampleFiles.config) FileServer.no_students
           Hrt Hne Hw).
Defined.

(** Claim C4 fails as stated when the store is not configured:
    [saveState] returns without writing and the next load answers the
    empty default, not the document that was saved. *)
Lemma save_without_store_is_lost :
  loadState Sample.offline
    (saveState Sample.offline (JObj Sample.fields) Sample.empty_database).2
  = (Ok default_state, Sample.empty_database)
  ∧ default_state ≠ JObj Sample.fields.
Proof. split; [reflexivity | discriminate]. Qed.

(** ** Backup and restore *)

(** Claim C5, as amended: with the store configured, a backup of a truthy
    payload creates a new record, answers its identifier, and a restore of
    that identifier answers the payload itself; the records that existed
    are untouched; a restore of an identifier without a record is answered
    with the error status 500 and changes nothing. *)
Theorem backup_then_restore
    (c : config) (d : db) (req_body : value) (p : json) :
  supabase c = true →
  opt_get req_body "data" = Some p →
  truthy p = true →
  let id := fresh (dom (backups d)) in
  let d' := (post_backup c req_body d).2 in
  post_backup c req_body d
  = (res_json (JObj [("backup", JNum (Z.of_N id))]), d')
  ∧ backups d !! id = None
  ∧ get_restore c id d' = (res_json p, d')
  ∧ (∀ other, other ≠ id → backups d' !! other = backups d !! other)
  ∧ app_state d' = app_state d
  ∧ (∀ missing, backups d !! missing = None →
       get_restore c missing d
       = (res_error 500 "Cannot coerce the result to a single JSON object", d)).
Proof.
  intros Hsup Hdata Ht. cbv zeta.
  assert (Hrun : post_backup c req_body d
            = (res_json (JObj [("backup", JNum (Z.of_N (fresh (dom (backups d)))))]),
               {| app_state := app_state d;
                  backups := <[fresh (dom (backups d)) := p]> (backups d) |})).
  { unfold post_backup, handle. rewrite Hsup, Hdata, Ht. reflexivity. }
  rewrite Hrun. cbn [snd]. split; [done|].
  split. { apply not_elem_of_dom, is_fresh. }
  split. { unfold get_restore, handle. rewrite Hsup. simpl.
           by rewrite lookup_insert_eq. }
  split. { intros other Hne. simpl. by rewrite lookup_insert_ne. }
  split; [done|].
  intros missing Hmiss. unfold get_restore, handle. rewrite Hsup. simpl.
  by rewrite Hmiss.
Qed.

Lemma backup_then_restore_witness :
  supabase Sample.config = true
  ∧ opt_get (Some (JObj [("data", JObj Sample.fields)])) "data"
    = Some (JObj Sample.fields)
  ∧ truthy (JObj Sample.fields) = true
  ∧ get_restore Sample.config (fresh (dom (backups Sample.database)))
      (post_backup Sample.config (Some (JObj [("data", JObj Sample.fields)]))
         Sample.database).2
    = (res_json (JObj Sample.fields),
       (post_backup Sample.config (Some (JObj [("data", JObj Sample.fields)]))
          Sample.database).2).
Proof.
  repeat (split; [reflexivity|]).
  apply (backup_then_restore Sample.config Sample.database
           (Some (JObj [("data", JObj Sample.fields)])) (JObj Sample.fields));
    reflexivity.
Defined.

(** Claim C5 fails as stated for the payload [0]: the guard on a falsy
    payload answers 400, no record is created and no identifier is
    returned. *)
Lemma backup_rejects_payload_zero :
  post_backup Sample.config (Some (JObj [("data", JNum 0)])) Sample.database
  = (res_error 400 "data required", Sample.database).
Proof. reflexivity. Qed.

(** ** The data endpoint of the database-backed server *)

Lemma post_data_run (c : config) (d d1 : db) (req_body : value)
    (fields : list (string * json)) :
  loadState c d = (Ok (JObj fields), d1) →
  ∃ students : value,
    (students = opt_get req_body "students" ∧ isArray students = true
     ∨ isArray (opt_get req_body "students") = false
       ∧ students = opt_get (opt_get req_body "data") "students"
       ∧ isArray students = true
     ∨ isArray (opt_get req_body "students") = false
       ∧ isArray (opt_get (opt_get req_body "data") "students") = false
       ∧ students = obj_get "students" fields)
    ∧ ∃ st, assign (JObj fields) "students" students = Ok st
            ∧ post_data c req_body d = (res_json ok_true, (saveState c st d1).2).
Proof.
  intros Hload.
  unfold post_data, handle, mbind, M_bind, lift, mret, M_ret.
  rewrite Hload.
  destruct (isArray (opt_get req_body "students")) eqn:E1.
  - eexists. split; [left; done|]. eexists. split; [done|].
    simpl. unfold saveState. by destruct (supabase c).
  - destruct (isArray (opt_get (opt_get req_body "data") "students")) eqn:E2.
    + eexists. split; [right; left; done|]. eexists. split; [done|].
      simpl. unfold saveState. by destruct (supabase c).
    + eexists. split; [right; right; done|]. eexists. split; [done|].
      simpl. unfold saveState. by destruct (supabase c).
Qed.

(** What a load sees after a save of an object that extends the loaded
    one: the saved object when the store is configured, the default (which
    is what was loaded) when it is not. *)
Lemma load_after_save (c : config) (d d1 : db) (fields fields' : list (string * json)) :
  loadState c d = (Ok (JObj fields), d1) →
  ∃ seen, loadState c (saveState c (JObj fields') d1).2
          = (Ok (JObj seen), (saveState c (JObj fields') d1).2)
          ∧ (seen = fields' ∨ supabase c = false ∧ seen = fields).
Proof.
  intros Hload. unfold saveState. destruct (supabase c) eqn:Hsup; simpl.
  - exists fields'. split; [|by left].
    unfold loadState. rewrite Hsup. simpl. by rewrite lookup_insert_eq.
  - exists fields. split; [|by right].
    eapply loadState_stable, Hload.
Qed.

(** Claim C10: when the stored document is an object and the body carries
    no array at [students] nor at [data.students], [post_data] answers
    [{ok: true}] and saves the loaded document verbatim, so that the next
    load returns it unchanged; and for every body, the document read after
    the request agrees with the one read before on every field other
    than [students]. *)
Theorem post_data_without_students_changes_nothing
    (c : config) (d d1 : db) (req_body : value)
    (fields : list (string * json)) :
  loadState c d = (Ok (JObj fields), d1) →
  isArray (opt_get req_body "students") = false →
  isArray (opt_get (opt_get req_body "data") "students") = false →
  post_data c req_body d = (res_json ok_true, (saveState c (JObj fields) d1).2)
  ∧ loadState c (post_data c req_body d).2
    = (Ok (JObj fields), (post_data c req_body d).2)
  ∧ ∀ any_body : value,
      (post_data c any_body d).1 = res_json ok_true
      ∧ ∃ fields',
          loadState c (post_data c any_body d).2
          = (Ok (JObj fields'), (post_data c any_body d).2)
          ∧ ∀ k, k ≠ "students" → obj_get k fields' = obj_get k fields.
Proof.
  intros Hload H1 H2.
  assert (Hrun : post_data c req_body d
                 = (res_json ok_true, (saveState c (JObj fields) d1).2)).
  { destruct (post_data_run c d d1 req_body fields Hload)
      as (students & Hcase & st & Hst & Hrun).
    destruct Hcase as [[-> Ha]|[(_ & -> & Ha)|(_ & _ & ->)]];
      [congruence | congruence |].
    rewrite assign_same in Hst. by injection Hst as <-. }
  split; [exact Hrun|]. split.
  { rewrite Hrun. cbn [snd].
    destruct (load_after_save c d d1 fields fields Hload) as (seen & Hseen & Hs).
    by destruct Hs as [->|[_ ->]]. }
  intros any_body.
  destruct (post_data_run c d d1 any_body fields Hload)
    as (students & _ & st & Hst & Hany).
  rewrite Hany. cbn [fst snd]. split; [done|].
  assert (∃ fields', st = JObj fields'
            ∧ ∀ k, k ≠ "students" → obj_get k fields' = obj_get k fields)
    as (fields' & -> & Hframe).
  { injection Hst as <-. eexists. split; [done|]. intros k Hk.
    destruct students; [by apply obj_get_set_ne|].
    rewrite obj_get_delete. by rewrite decide_False. }
  destruct (load_after_save c d d1 fields fields' Hload) as (seen & Hseen & Hs).
  exists seen. split; [done|].
  destruct Hs as [->|[_ ->]]; done.
Qed.

Lemma post_data_without_students_changes_nothing_witness :
  loadState Sample.config Sample.database
  = (Ok (JObj Sample.fields), Sample.database)
  ∧ isArray (opt_get (Some (JObj [("students", JStr "none")])) "students")
    = false
  ∧ isArray (opt_get (opt_get (Some (JObj [("students", JStr "none")])) "data")
               "students") = false
  ∧ post_data Sample.config (Some (JObj [("students", JStr "none")]))
      Sample.database
    = (res_json ok_true,
       (saveState Sample.config (JObj Sample.fields) Sample.database).2).
Proof.
  repeat (split; [reflexivity|]).
  apply (post_data_without_students_changes_nothing Sample.config
           Sample.database Sample.database
           (Some (JObj [("students", JStr "none")])) Sample.fields);
    reflexivity.
Defined.

(** ** The message list of the primary provider *)

Import Turns.
Import Outcomes.

(** Induction on a value and on the entries of its arrays. *)
Lemma json_nested_ind (P : json → Prop) :
  P JNull → (∀ b, P (JBool b)) → (∀ n, P (JNum n)) → (∀ s, P (JStr s)) →
  (∀ l, Forall P l → P (JArr l)) → (∀ fs, P (JObj fs)) → ∀ v, P v.
Proof.
  intros Hnull Hbool Hnum Hstr Harr Hobj.
  fix IH 1.
  intros [| b | n | s | l | fs];
    [exact Hnull | apply Hbool | apply Hnum | apply Hstr | | apply Hobj].
  apply Harr. revert l. fix IHl 1. intros [|x l]; constructor.
  - apply IH.
  - apply IHl.
Qed.

(** [String] converts the values that hold no object with a [toString]
    of its own, and throws on the others. *)
Lemma to_String_outcome (v : json) :
  if convertible v then ∃ s, to_String v = Ok s
  else to_String v = Throw "Cannot convert object to primitive value".
Proof.
  induction v as [| b | n | s | l IH | fs] using json_nested_ind;
    try (simpl; eauto; fail).
  - destruct b; simpl; eauto.
  - cbn [convertible to_String].
    set (items := fix items (l : list json) : result (list string) :=
           match l with
           | [] => Ok []
           | x :: l' =>
               match match x with
                     | JNull => Ok ""
                     | _ => to_String x
                     end with
               | Ok s => match items l' with
                         | Ok ss => Ok (s :: ss)
                         | Throw m => Throw m
                         end
               | Throw m => Throw m
               end
           end).
    assert (H : if forallb convertible l then ∃ ss, items l = Ok ss
                else items l = Throw "Cannot convert object to primitive value").
    { induction IH as [|x l Hx _ IHl]; [simpl; eauto|].
      cbn [forallb items].
      assert (Hx' : if convertible x
                    then ∃ s, match x with
                              | JNull => Ok ""
                              | _ => to_String x
                              end = Ok s
                    else match x with
                         | JNull => Ok ""
                         | _ => to_String x
                         end = Throw "Cannot convert object to primitive value").
      { destruct x; try exact Hx. simpl. eauto. }
      destruct (convertible x); simpl.
      - destruct Hx' as [s ->].
        destruct (forallb convertible l).
        + destruct IHl as [ss ->]. eauto.
        + by rewrite IHl.
      - by rewrite Hx'. }
    destruct (forallb convertible l).
    + destruct H as [ss ->]. eauto.
    + by rewrite H.
  - simpl. destruct (obj_get "toString" fs); eauto.
Qed.

Lemma to_String_throws (v : json) (e : string) :
  to_String v = Throw e → e = "Cannot convert object to primitive value".
Proof.
  pose proof (to_String_outcome v) as H. destruct (convertible v).
  - destruct H as [s ->]. done.
  - rewrite H. by intros [= <-].
Qed.

Lemma as_text_convertible (t : json) :
  convertible t = true → ∃ s, as_text (Some t) = Ok s.
Proof.
  intros Hc. simpl. destruct (truthy t); [|eauto].
  pose proof (to_String_outcome t) as H. by rewrite Hc in H.
Qed.

Lemma as_text_unconvertible (t : json) :
  truthy t = true → convertible t = false →
  as_text (Some t) = Throw "Cannot convert object to primitive value".
Proof.
  intros Ht Hc. simpl. rewrite Ht.
  pose proof (to_String_outcome t) as H. by rewrite Hc in H.
Qed.

Lemma as_text_throws (v : value) (e : string) :
  as_text v = Throw e → e = "Cannot convert object to primitive value".
Proof.
  destruct v as [t|]; simpl; [|done].
  destruct (truthy t); [apply to_String_throws | done].
Qed.


Lemma text_of_as_text (v : value) : FileServer.text_of v = as_text v.
Proof.
  unfold FileServer.text_of, as_text, or_else, truthyv.
  destruct v as [t|]; [|done]. by destruct (truthy t).
Qed.

Lemma map_history_kept (h : json) :
  FileServer.map_history h
  = match kept_as h with
    | None => Ok JNull
    | Some role =>
        content ← as_text (opt_get (Some h) "text");
        Ok (JObj [("role", JStr role); ("content", JStr content)])
    end.
Proof.
  unfold FileServer.map_history, kept_as. rewrite text_of_as_text.
  destruct h as [| b | n | s | l | fs]; simpl; try done.
  - by destruct b.
  - by destruct (negb (n =? 0)%Z).
  - by destruct (negb (bool_decide (s = ""))).
  - destruct (obj_get "role" fs) as [[| | | r | |]|]; simpl; try done.
    destruct (decide (r = "user")) as [->|Hu]; [done|].
    rewrite (bool_decide_eq_false_2 _ Hu). simpl.
    destruct (decide (r = "model")) as [->|Hm]; [done|].
    rewrite (bool_decide_eq_false_2 _ Hm). simpl.
    destruct (decide (r = "assistant")) as [->|Ha]; [done|].
    rewrite (bool_decide_eq_false_2 _ Ha). simpl.
    rewrite decide_False by (by intros [?|?]). done.
Qed.

Lemma map_history_turns (l : list json) :
  match map_result FileServer.map_history l with
  | Ok mapped => upstream_turns l = Ok (List.filter truthy mapped)
  | Throw e => upstream_turns l = Throw e
  end.
Proof.
  induction l as [|h l IH]; [done|].
  cbn [map_result upstream_turns]. rewrite map_history_kept.
  destruct (kept_as h) as [role|].
  - destruct (as_text (opt_get (Some h) "text")) as [content|e]; [|done].
    destruct (map_result FileServer.map_history l) as [mapped|e]; simpl;
      by rewrite IH.
  - destruct (map_result FileServer.map_history l) as [mapped|e]; simpl; done.
Qed.

Lemma buildMessages_primary (message : value) (l : list json) :
  FileServer.buildMessages message (Some (JArr l)) = primary_messages message l.
Proof.
  unfold FileServer.buildMessages, primary_messages. cbv zeta.
  change (FileServer.history_list (Some (JArr l))) with l.
  pose proof (map_history_turns l) as H. rewrite text_of_as_text.
  destruct (map_result FileServer.map_history l) as [mapped|e];
    rewrite H; simpl; [|done].
  by destruct (as_text message).
Qed.

Lemma buildMessages_no_array (message history : value) :
  (∀ l, history ≠ Some (JArr l)) →
  FileServer.buildMessages message history
  = FileServer.buildMessages message (Some (JArr [])).
Proof.
  intros Hno. unfold FileServer.buildMessages.
  assert (FileServer.history_list history = []) as ->; [|done].
  destruct history as [[| | | | l |]|]; try done. by destruct (Hno l).
Qed.

Lemma kept_as_dropped (h : json) :
  h = JNull
  ∨ (opt_get (Some h) "role" ≠ Some (JStr "user")
     ∧ opt_get (Some h) "role" ≠ Some (JStr "model")
     ∧ opt_get (Some h) "role" ≠ Some (JStr "assistant")) →
  kept_as h = None.
Proof.
  intros [->|(Hu & Hm & Ha)]; [done|].
  destruct h as [| b | n | s | l | fs]; try done. simpl in *.
  destruct (obj_get "role" fs) as [[| | | r | |]|]; try done.
  rewrite decide_False by (by intros ->).
  rewrite decide_False; [done|]. by intros [->| ->].
Qed.

Lemma kept_as_role (h : json) (r : string) :
  opt_get (Some h) "role" = Some (JStr r) →
  r = "user" ∨ r = "model" ∨ r = "assistant" →
  kept_as h = Some (if decide (r = "user") then "user" else "assistant").
Proof.
  intros Hr Hin. destruct h as [| b | n | s | l | fs]; try done.
  simpl in *. rewrite Hr.
  destruct (decide (r = "user")); [done|].
  rewrite decide_True; [done|]. by destruct Hin as [?|[?|?]]; [|left|right].
Qed.

Lemma upstream_turns_dropped (pre post : list json) (h : json) :
  kept_as h = None →
  upstream_turns (pre ++ h :: post) = upstream_turns (pre ++ post).
Proof.
  intros Hh. induction pre as [|x pre IH]; simpl; [by rewrite Hh|].
  by rewrite IH.
Qed.

(** Claim C9, as amended.  The message list of the file-backed variant
    is the system instruction, then the turns of the history entries that
    are objects with the role ["user"], ["model"] or ["assistant"], in
    their original order and with their text made a string, then the new
    user turn.  An entry that is [null] or has another role, or none, is
    dropped wherever it stands; a kept entry at the head of the history
    comes right after the instruction, under the role ["user"] or
    ["assistant"] and with its text made a string, a missing or falsy text
    being the empty string; a text that cannot be made a string, in a
    kept entry or in the message, makes [buildMessages] throw, and no
    list is built: that is a truthy text that is an object with a
    property [toString] of its own or an array that holds one.  A
    history that is no array counts as empty. *)
Theorem history_entries_kept_in_order (message : value) (history : list json) :
  FileServer.buildMessages message (Some (JArr history))
  = primary_messages message history
  ∧ (∀ pre h post,
       h = JNull
       ∨ (opt_get (Some h) "role" ≠ Some (JStr "user")
          ∧ opt_get (Some h) "role" ≠ Some (JStr "model")
          ∧ opt_get (Some h) "role" ≠ Some (JStr "assistant")) →
       FileServer.buildMessages message (Some (JArr (pre ++ h :: post)))
       = FileServer.buildMessages message (Some (JArr (pre ++ post))))
  ∧ (∀ h r rest content messages,
       opt_get (Some h) "role" = Some (JStr r) →
       r = "user" ∨ r = "model" ∨ r = "assistant" →
       as_text (opt_get (Some h) "text") = Ok content →
       FileServer.buildMessages message (Some (JArr rest)) = Ok messages →
       ∃ instruction turns,
         messages = instruction :: turns
         ∧ FileServer.buildMessages message (Some (JArr (h :: rest)))
           = Ok (instruction
                 :: JObj [("role", JStr (if decide (r = "user")
                                         then "user" else "assistant"));
                          ("content", JStr content)]
                 :: turns))
  ∧ (∀ h r rest e,
       opt_get (Some h) "role" = Some (JStr r) →
       r = "user" ∨ r = "model" ∨ r = "assistant" →
       as_text (opt_get (Some h) "text") = Throw e →
       FileServer.buildMessages message (Some (JArr (h :: rest))) = Throw e)
  ∧ (∀ other, (∀ l, other ≠ Some (JArr l)) →
       FileServer.buildMessages message other
       = FileServer.buildMessages message (Some (JArr [])))
  ∧ as_text None = Ok ""
  ∧ (∀ s, as_text (Some (JStr s)) = Ok s)
  ∧ (∀ t, convertible t = true → ∃ s, as_text (Some t) = Ok s)
  ∧ (∀ t, truthy t = true → convertible t = false →
       as_text (Some t) = Throw "Cannot convert object to primitive value")
  ∧ FileServer.buildMessages (Some (JStr "hi"))
      (Some (JArr [JNull;
                   JObj [("role", JStr "system"); ("text", JStr "x")];
                   JObj [("role", JStr "user"); ("text", JNum 5)];
                   JStr "user";
                   JObj [("role", JStr "model")];
                   JObj [("text", JStr "no role")];
                   JObj [("role", JStr "assistant");
                         ("text", JArr [JStr "a"; JNull; JBool true])]]))
    = Ok [JObj [("role", JStr "system");
                ("content", JStr "You are SSL BOT for Savitri Success Library. Answer in simple Hinglish. Help students for any subject/exam. Be polite, concise, and accurate. If asked for study material, share official/free resources links when possible.")];
          JObj [("role", JStr "user"); ("content", JStr "5")];
          JObj [("role", JStr "assistant"); ("content", JStr "")];
          JObj [("role", JStr "assistant"); ("content", JStr "a,,true")];
          JObj [("role", JStr "user"); ("content", JStr "hi")]].
Proof.
  split; [apply buildMessages_primary|].
  split.
  { intros pre h post Hh. rewrite !buildMessages_primary.
    unfold primary_messages.
    by rewrite (upstream_turns_dropped pre post h (kept_as_dropped h Hh)). }
  split.
  { intros h r rest content messages Hr Hin Hc. rewrite !buildMessages_primary.
    unfold primary_messages. cbn [upstream_turns].
    rewrite (kept_as_role h r Hr Hin), Hc.
    destruct (upstream_turns rest) as [turns|e]; simpl; [|done].
    destruct (as_text message) as [mine|e]; simpl; [|done].
    intros [= <-]. by eexists _, _. }
  split.
  { intros h r rest e Hr Hin Hc. rewrite buildMessages_primary.
    unfold primary_messages. cbn [upstream_turns].
    by rewrite (kept_as_role h r Hr Hin), Hc. }
  split; [apply buildMessages_no_array|].
  split; [done|].
  split; [|split; [apply as_text_convertible
                  |split; [apply as_text_unconvertible
                          |vm_compute; reflexivity]]].
  intros s. simpl. by case_bool_decide; simplify_eq.
Qed.

(** Claim C9 fails as stated for a history entry that is kept and whose
    text cannot be made a string: [String] throws on an object with a
    property [toString] of its own, so that no message list is built for
    the history [[{role: "user", text: {toString: null}}]]. *)
Lemma text_with_own_toString_builds_no_list :
  FileServer.buildMessages (Some (JStr "hi"))
    (Some (JArr [JObj [("role", JStr "user");
                       ("text", JObj [("toString", JNull)])]]))
  = Throw "Cannot convert object to primitive value"
  ∧ ¬ ∃ messages,
        FileServer.buildMessages (Some (JStr "hi"))
          (Some (JArr [JObj [("role", JStr "user");
                             ("text", JObj [("toString", JNull)])]]))
        = Ok messages.
Proof. split; [reflexivity|]. by intros [messages H]. Qed.

(** ** The fallback chain *)

Lemma map_contents_secondary (l : list json) :
  FileServer.map_contents l = secondary_turns l.
Proof.
  induction l as [|h l IH]; simpl; [done|].
  unfold FileServer.gemini_content.
  destruct h as [| b | n | s | items | fs]; simpl; try done;
    rewrite ?text_of_as_text, IH; try done.
  assert (Hrole : (if strict_eq (obj_get "role" fs) (Some (JStr "user"))
                   then "user" else "model")
                  = match obj_get "role" fs with
                    | Some (JStr r) =>
                        if decide (r = "user") then "user" else "model"
                    | _ => "model"
                    end).
  { destruct (obj_get "role" fs) as [[| | | r | |]|]; simpl; try done.
    destruct (decide (r = "user")) as [->|Hr]; [done|].
    by rewrite (bool_decide_eq_false_2 _ Hr). }
  rewrite Hrole.
  by destruct (as_text (obj_get "text" fs)).
Qed.

Lemma callGemini_contents (c : FileServer.config) (up : Providers.upstream)
    (message history : value) :
  FileServer.GEMINI_API_KEY c ≠ "" →
  FileServer.callGemini c up message history
  = match gemini_contents message (entries history) with
    | Throw e => (Throw e, [])
    | Ok contents => FileServer.try_models up contents FileServer.models None
    end.
Proof.
  intros Hkey. unfold FileServer.callGemini, gemini_contents.
  rewrite bool_decide_eq_false_2 by done.
  change (FileServer.history_list history) with (entries history).
  rewrite map_contents_secondary, text_of_as_text.
  destruct (secondary_turns (entries history)) as [turns|e]; simpl; [|done].
  by destruct (as_text message).
Qed.

Lemma rejection_refusal (model : string) (j : json) :
  match FileServer.rejection_message model j with
  | Ok e => refusal model j = Failed e
  | Throw e => refusal model j = Aborted e
  end.
Proof.
  unfold FileServer.rejection_message, refusal, or_else, truthyv.
  destruct (opt_get (Some j) "error") as [y|] eqn:Ey.
  - destruct (opt_get (Some y) "message") as [x|].
    + destruct (truthy x); simpl; [by destruct (to_String x)|].
      destruct (truthy y); simpl; [by destruct (to_String y)|done].
    + destruct (truthy y); simpl; [by destruct (to_String y)|done].
  - simpl. done.
Qed.

(** One round of the loop. *)
Lemma try_models_step (up : Providers.upstream) (contents : list json)
    (m : string) (ms : list string) (lastErr : option string) :
  FileServer.try_models up contents (m :: ms) lastErr
  = match attempt_outcome up contents m with
    | Answered t => (Ok (t, m), [Providers.GeminiCall m contents])
    | Failed e =>
        ((FileServer.try_models up contents ms (Some e)).1,
         Providers.GeminiCall m contents
         :: (FileServer.try_models up contents ms (Some e)).2)
    | Aborted e => (Throw e, [Providers.GeminiCall m contents])
    end.
Proof.
  assert (Hgo : ∀ e,
            (let (r, tr) := FileServer.try_models up contents ms (Some e) in
             (r, Providers.GeminiCall m contents :: tr))
            = ((FileServer.try_models up contents ms (Some e)).1,
               Providers.GeminiCall m contents
               :: (FileServer.try_models up contents ms (Some e)).2)).
  { intros e. by destruct (FileServer.try_models up contents ms (Some e)). }
  assert (Hrej : ∀ j,
            match FileServer.rejection_message m j with
            | Ok e =>
                let (r, tr) := FileServer.try_models up contents ms (Some e) in
                (r, Providers.GeminiCall m contents :: tr)
            | Throw e => (Throw e, [Providers.GeminiCall m contents])
            end
            = match refusal m j with
              | Answered t => (Ok (t, m), [Providers.GeminiCall m contents])
              | Failed e =>
                  ((FileServer.try_models up contents ms (Some e)).1,
                   Providers.GeminiCall m contents
                   :: (FileServer.try_models up contents ms (Some e)).2)
              | Aborted e => (Throw e, [Providers.GeminiCall m contents])
              end).
  { intros j. pose proof (rejection_refusal m j) as H.
    destruct (FileServer.rejection_message m j); rewrite H; [apply Hgo|done]. }
  cbn [FileServer.try_models]. unfold attempt_outcome, FileServer.tryModel.
  destruct (Providers.gemini up m contents) as [e|st [j|]].
  - apply Hrej.
  - destruct (decide (st = 200%nat)) as [->|Hst].
    + rewrite bool_decide_eq_true_2 by done.
      unfold FileServer.candidate_text, or_else, truthyv.
      fold (reply_text j).
      destruct (reply_text j) as [[| b | n | txt | l | fs]|]; simpl;
        rewrite ?Hgo; try done.
      * by destruct b.
      * by destruct (negb (n =? 0)%Z).
      * destruct (decide (txt = "")) as [->|Htxt]; simpl; [done|].
        rewrite (bool_decide_eq_false_2 _ Htxt). simpl.
        destruct (decide (trim txt = "")) as [Ht|Ht].
        -- rewrite (bool_decide_eq_true_2 _ Ht). simpl.
           first [done | apply Hgo].
        -- by rewrite (bool_decide_eq_false_2 _ Ht).
    + rewrite bool_decide_eq_false_2 by done. apply Hrej.
  - exact (Hrej (JObj [("error", JStr "Parse Error")])).
Qed.

(** Every model before the first one that answers is tried once, in
    order, and the loop stops at the one that answers. *)
Lemma try_models_first (up : Providers.upstream) (contents : list json)
    (tried rest : list string) (m t : string) (lastErr : option string) :
  Forall (λ m', is_Some (failure up contents m')) tried →
  answer up contents m = Some t →
  FileServer.try_models up contents (tried ++ m :: rest) lastErr
  = (Ok (t, m), gemini_calls contents (tried ++ [m])).
Proof.
  intros Htried Hm. revert lastErr.
  induction Htried as [|m' tried Hm' _ IH]; intros lastErr; cbn [app];
    rewrite try_models_step.
  - unfold answer in Hm.
    destruct (attempt_outcome up contents m); by simplify_eq.
  - unfold failure in Hm'. destruct Hm' as [e He].
    destruct (attempt_outcome up contents m'); simplify_eq.
    by rewrite IH.
Qed.

(** A conversion error in the [catch] of the loop ends the loop at that
    model. *)
Lemma try_models_aborted (up : Providers.upstream) (contents : list json)
    (tried rest : list string) (m e : string) (lastErr : option string) :
  Forall (λ m', is_Some (failure up contents m')) tried →
  attempt_outcome up contents m = Aborted e →
  FileServer.try_models up contents (tried ++ m :: rest) lastErr
  = (Throw e, gemini_calls contents (tried ++ [m])).
Proof.
  intros Htried Hm. revert lastErr.
  induction Htried as [|m' tried Hm' _ IH]; intros lastErr; cbn [app];
    rewrite try_models_step.
  - by rewrite Hm.
  - unfold failure in Hm'. destruct Hm' as [e' He].
    destruct (attempt_outcome up contents m'); simplify_eq.
    by rewrite IH.
Qed.

(** When every model fails, each is tried once, in order, and the loop
    throws an error whose message is that of the last failure. *)
Lemma try_models_none (up : Providers.upstream) (contents : list json)
    (ms : list string) (lastErr : option string) :
  Forall (λ m, is_Some (failure up contents m)) ms →
  FileServer.try_models up contents ms lastErr
  = (Throw (default "Gemini failed"
              (match last ms with
               | Some m => failure up contents m
               | None => lastErr
               end)),
     gemini_calls contents ms).
Proof.
  intros Hms. revert lastErr.
  induction Hms as [|m ms Hm _ IH]; intros lastErr; [done|].
  rewrite try_models_step. unfold failure in Hm. destruct Hm as [e He].
  destruct (attempt_outcome up contents m) as [t|e'|e'] eqn:E; simplify_eq.
  rewrite IH. simpl. destruct ms as [|m' ms]; simpl.
  - unfold failure. by rewrite E.
  - destruct (last (m' :: ms)) as [x|] eqn:L; [done|].
    by apply last_None in L.
Qed.

(** Either some model is the first not to fail, or all fail. *)
Lemma first_settled (up : Providers.upstream) (contents : list json)
    (ms : list string) :
  (∃ tried m rest, ms = tried ++ m :: rest
     ∧ Forall (λ m', is_Some (failure up contents m')) tried
     ∧ failure up contents m = None)
  ∨ Forall (λ m, is_Some (failure up contents m)) ms.
Proof.
  induction ms as [|m ms IH]; [by right|].
  destruct (failure up contents m) as [e|] eqn:E.
  - destruct IH as [(tried & m' & rest & -> & Htried & Hm')|Hall].
    + left. exists (m :: tried), m', rest.
      split; [done|]. split; [|done]. constructor; [by rewrite E|done].
    + right. constructor; [by rewrite E|done].
  - left. by exists [], m, ms.
Qed.

(** What the loop comes to: an answer of the first model that does not
    fail, the error that ended the loop at that model, or the last
    failure.  The models asked are a prefix of the list, each asked
    once. *)
Lemma try_models_outcome (up : Providers.upstream) (contents : list json)
    (ms : list string) :
  (∃ tried m rest t,
     ms = tried ++ m :: rest
     ∧ Forall (λ m', is_Some (failure up contents m')) tried
     ∧ answer up contents m = Some t
     ∧ FileServer.try_models up contents ms None
       = (Ok (t, m), gemini_calls contents (tried ++ [m])))
  ∨ (∃ tried m rest e,
       ms = tried ++ m :: rest
       ∧ Forall (λ m', is_Some (failure up contents m')) tried
       ∧ attempt_outcome up contents m = Aborted e
       ∧ FileServer.try_models up contents ms None
         = (Throw e, gemini_calls contents (tried ++ [m])))
  ∨ (Forall (λ m, is_Some (failure up contents m)) ms
     ∧ FileServer.try_models up contents ms None
       = (Throw (default "Gemini failed" (last ms ≫= failure up contents)),
          gemini_calls contents ms)).
Proof.
  destruct (first_settled up contents ms)
    as [(tried & m & rest & -> & Htried & Hm)|Hall].
  - unfold failure in Hm.
    destruct (attempt_outcome up contents m) as [t|e|e] eqn:E; [|done|].
    + left. exists tried, m, rest, t.
      assert (Ha : answer up contents m = Some t)
        by (unfold answer; by rewrite E).
      by rewrite (try_models_first up contents tried rest m t None Htried Ha).
    + right; left. exists tried, m, rest, e.
      by rewrite (try_models_aborted up contents tried rest m e None Htried E).
  - right; right. split; [done|].
    rewrite (try_models_none up contents ms None Hall).
    by destruct (last ms).
Qed.

Lemma chat_failed_non_empty (e : string) : FileServer.chat_failed e ≠ "".
Proof. unfold FileServer.chat_failed. by case_bool_decide. Qed.

Lemma db_chat_failed_non_empty (e : string) : DbServer.chat_failed e ≠ "".
Proof. unfold DbServer.chat_failed. by case_bool_decide. Qed.

(** The primary provider is asked at most once per request, with the
    message list of [buildMessages]. *)
Lemma callOpenAI_once (c : FileServer.config) (up : Providers.upstream)
    (message history : value) :
  (FileServer.callOpenAI c up message history).2 = []
  ∨ ∃ messages,
      FileServer.buildMessages message history = Ok messages
      ∧ FileServer.OPENAI_API_KEY c ≠ ""
      ∧ (FileServer.callOpenAI c up message history).2
        = [Providers.OpenAICall messages].
Proof.
  unfold FileServer.callOpenAI. case_bool_decide; [by left|].
  destruct (FileServer.buildMessages message history) as [messages|e];
    [right; by exists messages | by left].
Qed.

Lemma db_callOpenAI_once (key : string) (up : Providers.upstream)
    (message history : value) :
  (DbServer.callOpenAI key up message history).2 = []
  ∨ (DbServer.callOpenAI key up message history).2
    = [Providers.OpenAICall (DbServer.build_input message history)].
Proof. unfold DbServer.callOpenAI. case_bool_decide; [by left | by right]. Qed.

(** What POST /api/chat does once the primary call has failed. *)
Lemma post_chat_after_failure (c : FileServer.config)
    (up : Providers.upstream) (req_body : value) (message : json)
    (e1 : string) (tr1 : list Providers.call) :
  message_of req_body = Some message →
  truthy message = true →
  FileServer.callOpenAI c up (Some message) (history_of req_body)
  = (Throw e1, tr1) →
  FileServer.post_chat c up req_body
  = if bool_decide (FileServer.GEMINI_API_KEY c = "")
    then (res_error 500 (FileServer.chat_failed e1), tr1)
    else match gemini_contents (Some message) (entries (history_of req_body)) with
         | Throw e => (res_error 500 (FileServer.chat_failed e), tr1)
         | Ok contents =>
             match FileServer.try_models up contents FileServer.models None with
             | (Ok (text, model), tr') => (gemini_reply text model, tr1 ++ tr')
             | (Throw e, tr') =>
                 (res_error 500 (FileServer.chat_failed e), tr1 ++ tr')
             end
         end.
Proof.
  intros Hmsg Ht Hprimary. unfold FileServer.post_chat. cbv zeta.
  change (opt_get (or_else req_body (Some (JObj []))) "message")
    with (message_of req_body).
  change (opt_get (or_else req_body (Some (JObj []))) "history")
    with (history_of req_body).
  rewrite Hmsg. change (truthyv (Some message)) with (truthy message).
  rewrite Ht. cbn [negb]. rewrite Hprimary.
  case_bool_decide as Hkey; cbn [negb]; [done|].
  rewrite (callGemini_contents c up _ _ Hkey).
  destruct (gemini_contents (Some message) (entries (history_of req_body)))
    as [contents|e]; [done|]. by rewrite app_nil_r.
Qed.

(** The fallback of the file-backed variant, for a request with a message
    whose primary call fails and for which the contents of the secondary
    request can be built: the primary was asked at most once; without a
    secondary key the answer is the error status 500 with a non-empty
    message and nothing else is asked; with a secondary key the models
    are tried in their order until one answers with text that is not
    blank, the answer then naming the provider ["gemini"] and that model;
    when every model fails each was tried once, and when the error of a
    refusal cannot be made a string the loop ends at that model: the
    answer is then the error status 500 with a non-empty message.
    Database-backed variant, which has no secondary: a failed primary
    call is answered with the error status 500 and a non-empty message,
    after at most one request and none to the secondary. *)
Theorem chat_falls_back_once
    (c : FileServer.config) (up : Providers.upstream) (req_body : value)
    (message : json) (e1 : string) (tr1 : list Providers.call)
    (contents : list json) :
  message_of req_body = Some message →
  truthy message = true →
  FileServer.callOpenAI c up (Some message) (history_of req_body)
  = (Throw e1, tr1) →
  gemini_contents (Some message) (entries (history_of req_body)) = Ok contents →
  (length tr1 ≤ 1)%nat
  ∧ (if bool_decide (FileServer.GEMINI_API_KEY c = "")
     then FileServer.post_chat c up req_body
          = (res_error 500 (FileServer.chat_failed e1), tr1)
          ∧ FileServer.chat_failed e1 ≠ ""
     else (∃ tried m rest t,
             FileServer.models = tried ++ m :: rest
             ∧ Forall (λ m', is_Some (failure up contents m')) tried
             ∧ answer up contents m = Some t
             ∧ FileServer.post_chat c up req_body
               = (gemini_reply t m,
                  tr1 ++ gemini_calls contents (tried ++ [m])))
          ∨ (Forall (λ m, is_Some (failure up contents m)) FileServer.models
             ∧ ∃ msg, msg ≠ ""
                 ∧ FileServer.post_chat c up req_body
                   = (res_error 500 msg,
                      tr1 ++ gemini_calls contents FileServer.models))
          ∨ (∃ tried m rest e,
               FileServer.models = tried ++ m :: rest
               ∧ Forall (λ m', is_Some (failure up contents m')) tried
               ∧ attempt_outcome up contents m = Aborted e
               ∧ FileServer.chat_failed e ≠ ""
               ∧ FileServer.post_chat c up req_body
                 = (res_error 500 (FileServer.chat_failed e),
                    tr1 ++ gemini_calls contents (tried ++ [m]))))
  ∧ (∀ key up' body' message' e' tr',
       message_of body' = Some message' →
       truthy message' = true →
       DbServer.callOpenAI key up' (Some message') (history_of body')
       = (Throw e', tr') →
       DbServer.post_chat key up' body'
       = (res_error 500 (DbServer.chat_failed e'), tr')
       ∧ DbServer.chat_failed e' ≠ ""
       ∧ (length tr' ≤ 1)%nat
       ∧ Forall (λ call, Providers.is_gemini_call call = false) tr').
Proof.
  intros Hmsg Ht Hprimary Hcontents.
  split.
  { destruct (callOpenAI_once c up (Some message) (history_of req_body))
      as [H|(ms & _ & _ & H)];
      rewrite Hprimary in H; simpl in H; subst tr1; simpl; lia. }
  split.
  - rewrite (post_chat_after_failure c up req_body message e1 tr1
               Hmsg Ht Hprimary), Hcontents.
    case_bool_decide as Hkey.
    { split; [done | apply chat_failed_non_empty]. }
    destruct (try_models_outcome up contents FileServer.models)
      as [(tried & m & rest & t & Hms & Htried & Hm & ->)
         |[(tried & m & rest & e & Hms & Htried & Hm & ->)
          |(Hall & ->)]].
    + left. by exists tried, m, rest, t.
    + right; right. exists tried, m, rest, e.
      repeat split; try done. apply chat_failed_non_empty.
    + right; left. split; [done|].
      eexists. split; [apply chat_failed_non_empty|done].
  - intros key up' body' message' e' tr' Hmsg' Ht' Hdb. split.
    { unfold DbServer.post_chat. cbv zeta.
      change (opt_get (or_else body' (Some (JObj []))) "message")
        with (message_of body').
      change (opt_get (or_else body' (Some (JObj []))) "history")
        with (history_of body').
      rewrite Hmsg'. change (truthyv (Some message')) with (truthy message').
      rewrite Ht'. cbn [negb]. by rewrite Hdb. }
    split; [apply db_chat_failed_non_empty|].
    destruct (db_callOpenAI_once key up' (Some message') (history_of body'))
      as [H|H]; rewrite Hdb in H; simpl in H; subst tr'; simpl;
      split; try lia; repeat constructor.
Qed.

Lemma chat_falls_back_once_witness :
  message_of SampleChat.question = Some (JStr "fees kab jama karni hai?")
  ∧ truthy (JStr "fees kab jama karni hai?") = true
  ∧ FileServer.callOpenAI SampleFiles.config SampleChat.busy
      (Some (JStr "fees kab jama karni hai?")) (history_of SampleChat.question)
    = (Throw "The server is overloaded",
       [Providers.OpenAICall
          [FileServer.sys; FileServer.turn "user" "hi";
           FileServer.turn "assistant" "Namaste!";
           FileServer.turn "user" "fees kab jama karni hai?"]])
  ∧ gemini_contents (Some (JStr "fees kab jama karni hai?"))
      (entries (history_of SampleChat.question))
    = Ok [part "user" "hi"; part "model" "Namaste!";
          part "user" "fees kab jama karni hai?"]
  ∧ FileServer.post_chat SampleFiles.config SampleChat.busy SampleChat.question
    = (gemini_reply "Namaste! Fees 5 tareekh tak." "gemini-2.5-flash",
       Providers.OpenAICall
         [FileServer.sys; FileServer.turn "user" "hi";
          FileServer.turn "assistant" "Namaste!";
          FileServer.turn "user" "fees kab jama karni hai?"]
       :: gemini_calls
            [part "user" "hi"; part "model" "Namaste!";
             part "user" "fees kab jama karni hai?"]
            ["gemini-2.0-flash"; "gemini-2.5-flash"]).
Proof.
  split; [reflexivity|]. split; [reflexivity|]. split; [reflexivity|].
  split; [reflexivity|].
  destruct (chat_falls_back_once SampleFiles.config SampleChat.busy
              SampleChat.question (JStr "fees kab jama karni hai?")
              "The server is overloaded" _
              [part "user" "hi"; part "model" "Namaste!";
               part "user" "fees kab jama karni hai?"]
              eq_refl eq_refl eq_refl eq_refl)
    as (_ & Hout & _).
  change (bool_decide (FileServer.GEMINI_API_KEY SampleFiles.config = ""))
    with false in Hout. cbv iota in Hout.
  destruct Hout as [(tried & m & rest & t & Hms & Htried & Hm & ->)
                   |[(Hall & _)
                    |(tried & m & rest & e & Hms & _ & Hm & _)]].
  - unfold FileServer.models in Hms.
    destruct tried as [|m1 [|m2 [|m3 tried]]]; cbn [app] in Hms; simplify_eq.
    + vm_compute in Hm. by injection Hm as <-.
    + apply Forall_cons in Htried as [_ Htried].
      apply Forall_cons in Htried as [[x H] _]. vm_compute in H. discriminate.
  - apply Forall_cons in Hall as [_ Hall].
    apply Forall_cons in Hall as [[x H] _]. vm_compute in H. discriminate.
  - assert (Hno : Forall (λ m, ∀ e,
                     attempt_outcome SampleChat.busy
                       [part "user" "hi"; part "model" "Namaste!";
                        part "user" "fees kab jama karni hai?"] m
                     ≠ Aborted e) FileServer.models).
    { repeat constructor; intros e'; vm_compute; discriminate. }
    rewrite Hms in Hno. apply Forall_app in Hno as [_ Hno].
    apply Forall_cons in Hno as [Hno _]. by destruct (Hno e).
Defined.

(** ** The request for ["hello"] *)

(** The models asked are a prefix of the list, each asked once with the
    same contents. *)
Lemma try_models_asks_prefix (up : Providers.upstream) (contents : list json)
    (ms : list string) :
  ∃ asked, asked `prefix_of` ms
           ∧ (FileServer.try_models up contents ms None).2
             = gemini_calls contents asked.
Proof.
  destruct (try_models_outcome up contents ms)
    as [(tried & m & rest & t & -> & _ & _ & ->)
       |[(tried & m & rest & e & -> & _ & _ & ->)
        |(_ & ->)]].
  - exists (tried ++ [m]). split; [|done].
    exists rest. by rewrite <- app_assoc.
  - exists (tried ++ [m]). split; [|done].
    exists rest. by rewrite <- app_assoc.
  - by exists ms.
Qed.

(** Claim C7, as amended.  For the history [[]] and the message
    ["hello"]: the message list of the file-backed variant is the system
    instruction followed by the one user turn, and the input list of the
    database-backed variant is the developer instruction followed by the
    one user turn; the requests of a chat request of the file-backed
    variant are that list for the primary provider, sent once when its
    key is set, followed by requests to a prefix of the secondary models
    whose contents are the one user turn alone, without an instruction;
    the database-backed variant sends its list to the primary provider
    once when the key is set, and nothing else. *)
Theorem hello_message_list :
  FileServer.buildMessages (Some (JStr "hello")) (Some (JArr []))
  = Ok [JObj [("role", JStr "system");
              ("content", JStr "You are SSL BOT for Savitri Success Library. Answer in simple Hinglish. Help students for any subject/exam. Be polite, concise, and accurate. If asked for study material, share official/free resources links when possible.")];
        JObj [("role", JStr "user"); ("content", JStr "hello")]]
  ∧ DbServer.build_input (Some (JStr "hello")) (Some (JArr []))
    = [JObj [("role", JStr "developer");
             ("content", JStr "You are SSL Bot for Savitri Success Library. Answer in simple Hinglish. Be concise and helpful.")];
       JObj [("role", JStr "user"); ("content", JStr "hello")]]
  ∧ (∀ c up, ∃ asked,
       asked `prefix_of` ["gemini-2.0-flash"; "gemini-2.5-flash";
                          "gemini-2.0-flash-lite-001"]
       ∧ (FileServer.post_chat c up
            (Some (JObj [("message", JStr "hello"); ("history", JArr [])]))).2
         = (if bool_decide (FileServer.OPENAI_API_KEY c = "") then []
            else [Providers.OpenAICall
                    [JObj [("role", JStr "system");
                           ("content", JStr "You are SSL BOT for Savitri Success Library. Answer in simple Hinglish. Help students for any subject/exam. Be polite, concise, and accurate. If asked for study material, share official/free resources links when possible.")];
                     JObj [("role", JStr "user"); ("content", JStr "hello")]]])
           ++ List.map
                (λ model,
                   Providers.GeminiCall model
                     [JObj [("role", JStr "user");
                            ("parts", JArr [JObj [("text", JStr "hello")]])]])
                asked)
  ∧ (∀ key up,
       (DbServer.post_chat key up
          (Some (JObj [("message", JStr "hello"); ("history", JArr [])]))).2
       = if bool_decide (key = "") then []
         else [Providers.OpenAICall
                 [JObj [("role", JStr "developer");
                        ("content", JStr "You are SSL Bot for Savitri Success Library. Answer in simple Hinglish. Be concise and helpful.")];
                  JObj [("role", JStr "user"); ("content", JStr "hello")]]]).
Proof.
  split; [reflexivity|]. split; [reflexivity|]. split.
  - intros c up.
    assert (Hprimary :
              (FileServer.callOpenAI c up (Some (JStr "hello")) (Some (JArr []))).2
              = if bool_decide (FileServer.OPENAI_API_KEY c = "") then []
                else [Providers.OpenAICall
                        [FileServer.sys; FileServer.turn "user" "hello"]]).
    { unfold FileServer.callOpenAI. by case_bool_decide. }
    destruct (FileServer.callOpenAI c up (Some (JStr "hello")) (Some (JArr [])))
      as [[text|e1] tr1] eqn:Hcall; simpl in Hprimary; subst tr1.
    + exists []. split; [apply prefix_nil|].
      unfold FileServer.post_chat. cbv zeta.
      change (opt_get (or_else (Some (JObj [("message", JStr "hello");
                                            ("history", JArr [])]))
                         (Some (JObj []))) "message")
        with (Some (JStr "hello")).
      change (opt_get (or_else (Some (JObj [("message", JStr "hello");
                                            ("history", JArr [])]))
                         (Some (JObj []))) "history")
        with (Some (JArr [])).
      cbn [truthyv truthy negb]. rewrite Hcall. by rewrite app_nil_r.
    + rewrite (post_chat_after_failure c up
                 (Some (JObj [("message", JStr "hello"); ("history", JArr [])]))
                 (JStr "hello") e1 _ eq_refl eq_refl Hcall).
      destruct (bool_decide (FileServer.GEMINI_API_KEY c = "")).
      { exists []. split; [apply prefix_nil|]. simpl. by rewrite app_nil_r. }
      change (gemini_contents (Some (JStr "hello"))
                (entries (history_of (Some (JObj [("message", JStr "hello");
                                                  ("history", JArr [])])))))
        with (Ok [part "user" "hello"]).
      destruct (try_models_asks_prefix up [part "user" "hello"] FileServer.models)
        as (asked & Hpre & Htr).
      exists asked. split; [done|].
      destruct (FileServer.try_models up [part "user" "hello"]
                  FileServer.models None) as [[[text model]|e] tr'];
        simpl in Htr; by subst tr'.
  - intros key up. unfold DbServer.post_chat. simpl.
    unfold DbServer.callOpenAI. case_bool_decide; [done|].
    destruct (Providers.openai up _) as [m|st data]; [done|].
    destruct (negb (Providers.http_ok st)); [done|]. by destruct data.
Qed.

(** Claim C7 fails as stated for the requests of the fallback: when the
    primary provider is overloaded and the secondary key is set, the
    request for ["hello"] goes on to the secondary models with a list
    that holds the user turn alone, without the instruction. *)
Lemma hello_secondary_request_has_no_instruction :
  (FileServer.post_chat SampleFiles.config SampleChat.busy
     (Some (JObj [("message", JStr "hello"); ("history", JArr [])]))).2
  = [Providers.OpenAICall
       [JObj [("role", JStr "system");
              ("content", JStr "You are SSL BOT for Savitri Success Library. Answer in simple Hinglish. Help students for any subject/exam. Be polite, concise, and accurate. If asked for study material, share official/free resources links when possible.")];
        JObj [("role", JStr "user"); ("content", JStr "hello")]];
     Providers.GeminiCall "gemini-2.0-flash"
       [JObj [("role", JStr "user");
              ("parts", JArr [JObj [("text", JStr "hello")]])]];
     Providers.GeminiCall "gemini-2.5-flash"
       [JObj [("role", JStr "user");
              ("parts", JArr [JObj [("text", JStr "hello")]])]]].
Proof. vm_compute. reflexivity. Qed.

(** ** Settings *)

Import Secrets.

Lemma delete_if_truthy_falsy (k : string) (fs : list (string * json)) :
  truthyv (obj_get k (delete_if_truthy k fs)) = false.
Proof.
  unfold delete_if_truthy. destruct (truthyv (obj_get k fs)) eqn:E; [|done].
  rewrite obj_get_delete. by rewrite decide_True.
Qed.

Lemma delete_if_truthy_other (k k' : string) (fs : list (string * json)) :
  k ≠ k' → obj_get k' (delete_if_truthy k fs) = obj_get k' fs.
Proof.
  intros Hne. unfold delete_if_truthy. destruct (truthyv (obj_get k fs)); [|done].
  rewrite obj_get_delete. by rewrite decide_False.
Qed.

Lemma stripped_no_truthy_key (merged : list (string * json)) :
  truthyv (obj_get "openaiKey" (stripped merged)) = false.
Proof.
  unfold stripped. rewrite delete_if_truthy_other by done.
  apply delete_if_truthy_falsy.
Qed.

(** A truthy key that was merged in is gone altogether. *)
Lemma stripped_drops_truthy_key (merged : list (string * json)) (k : json) :
  obj_get "openaiKey" merged = Some k → truthy k = true →
  obj_get "openaiKey" (stripped merged) = None.
Proof.
  intros Hk Ht. unfold stripped. rewrite delete_if_truthy_other by done.
  unfold delete_if_truthy. rewrite Hk. simpl. rewrite Ht.
  rewrite obj_get_delete. by rewrite decide_True.
Qed.

Lemma loadState_total (c : config) (d : db) :
  ∃ state d1, loadState c d = (Ok state, d1).
Proof.
  unfold loadState. destruct (supabase c); simpl; [|by eauto].
  destruct (app_state d !! STATE_ID c); eauto.
Qed.

Lemma get_settings_run (c : config) (d d1 : db) (state : json) :
  loadState c d = (Ok state, d1) →
  get_settings c d
  = (res_json (default (JObj [])
                 (or_else (opt_get (Some state) "settings") (Some (JObj [])))),
     d1).
Proof.
  intros Hload. unfold get_settings, handle, mbind, M_bind, lift, mret, M_ret.
  rewrite Hload.
  by rewrite (get_non_null state "settings")
    by (eapply truthy_non_null, loadState_truthy, Hload).
Qed.

Lemma post_settings_object (c : config) (d d1 : db) (req_body : value)
    (fields : list (string * json)) :
  loadState c d = (Ok (JObj fields), d1) →
  post_settings c req_body d
  = (res_json ok_true,
     (saveState c
        (JObj (obj_set "settings"
                 (JObj (stripped
                          (spread2 (or_else (obj_get "settings" fields)
                                            (Some (JObj [])))
                                   (or_else req_body (Some (JObj []))))))
                 fields)) d1).2).
Proof.
  intros Hload. unfold post_settings, handle, mbind, M_bind, lift, mret, M_ret.
  rewrite Hload. cbn [get assign]. cbv zeta. rewrite obj_set_set.
  unfold saveState, stripped. by destruct (supabase c).
Qed.

(** On a stored document that is not an object the request stores no
    settings: an array is saved back as it is, a primitive makes the
    assignment throw. *)
Lemma post_settings_other (c : config) (d d1 : db) (req_body : value)
    (state : json) :
  loadState c d = (Ok state, d1) →
  (∀ fields, state ≠ JObj fields) →
  (post_settings c req_body d).2 = d1
  ∨ (post_settings c req_body d).2 = (saveState c state d1).2.
Proof.
  intros Hload Hno.
  unfold post_settings, handle, mbind, M_bind, lift, mret, M_ret.
  rewrite Hload.
  destruct state as [| b | n | s | l | fs]; simpl; try by left.
  - right. unfold saveState. by destruct (supabase c).
  - by destruct (Hno fs).
Qed.

(** *** No truthy key is ever stored *)

Lemma clean_default : clean default_state.
Proof. done. Qed.

Lemma load_clean (c : config) (d d1 : db) (state : json) :
  no_secret c d → loadState c d = (Ok state, d1) →
  clean state ∧ no_secret c d1.
Proof.
  unfold no_secret, loadState. intros Hinv.
  destruct (supabase c) eqn:Hsup; simpl.
  - destruct (app_state d !! STATE_ID c) as [data|] eqn:E.
    + intros [= <- <-]. split; [|by rewrite E].
      destruct (truthy data); [by apply Hinv | apply clean_default].
    + intros [= <- <-]. split; [apply clean_default|].
      intros _ doc. simpl. rewrite lookup_insert_eq. by intros [= <-].
  - intros [= <- <-]. split; [apply clean_default | done].
Qed.

Lemma saveState_ok (c : config) (st : json) (d : db) :
  saveState c st d = (Ok tt, (saveState c st d).2).
Proof. unfold saveState. by destruct (supabase c). Qed.

Lemma save_clean (c : config) (d : db) (st : json) :
  clean st → no_secret c (saveState c st d).2.
Proof.
  intros Hst Hsup doc. unfold saveState. rewrite Hsup. simpl.
  rewrite lookup_insert_eq. by intros [= <-].
Qed.

Lemma assign_clean (st st' : json) (k : string) (x : value) :
  clean st → k ≠ "settings" → assign st k x = Ok st' → clean st'.
Proof.
  unfold clean. intros Hst Hk.
  destruct st as [| b | n | s | l | fs]; simpl; try done.
  - by intros [= <-].
  - intros [= <-]. simpl in *. destruct x.
    + by rewrite obj_get_set_ne.
    + rewrite obj_get_delete. by rewrite decide_False.
Qed.

Ltac load_first c d :=
  let state := fresh "state" in
  let d1 := fresh "d1" in
  let Hload := fresh "Hload" in
  let Hclean := fresh "Hclean" in
  let Hd1 := fresh "Hd1" in
  unfold handle, mbind, M_bind, lift, mret, M_ret;
  destruct (loadState_total c d) as (state & d1 & Hload);
  rewrite Hload;
  match goal with
  | Hinv : no_secret c d |- _ =>
      destruct (load_clean c d d1 state Hinv Hload) as [Hclean Hd1]
  end.

Ltac settle_cases :=
  repeat case_match; simplify_eq/=;
  repeat match goal with
         | H : saveState _ _ _ = _ |- _ =>
             rewrite saveState_ok in H; simplify_eq/=
         end.

Lemma post_data_preserves (c : config) (d : db) (req_body : value) :
  no_secret c d → no_secret c (post_data c req_body d).2.
Proof.
  intros Hinv. unfold post_data. load_first c d.
  settle_cases; try done; eapply save_clean, assign_clean; eauto; done.
Qed.

Lemma post_archive_preserves (c : config) (d : db) (req_body : value) :
  no_secret c d → no_secret c (post_archive c req_body d).2.
Proof.
  intros Hinv. unfold post_archive. load_first c d.
  settle_cases; try done; eapply save_clean, assign_clean; eauto; done.
Qed.

Lemma get_data_preserves (c : config) (d : db) :
  no_secret c d → no_secret c (get_data c d).2.
Proof. intros Hinv. unfold get_data. load_first c d. by settle_cases. Qed.

Lemma get_archive_preserves (c : config) (d : db) :
  no_secret c d → no_secret c (get_archive c d).2.
Proof. intros Hinv. unfold get_archive. load_first c d. by settle_cases. Qed.

Lemma get_settings_preserves (c : config) (d : db) :
  no_secret c d → no_secret c (get_settings c d).2.
Proof. intros Hinv. unfold get_settings. load_first c d. by settle_cases. Qed.

Lemma post_archive_student_preserves (c : config) (now : string) (d : db)
    (req_body : value) :
  no_secret c d → no_secret c (post_archive_student c now req_body d).2.
Proof.
  intros Hinv. unfold post_archive_student. cbv zeta.
  destruct (negb (truthyv (studentId_of req_body))); [done|].
  load_first c d.
  settle_cases; try done.
  eapply save_clean.
  repeat (eapply assign_clean; [| |eassumption]; try done).
Qed.

(** POST /api/settings leaves a clean store, whatever it found. *)
Lemma post_settings_establishes (c : config) (d : db) (req_body : value) :
  no_secret c (post_settings c req_body d).2.
Proof.
  destruct (loadState_total c d) as (state & d1 & Hload).
  destruct (supabase c) eqn:Hsup; [|intros H; congruence].
  assert (Hstored : ∀ doc, app_state d1 !! STATE_ID c = Some doc →
            truthy doc = true → doc = state).
  { revert Hload. unfold loadState. rewrite Hsup. simpl.
    destruct (app_state d !! STATE_ID c) as [data|] eqn:E.
    - intros [= <- <-] doc Hdoc Ht. rewrite E in Hdoc. injection Hdoc as <-.
      by rewrite Ht.
    - intros [= <- <-] doc. simpl. rewrite lookup_insert_eq. by intros [= <-]. }
  destruct state as [| b | n | s | l | fields] eqn:Est.
  6: { rewrite (post_settings_object c d d1 req_body fields Hload).
       apply save_clean. unfold clean. simpl. rewrite obj_get_set_eq. simpl.
       apply stripped_no_truthy_key. }
  all: assert (Hd1 : no_secret c d1)
         by (intros _ doc Hdoc; destruct (truthy doc) eqn:Ht;
             [rewrite (Hstored doc Hdoc Ht); done | by destruct doc]).
  all: destruct (post_settings_other c d d1 req_body _ Hload) as [-> | ->];
         [done | done | by apply save_clean ..].
Qed.

Lemma serve_preserves (c : config) (r : request) (d : db) :
  no_secret c d → no_secret c (serve c r d).2.
Proof.
  intros Hinv. destruct r; simpl.
  - by apply get_data_preserves.
  - by apply post_data_preserves.
  - by apply get_archive_preserves.
  - by apply post_archive_preserves.
  - by apply post_archive_student_preserves.
  - unfold post_backup, handle, mret, M_ret. settle_cases; try done.
  - unfold get_restore, handle, mret, M_ret. by settle_cases.
  - by apply get_settings_preserves.
  - apply post_settings_establishes.
Qed.

Lemma run_preserves (c : config) (rs : list request) (d : db) :
  no_secret c d → no_secret c (run c rs d).
Proof.
  revert d. induction rs as [|r rs IH]; intros d Hinv; simpl; [done|].
  by apply IH, serve_preserves.
Qed.

(** GET /api/settings on a clean store answers no truthy key. *)
Lemma get_settings_clean (c : config) (d : db) :
  no_secret c d →
  truthyv (opt_get (Some (body (get_settings c d).1)) "openaiKey") = false.
Proof.
  intros Hinv. destruct (loadState_total c d) as (state & d1 & Hload).
  rewrite (get_settings_run c d d1 state Hload). unfold res_json.
  cbn [fst body].
  destruct (load_clean c d d1 state Hinv Hload) as [Hclean _].
  unfold clean in Hclean. unfold or_else.
  destruct (truthyv (opt_get (Some state) "settings")) eqn:Hs; [|done].
  destruct (opt_get (Some state) "settings") as [settings|]; done.
Qed.

Lemma load_saved (c : config) (d : db) (st : json) :
  loadState c (saveState c st d).2
  = (Ok (if supabase c && truthy st then st else default_state),
     (saveState c st d).2).
Proof.
  unfold saveState, loadState. destruct (supabase c); simpl; [|done].
  by rewrite lookup_insert_eq.
Qed.

Lemma spread2_posted_key (settings : value) (k : json) :
  obj_get "openaiKey" (spread2 settings (or_else (secret k) (Some (JObj []))))
  = Some k.
Proof. unfold spread2, secret, or_else. simpl. apply obj_get_set_eq. Qed.

(** Right after a truthy key was posted, the settings that are read back
    have no [openaiKey] property at all. *)
Lemma secret_not_returned (c : config) (d : db) (k : json) :
  truthy k = true →
  opt_get (Some (body (get_settings c (post_settings c (secret k) d).2).1))
    "openaiKey" = None.
Proof.
  intros Hk. destruct (loadState_total c d) as (state & d1 & Hload).
  assert (Hother : (∀ fields, state ≠ JObj fields) →
            ∀ d2 st, loadState c d2 = (Ok st, d2) → st = state ∨ st = default_state →
            opt_get (Some (body (get_settings c d2).1)) "openaiKey" = None).
  { intros Hno d2 st Hd2 Hst. rewrite (get_settings_run c d2 d2 st Hd2).
    destruct Hst as [-> | ->]; [|done]. by destruct state as [| | | | |fs];
      [..|destruct (Hno fs)]. }
  destruct state as [| b | n | s | l | fields] eqn:Est.
  6: { rewrite (post_settings_object c d d1 (secret k) fields Hload).
       erewrite get_settings_run by apply load_saved.
       destruct (supabase c); simpl; [|done].
       rewrite obj_get_set_eq. simpl.
       eapply stripped_drops_truthy_key; [apply spread2_posted_key | done]. }
  all: destruct (post_settings_other c d d1 (secret k) _ Hload) as [-> | ->];
    [done | eapply Hother; [done | by eapply loadState_stable | by left]
    | eapply Hother; [done | apply load_saved |] ..].
  all: match goal with
       | |- (if ?b then _ else _) = _ ∨ _ => destruct b; [by left | by right]
       end.
Qed.

(** Claim C8, as amended.  Database-backed variant with the store
    configured and a stored object whose settings are empty: after
    POST [{a:1}] and POST [{b:2}], GET answers [{a:1, b:2}].  In every
    configuration and from every database: right after a POST of a truthy
    [openaiKey] the settings read back have no [openaiKey] property, and
    after any POST of settings followed by any sequence of requests the
    settings read back hold no truthy [openaiKey]. *)
Theorem settings_merge_and_strip
    (c : config) (d d1 : db) (fields : list (string * json)) (k : json) :
  supabase c = true →
  loadState c d = (Ok (JObj fields), d1) →
  or_else (obj_get "settings" fields) (Some (JObj [])) = Some (JObj []) →
  truthy k = true →
  (get_settings c (post_settings c b2 (post_settings c a1 d).2).2).1
  = res_json (JObj [("a", JNum 1); ("b", JNum 2)])
  ∧ (∀ c' d',
       opt_get (Some (body (get_settings c'
                              (post_settings c' (secret k) d').2).1))
         "openaiKey" = None)
  ∧ (∀ c' d' posted rs,
       truthyv
         (opt_get (Some (body (get_settings c'
                                 (run c' rs (post_settings c' posted d').2)).1))
            "openaiKey") = false).
Proof.
  intros Hsup Hload Hempty Hk. split; [|split].
  - rewrite (post_settings_object c d d1 a1 fields Hload), Hempty. cbn [snd].
    match goal with
    | |- context [saveState c (JObj ?fs) d1] =>
        pose proof (load_saved c d1 (JObj fs)) as L1
    end.
    rewrite Hsup in L1. cbn [truthy andb] in L1.
    rewrite (post_settings_object c _ _ b2 _ L1). cbn [snd].
    rewrite obj_get_set_eq.
    match goal with
    | |- context [saveState c (JObj ?fs) ?d2] =>
        pose proof (load_saved c d2 (JObj fs)) as L2
    end.
    rewrite Hsup in L2. cbn [truthy andb] in L2.
    rewrite (get_settings_run _ _ _ _ L2). cbn [fst opt_get].
    by rewrite obj_get_set_eq.
  - intros c' d'. by apply secret_not_returned.
  - intros c' d' posted rs.
    apply get_settings_clean, run_preserves, post_settings_establishes.
Qed.

Lemma settings_merge_and_strip_witness :
  supabase Sample.config = true
  ∧ loadState Sample.config Sample.empty_database
    = (Ok default_state,
       upsert_state Sample.config default_state Sample.empty_database)
  ∧ or_else (obj_get "settings"
               [("students", JArr []); ("archived", JArr []);
                ("settings", JObj [])]) (Some (JObj []))
    = Some (JObj [])
  ∧ truthy (JStr "x") = true
  ∧ (get_settings Sample.config
       (post_settings Sample.config b2
          (post_settings Sample.config a1 Sample.empty_database).2).2).1
    = res_json (JObj [("a", JNum 1); ("b", JNum 2)]).
Proof.
  repeat (split; [reflexivity|]).
  apply (settings_merge_and_strip Sample.config Sample.empty_database
           (upsert_state Sample.config default_state Sample.empty_database)
           [("students", JArr []); ("archived", JArr []); ("settings", JObj [])]
           (JStr "x")); reflexivity.
Defined.

(** Claim C8 fails as stated.  In the file-backed variant the settings
    endpoints store nothing: after both posts GET answers [{ok: true}].
    In the database-backed variant without a configured store GET answers
    [{}].  And with the store configured, a later post of an empty
    [openaiKey] is kept: GET then contains the [openaiKey] field. *)
Lemma settings_not_merged_or_key_kept :
  (FileServer.get_settings
     (FileServer.post_settings b2
        (FileServer.post_settings a1 SampleFiles.blank).2).2).1
  = res_json ok_true
  ∧ (get_settings Sample.offline
       (post_settings Sample.offline b2
          (post_settings Sample.offline a1 Sample.empty_database).2).2).1
    = res_json (JObj [])
  ∧ (get_settings Sample.config
       (post_settings Sample.config (secret (JStr ""))
          (post_settings Sample.config (secret (JStr "x"))
             Sample.empty_database).2).2).1
    = res_json (JObj [("openaiKey", JStr "")]).
Proof. repeat split; reflexivity. Qed.

(** Claim C6 at a history with a [null] entry: the primary provider is
    overloaded, the secondary key is set and the second model would
    answer, as it does for the same question after an empty history; but
    [callGemini] reads [msg.role] of the [null] entry, which
    [buildMessages] had dropped for the primary, and the request is
    answered 500 without any model having been tried. *)
Lemma fallback_stops_at_null_history_entry :
  FileServer.post_chat SampleFiles.config SampleChat.busy
    SampleChat.question_after_gap
  = (res_error 500 "Cannot read properties of null (reading 'role')",
     [Providers.OpenAICall
        [FileServer.sys; FileServer.turn "user" "fees kab jama karni hai?"]])
  ∧ FileServer.post_chat SampleFiles.config SampleChat.busy
      SampleChat.question_alone
    = (gemini_reply "Namaste! Fees 5 tareekh tak." "gemini-2.5-flash",
       Providers.OpenAICall
         [FileServer.sys; FileServer.turn "user" "fees kab jama karni hai?"]
       :: gemini_calls
            [JObj [("role", JStr "user");
                   ("parts",
                    JArr [JObj [("text", JStr "fees kab jama karni hai?")]])]]
            ["gemini-2.0-flash"; "gemini-2.5-flash"]).
Proof. split; vm_compute; reflexivity. Qed.

(** ** The stored document stays an object

    The hypotheses of the statements above on the shape of the stored
    document hold of every database the requests can produce from one
    whose row is absent or holds an object. *)

Lemma load_shaped (c : config) (d d1 : db) (state : json) :
  shaped c d → loadState c d = (Ok state, d1) →
  (∃ fields, state = JObj fields) ∧ shaped c d1.
Proof.
  unfold shaped, stored, loadState. intros Hinv.
  destruct (supabase c); simpl.
  - destruct (app_state d !! STATE_ID c) as [data|] eqn:E.
    + intros [= <- <-]. split; [|by rewrite E].
      destruct (Hinv data eq_refl) as [fields ->]. simpl. eauto.
    + intros [= <- <-]. split; [unfold default_state; eauto|].
      intros doc. simpl. rewrite lookup_insert_eq. intros [= <-].
      unfold default_state. eauto.
  - intros [= <- <-]. split; [unfold default_state; eauto | done].
Qed.

Lemma save_shaped (c : config) (d : db) (fields : list (string * json)) :
  shaped c d → shaped c (saveState c (JObj fields) d).2.
Proof.
  unfold shaped, stored, saveState. intros Hinv.
  destruct (supabase c); simpl; [|done].
  intros doc. rewrite lookup_insert_eq. intros [= <-]. eauto.
Qed.

Lemma assign_shaped (fields : list (string * json)) (k : string) (x : value)
    (st : json) :
  assign (JObj fields) k x = Ok st → ∃ fields', st = JObj fields'.
Proof. intros [= <-]. eauto. Qed.

Ltac load_shaped_first c d :=
  let state := fresh "state" in
  let d1 := fresh "d1" in
  let Hload := fresh "Hload" in
  let Hd1 := fresh "Hd1" in
  let fields := fresh "fields" in
  unfold handle, mbind, M_bind, lift, mret, M_ret;
  destruct (loadState_total c d) as (state & d1 & Hload);
  rewrite Hload;
  match goal with
  | Hinv : shaped c d |- _ =>
      destruct (load_shaped c d d1 state Hinv Hload) as [[fields ->] Hd1]
  end.

Lemma serve_shaped (c : config) (r : request) (d : db) :
  shaped c d → shaped c (serve c r d).2.
Proof.
  intros Hinv. destruct r; simpl.
  - unfold get_data. load_shaped_first c d. by settle_cases.
  - unfold post_data. load_shaped_first c d.
    settle_cases; try done; by apply save_shaped.
  - unfold get_archive. load_shaped_first c d. by settle_cases.
  - unfold post_archive. load_shaped_first c d.
    settle_cases; try done; by apply save_shaped.
  - unfold post_archive_student. cbv zeta.
    destruct (negb (truthyv (studentId_of req_body))); [done|].
    load_shaped_first c d. settle_cases; try done; by apply save_shaped.
  - unfold post_backup, handle, mret, M_ret. settle_cases; try done.
  - unfold get_restore, handle, mret, M_ret. by settle_cases.
  - unfold get_settings. load_shaped_first c d. by settle_cases.
  - unfold post_settings. load_shaped_first c d.
    settle_cases; try done; by apply save_shaped.
Qed.

Lemma run_shaped (c : config) (rs : list request) (d : db) :
  shaped c d → shaped c (run c rs d).
Proof.
  revert d. induction rs as [|r rs IH]; intros d Hinv; simpl; [done|].
  by apply IH, serve_shaped.
Qed.

Lemma run_from_empty_shaped (c : config) (rs : list request) :
  shaped c (run c rs Sample.empty_database).
Proof. apply run_shaped. intros doc. unfold stored. simpl. by rewrite lookup_empty. Qed.

(** ** The shallow merge of the settings *)

Lemma obj_get_app (k : string) (l1 l2 : list (string * json)) :
  obj_get k (l1 ++ l2)
  = match obj_get k l1 with
    | Some v => Some v
    | None => obj_get k l2
    end.
Proof.
  induction l1 as [|[k' v'] l1 IH]; simpl; [done|].
  by destruct (decide (k' = k)).
Qed.

Lemma obj_get_absent (k : string) (fs : list (string * json)) :
  k ∉ fs.*1 → obj_get k fs = None.
Proof.
  induction fs as [|[k' v'] fs IH]; simpl; [done|].
  intros Hk. apply not_elem_of_cons in Hk as [Hne Hk].
  rewrite decide_False by done. by apply IH.
Qed.

(** With distinct property names the last binding is the first one. *)
Lemma obj_get_reverse (k : string) (fs : list (string * json)) :
  NoDup fs.*1 → obj_get k (reverse fs) = obj_get k fs.
Proof.
  induction fs as [|[k' v'] fs IH]; simpl; [done|].
  intros Hnd. apply NoDup_cons in Hnd as [Hk' Hnd].
  rewrite reverse_cons, obj_get_app, IH by done. simpl.
  destruct (decide (k' = k)) as [->|Hne].
  - by rewrite obj_get_absent.
  - by destruct (obj_get k fs).
Qed.

(** [Object.assign]: the entries written last win, the others stay. *)
Lemma obj_assign_get (k : string) (target entries : list (string * json)) :
  obj_get k (obj_assign target entries)
  = match obj_get k (reverse entries) with
    | Some v => Some v
    | None => obj_get k target
    end.
Proof.
  unfold obj_assign. revert target.
  induction entries as [|[k' v'] entries IH]; intros target; simpl; [done|].
  rewrite IH, reverse_cons, obj_get_app. simpl.
  destruct (obj_get k (reverse entries)); [done|].
  destruct (decide (k' = k)) as [->|Hne].
  - apply obj_get_set_eq.
  - by apply obj_get_set_ne.
Qed.

(** The settings stored by a POST are the shallow merge of the stored
    settings and the posted object: a posted property replaces the stored
    one, the others are kept (the two key properties apart). *)
Lemma settings_shallow_merge (c : config) (d d1 : db)
    (fields stored_settings posted : list (string * json)) (k : string) :
  supabase c = true →
  loadState c d = (Ok (JObj fields), d1) →
  obj_get "settings" fields = Some (JObj stored_settings) →
  NoDup stored_settings.*1 → NoDup posted.*1 →
  k ≠ "openaiKey" → k ≠ "geminiKey" →
  opt_get (Some (body (get_settings c
                         (post_settings c (Some (JObj posted)) d).2).1)) k
  = match obj_get k posted with
    | Some v => Some v
    | None => obj_get k stored_settings
    end.
Proof.
  intros Hsup Hload Hset Hnd1 Hnd2 Hk1 Hk2.
  rewrite (post_settings_object c d d1 _ fields Hload), Hset. cbn [snd].
  match goal with
  | |- context [saveState c (JObj ?fs) d1] =>
      pose proof (load_saved c d1 (JObj fs)) as L
  end.
  rewrite Hsup in L. cbn [truthy andb] in L.
  rewrite (get_settings_run _ _ _ _ L). cbn [fst opt_get].
  rewrite obj_get_set_eq. unfold res_json.
  cbn [body or_else truthyv truthy default]. unfold id. cbv beta iota.
  unfold stripped. rewrite !delete_if_truthy_other by done.
  unfold spread2. cbn [or_else truthyv truthy own_entries].
  rewrite !obj_assign_get, !obj_get_reverse by done.
  by destruct (obj_get k posted), (obj_get k stored_settings).
Qed.

Lemma settings_shallow_merge_witness :
  supabase Sample.config = true
  ∧ loadState Sample.config Sample.database
    = (Ok (JObj Sample.fields), Sample.database)
  ∧ obj_get "settings" Sample.fields = Some (JObj [("theme", JStr "dark")])
  ∧ opt_get
      (Some (body (get_settings Sample.config
                     (post_settings Sample.config
                        (Some (JObj [("lang", JStr "hi")]))
                        Sample.database).2).1)) "theme"
    = Some (JStr "dark")
  ∧ opt_get
      (Some (body (get_settings Sample.config
                     (post_settings Sample.config
                        (Some (JObj [("theme", JStr "light")]))
                        Sample.database).2).1)) "theme"
    = Some (JStr "light").
Proof.
  assert (Hone : ∀ k : string, NoDup [k]).
  { intros k. apply NoDup_singleton. }
  split; [reflexivity|]. split; [reflexivity|]. split; [reflexivity|]. split.
  - apply (settings_shallow_merge Sample.config Sample.database Sample.database
             Sample.fields [("theme", JStr "dark")] [("lang", JStr "hi")]
             "theme" eq_refl eq_refl eq_refl (Hone "theme") (Hone "lang"));
      discriminate.
  - apply (settings_shallow_merge Sample.config Sample.database Sample.database
             Sample.fields [("theme", JStr "dark")] [("theme", JStr "light")]
             "theme" eq_refl eq_refl eq_refl (Hone "theme") (Hone "theme"));
      discriminate.
Defined.

(** ** The JavaScript operations on sample values *)

Example truthy_values :
  truthy (JNum 0) = false ∧ truthy (JStr "") = false ∧ truthy JNull = false
  ∧ truthy (JStr "0") = true ∧ truthy (JArr []) = true
  ∧ truthy (JObj []) = true.
Proof. by repeat split. Qed.

Example strict_eq_values :
  strict_eq (Some (JNum 7)) (Some (JNum 7)) = true
  ∧ strict_eq (Some (JNum 7)) (Some (JStr "7")) = false
  ∧ strict_eq None (Some JNull) = false
  ∧ strict_eq (Some (JArr [])) (Some (JArr [])) = false.
Proof. by repeat split. Qed.

Example to_String_values :
  to_String (JNum (-12)) = Ok "-12"
  ∧ to_String (JNum (10 ^ 21)) = Ok "1e+21"
  ∧ to_String (JNum (10 ^ 21 - 1)) = Ok "1e+21"
  ∧ to_String (JNum (10 ^ 20)) = Ok "100000000000000000000"
  ∧ to_String (JNum (2 ^ 64)) = Ok "18446744073709552000"
  ∧ to_String (JNum (2 ^ 70)) = Ok "1.1805916207174113e+21"
  ∧ to_String (JNum 9007199254740993) = Ok "9007199254740992"
  ∧ to_String (JArr [JNum 1; JNull; JArr [JStr "a"; JBool true]])
    = Ok "1,,a,true"
  ∧ to_String (JObj [("a", JNum 1)]) = Ok "[object Object]"
  ∧ to_String (JObj [("toString", JStr "x")])
    = Throw "Cannot convert object to primitive value"
  ∧ to_String (JArr [JNum 1; JArr [JObj [("toString", JNull)]]])
    = Throw "Cannot convert object to primitive value"
  ∧ FileServer.text_of (Some (JNum 0)) = Ok ""
  ∧ FileServer.text_of (Some (JNum 5)) = Ok "5".
Proof. repeat split; vm_compute; reflexivity. Qed.

Example trim_values :
  trim "  Namaste  " = "Namaste" ∧ trim "   " = "" ∧ trim "a b" = "a b"
  ∧ trim (SampleChat.nbsp +:+ " Namaste" +:+ SampleChat.line_separator)
    = "Namaste"
  ∧ trim (SampleChat.nbsp +:+ SampleChat.bom) = ""
  ∧ trim ("a" +:+ SampleChat.nbsp +:+ "b") = "a" +:+ SampleChat.nbsp +:+ "b".
Proof. repeat split; vm_compute; reflexivity. Qed.

Example spread2_values :
  spread2 (Some (JObj [("a", JNum 1); ("b", JNum 2)]))
          (Some (JObj [("b", JNum 3); ("c", JNum 4)]))
  = [("a", JNum 1); ("b", JNum 3); ("c", JNum 4)]
  ∧ spread2 (Some (JObj [])) (Some (JArr [JStr "x"])) = [("0", JStr "x")]
  ∧ spread2 (Some (JObj [("a", JNum 1)])) (Some (JNum 5)) = [("a", JNum 1)].
Proof. by repeat split. Qed.

Example json_text_values :
  JsonText.print 0 (JObj [("ok", JBool true)])
  = "{" +:+ JsonText.nl +:+ "  " +:+ JsonText.quote "ok" +:+ ": true"
    +:+ JsonText.nl +:+ "}"
  ∧ JsonText.read (JsonText.print 0 (JObj Sample.fields))
    = Some (JObj Sample.fields)
  ∧ JsonText.read "{ broken" = None.
Proof. repeat split; vm_compute; reflexivity. Qed.

(** * Further properties of the handlers *)

Import Effects.

(** ** What a request can do to the database *)

Lemma loadState_cases (c : config) (d d1 : db) (state : json) :
  loadState c d = (Ok state, d1) →
  (d1 = d ∧ (stored c d = Some state ∨ state = default_state))
  ∨ (supabase c = true ∧ stored c d = None ∧ state = default_state
     ∧ d1 = upsert_state c default_state d).
Proof.
  unfold loadState, stored. destruct (supabase c); simpl.
  - destruct (app_state d !! STATE_ID c) as [data|] eqn:E.
    + intros [= <- <-]. left. split; [done|]. destruct (truthy data); auto.
    + intros [= <- <-]. right. done.
  - intros [= <- <-]. left. auto.
Qed.

Ltac same_settings :=
  simpl; repeat case_match; simplify_eq/=;
  first [ done
        | by rewrite ?obj_get_set_ne by done
        | by rewrite ?obj_get_set_ne, ?obj_get_delete, ?decide_False by done ].

Ltac saved_with_settings :=
  right; right; left; eexists; (split; [done|]); left; same_settings.

(** The database after a request is the one before it, the one that the
    load left, that one with a saved document whose settings are those
    loaded or freshly stripped ones, or the one before with one more
    backup. *)
Lemma serve_cases (c : config) (r : request) (d : db) :
  ∃ state d1, loadState c d = (Ok state, d1)
    ∧ ((serve c r d).2 = d
       ∨ (serve c r d).2 = d1
       ∨ (∃ st, (serve c r d).2 = (saveState c st d1).2
            ∧ (opt_get (Some st) "settings" = opt_get (Some state) "settings"
               ∨ ∃ merged, opt_get (Some st) "settings"
                           = Some (JObj (stripped merged))))
       ∨ (∃ p, supabase c = true ∧ (serve c r d).2 = with_backup p d)).
Proof.
  destruct (loadState_total c d) as (state & d1 & Hload).
  exists state, d1. split; [done|].
  destruct r; simpl.
  - unfold get_data, handle, mbind, M_bind, lift, mret, M_ret. rewrite Hload.
    settle_cases; auto.
  - unfold post_data, handle, mbind, M_bind, lift, mret, M_ret. rewrite Hload.
    settle_cases; auto; saved_with_settings.
  - unfold get_archive, handle, mbind, M_bind, lift, mret, M_ret. rewrite Hload.
    settle_cases; auto.
  - unfold post_archive, handle, mbind, M_bind, lift, mret, M_ret. rewrite Hload.
    settle_cases; auto; saved_with_settings.
  - unfold post_archive_student, handle, mbind, M_bind, lift, mret, M_ret.
    cbv zeta. destruct (negb (truthyv (studentId_of req_body))); [by left|].
    rewrite Hload. settle_cases; auto; saved_with_settings.
  - unfold post_backup, handle, mret, M_ret. settle_cases; auto;
      right; right; right; eexists; (split; [by destruct (supabase c)|done]).
  - unfold get_restore, handle, mret, M_ret. settle_cases; auto.
  - unfold get_settings, handle, mbind, M_bind, lift, mret, M_ret. rewrite Hload.
    settle_cases; auto.
  - unfold post_settings, handle, mbind, M_bind, lift, mret, M_ret. rewrite Hload.
    settle_cases; auto.
    + saved_with_settings.
    + right; right; left. eexists. split; [done|]. right. eexists. simpl.
      rewrite obj_get_set_eq. reflexivity.
Qed.

Lemma saveState_backups (c : config) (st : json) (d : db) :
  backups (saveState c st d).2 = backups d.
Proof. unfold saveState. by destruct (supabase c). Qed.

Lemma loadState_backups (c : config) (d d1 : db) (state : json) :
  loadState c d = (Ok state, d1) → backups d1 = backups d.
Proof.
  intros H. destruct (loadState_cases c d d1 state H) as [[-> _]|(_ & _ & _ & ->)];
    done.
Qed.

Lemma saveState_other_rows (c : config) (st : json) (d : db) (id : string) :
  id ≠ STATE_ID c → app_state (saveState c st d).2 !! id = app_state d !! id.
Proof.
  intros Hid. unfold saveState. destruct (supabase c); simpl; [|done].
  by rewrite lookup_insert_ne.
Qed.

Lemma loadState_other_rows (c : config) (d d1 : db) (state : json) (id : string) :
  loadState c d = (Ok state, d1) → id ≠ STATE_ID c →
  app_state d1 !! id = app_state d !! id.
Proof.
  intros H Hid.
  destruct (loadState_cases c d d1 state H) as [[-> _]|(_ & _ & _ & ->)];
    [done|]. simpl. by rewrite lookup_insert_ne.
Qed.

Lemma serve_other_rows (c : config) (r : request) (d : db) (id : string) :
  id ≠ STATE_ID c → app_state (serve c r d).2 !! id = app_state d !! id.
Proof.
  intros Hid.
  destruct (serve_cases c r d)
    as (state & d1 & Hload & [->|[->|[(st & -> & _)|(p & _ & ->)]]]).
  - done.
  - by eapply loadState_other_rows.
  - rewrite saveState_other_rows by done. by eapply loadState_other_rows.
  - done.
Qed.

Lemma serve_keeps_backups (c : config) (r : request) (d : db) (id : N)
    (p : json) :
  backups d !! id = Some p → backups (serve c r d).2 !! id = Some p.
Proof.
  intros Hp.
  destruct (serve_cases c r d)
    as (state & d1 & Hload & [->|[->|[(st & -> & _)|(q & _ & ->)]]]).
  - done.
  - by rewrite (loadState_backups c d d1 state Hload).
  - by rewrite saveState_backups, (loadState_backups c d d1 state Hload).
  - simpl. rewrite lookup_insert_ne; [done|].
    intros <-. apply (is_fresh (dom (backups d))), elem_of_dom. eauto.
Qed.

Lemma run_keeps_backups (c : config) (rs : list request) (d : db) (id : N)
    (p : json) :
  backups d !! id = Some p → backups (run c rs d) !! id = Some p.
Proof.
  revert d. induction rs as [|r rs IH]; intros d Hp; simpl; [done|].
  by apply IH, serve_keeps_backups.
Qed.

(** ** Requests that leave the database alone *)

(** Only the row [STATE_ID] of [app_state] is ever written: every other
    row reads the same after any sequence of requests. *)
Theorem other_rows_untouched (c : config) (rs : list request) (d : db)
    (id : string) :
  id ≠ STATE_ID c → app_state (run c rs d) !! id = app_state d !! id.
Proof.
  intros Hid. revert d. induction rs as [|r rs IH]; intros d; simpl; [done|].
  rewrite IH. by apply serve_other_rows.
Qed.


(** A GET changes nothing, except that one on a configured store without
    the row seeds the default document. *)
Theorem reads_change_nothing (c : config) (r : request) (d : db) :
  reads_only r = true →
  (serve c r d).2 = d
  ∨ (supabase c = true ∧ stored c d = None
     ∧ (serve c r d).2 = upsert_state c default_state d).
Proof.
  intros Hr. destruct (loadState_total c d) as (state & d1 & Hload).
  assert (Hd1 : (serve c r d).2 = d1 ∨ (serve c r d).2 = d).
  { destruct r; try done; simpl.
    - unfold get_data, handle, mbind, M_bind, lift, mret, M_ret. rewrite Hload.
      settle_cases; auto.
    - unfold get_archive, handle, mbind, M_bind, lift, mret, M_ret.
      rewrite Hload. settle_cases; auto.
    - unfold get_restore, handle, mret, M_ret. settle_cases; auto.
    - unfold get_settings, handle, mbind, M_bind, lift, mret, M_ret.
      rewrite Hload. settle_cases; auto. }
  destruct Hd1 as [-> | ->]; [|by left].
  destruct (loadState_cases c d d1 state Hload) as [[-> _]|(? & ? & _ & ->)];
    [by left | by right].
Qed.

Lemma reads_change_nothing_witness :
  reads_only GetSettings = true
  ∧ (serve Sample.config GetSettings Sample.database).2 = Sample.database.
Proof.
  split; [reflexivity|].
  destruct (reads_change_nothing Sample.config GetSettings Sample.database
              eq_refl) as [H | (_ & H & _)]; [exact H | discriminate H].
Defined.

Lemma other_rows_untouched_witness :
  "other" ≠ STATE_ID Sample.config
  ∧ app_state
      (run Sample.config
         [PostData (Some (JObj [("students", JArr [Sample.ravi])]));
          PostSettings a1; PostArchiveStudent Sample.now (Sample.ask (JNum 3))]
         (Db {[ "other" := JNum 1 ]} ∅)) !! "other"
    = app_state (Db {[ "other" := JNum 1 ]} ∅) !! "other".
Proof.
  assert (H : "other" ≠ STATE_ID Sample.config) by discriminate.
  split; [exact H|].
  exact (other_rows_untouched Sample.config _ _ "other" H).
Defined.


(** ** Backups are kept *)

Lemma post_backup_run (c : config) (d : db) (req_body : value) (p : json) :
  supabase c = true → opt_get req_body "data" = Some p → truthy p = true →
  post_backup c req_body d
  = (res_json (JObj [("backup", JNum (Z.of_N (fresh (dom (backups d)))))]),
     with_backup p d).
Proof.
  intros Hsup Hdata Ht. unfold post_backup, handle. by rewrite Hsup, Hdata, Ht.
Qed.

(** A backup outlives every later request: whatever is served after it,
    data, archive, settings or further backups, a restore of its
    identifier answers the payload that was backed up. *)
Theorem backup_outlives_requests (c : config) (d : db) (req_body : value)
    (p : json) (rs : list request) :
  supabase c = true →
  opt_get req_body "data" = Some p →
  truthy p = true →
  get_restore c (fresh (dom (backups d)))
    (run c rs (post_backup c req_body d).2)
  = (res_json p, run c rs (post_backup c req_body d).2).
Proof.
  intros Hsup Hdata Ht.
  rewrite (post_backup_run c d req_body p Hsup Hdata Ht). cbn [snd].
  unfold get_restore, handle. rewrite Hsup. simpl.
  by rewrite (run_keeps_backups c rs _ (fresh (dom (backups d))) p)
    by (simpl; apply lookup_insert_eq).
Qed.

Lemma backup_outlives_requests_witness :
  supabase Sample.config = true
  ∧ opt_get (Some (JObj [("data", JObj Sample.fields)])) "data"
    = Some (JObj Sample.fields)
  ∧ truthy (JObj Sample.fields) = true
  ∧ (get_restore Sample.config (fresh (dom (backups Sample.database)))
       (run Sample.config
          [PostData (Some (JObj [("students", JArr [])]));
           PostBackup (Some (JObj [("data", JStr "later")]))]
          (post_backup Sample.config
             (Some (JObj [("data", JObj Sample.fields)])) Sample.database).2)).1
    = res_json (JObj Sample.fields).
Proof.
  repeat (split; [reflexivity|]).
  rewrite (backup_outlives_requests Sample.config Sample.database
             (Some (JObj [("data", JObj Sample.fields)])) (JObj Sample.fields)
             _ eq_refl eq_refl eq_refl).
  reflexivity.
Defined.

(** Two backups in a row are two records: the identifiers differ, each
    restores its own payload, also when the payloads are the same, and the
    table has grown by two. *)
Theorem backups_are_never_merged (c : config) (d : db) (p q : json) :
  supabase c = true →
  truthy p = true →
  truthy q = true →
  let first := fresh (dom (backups d)) in
  let d1 := (post_backup c (Some (JObj [("data", p)])) d).2 in
  let second := fresh (dom (backups d1)) in
  let d2 := (post_backup c (Some (JObj [("data", q)])) d1).2 in
  first ≠ second
  ∧ get_restore c first d2 = (res_json p, d2)
  ∧ get_restore c second d2 = (res_json q, d2)
  ∧ size (backups d2) = S (S (size (backups d))).
Proof.
  intros Hsup Hp Hq. cbv zeta.
  rewrite (post_backup_run c d (Some (JObj [("data", p)])) p Hsup eq_refl Hp).
  cbn [snd].
  rewrite (post_backup_run c _ (Some (JObj [("data", q)])) q Hsup eq_refl Hq).
  cbn [snd].
  set (first := fresh (dom (backups d))).
  set (second := fresh (dom (backups (with_backup p d)))).
  assert (Hfirst : backups d !! first = None)
    by apply not_elem_of_dom, is_fresh.
  assert (Hsecond : backups (with_backup p d) !! second = None)
    by apply not_elem_of_dom, is_fresh.
  assert (Hne : first ≠ second).
  { intros Heq. rewrite <- Heq in Hsecond. simpl in Hsecond.
    fold first in Hsecond. by rewrite lookup_insert_eq in Hsecond. }
  split; [done|].
  unfold get_restore, handle. rewrite Hsup. simpl. fold first. fold second.
  rewrite lookup_insert_ne, !lookup_insert_eq by done.
  repeat split.
  simpl in Hsecond. fold first in Hsecond.
  rewrite !map_size_insert_None; done.
Qed.

Lemma backups_are_never_merged_witness :
  supabase Sample.config = true
  ∧ truthy (JStr "same") = true
  ∧ fresh (dom (backups Sample.database))
    ≠ fresh (dom (backups
                    (post_backup Sample.config
                       (Some (JObj [("data", JStr "same")]))
                       Sample.database).2)).
Proof.
  split; [reflexivity|]. split; [reflexivity|].
  apply (backups_are_never_merged Sample.config Sample.database
           (JStr "same") (JStr "same")); reflexivity.
Defined.

(** ** Posting and reading back the lists *)

Lemma get_data_run (c : config) (d d1 : db) (state : json) :
  loadState c d = (Ok state, d1) →
  get_data c d
  = (res_json (JObj [("students",
                      default (JArr [])
                        (or_else (opt_get (Some state) "students")
                                 (Some (JArr []))))]), d1).
Proof.
  intros Hload. unfold get_data, handle, mbind, M_bind, lift, mret, M_ret.
  rewrite Hload.
  by rewrite (get_non_null state "students")
    by (eapply truthy_non_null, loadState_truthy, Hload).
Qed.

Lemma get_archive_run (c : config) (d d1 : db) (state : json) :
  loadState c d = (Ok state, d1) →
  get_archive c d
  = (res_json (JObj [("archived",
                      default (JArr [])
                        (or_else (opt_get (Some state) "archived")
                                 (Some (JArr []))))]), d1).
Proof.
  intros Hload. unfold get_archive, handle, mbind, M_bind, lift, mret, M_ret.
  rewrite Hload.
  by rewrite (get_non_null state "archived")
    by (eapply truthy_non_null, loadState_truthy, Hload).
Qed.

Lemma post_data_posted (c : config) (d d1 : db) (req_body : value)
    (fields : list (string * json)) (l : list json) :
  loadState c d = (Ok (JObj fields), d1) →
  posted_list "students" req_body = Some l →
  post_data c req_body d
  = (res_json ok_true,
     (saveState c (JObj (obj_set "students" (JArr l) fields)) d1).2).
Proof.
  intros Hload Hl.
  unfold post_data, handle, mbind, M_bind, lift, mret, M_ret. rewrite Hload.
  unfold posted_list in Hl.
  destruct (opt_get req_body "students") as [[| | | |l1|]|] eqn:E1; simpl;
    destruct (opt_get (opt_get req_body "data") "students")
      as [[| | | |l2|]|] eqn:E2; simplify_eq/=;
    unfold saveState; by destruct (supabase c).
Qed.

Lemma post_archive_posted (c : config) (d d1 : db) (req_body : value)
    (fields : list (string * json)) (l : list json) :
  loadState c d = (Ok (JObj fields), d1) →
  posted_list "archived" req_body = Some l →
  post_archive c req_body d
  = (res_json ok_true,
     (saveState c (JObj (obj_set "archived" (JArr l) fields)) d1).2).
Proof.
  intros Hload Hl.
  unfold post_archive, handle, mbind, M_bind, lift, mret, M_ret. rewrite Hload.
  unfold posted_list in Hl.
  destruct (opt_get req_body "archived") as [[| | | |l1|]|] eqn:E1; simpl;
    destruct (opt_get (opt_get req_body "data") "archived")
      as [[| | | |l2|]|] eqn:E2; simplify_eq/=;
    unfold saveState; by destruct (supabase c).
Qed.

(** With the store configured and an object stored, the array posted to
    POST /api/data, at [students] or else at [data.students], is what
    GET /api/data answers next, entries of any shape included; what
    GET /api/archive and GET /api/settings answer is not changed. *)
Theorem posted_students_are_read_back (c : config) (d d1 : db)
    (req_body : value) (fields : list (string * json)) (l : list json) :
  supabase c = true →
  loadState c d = (Ok (JObj fields), d1) →
  posted_list "students" req_body = Some l →
  let d' := (post_data c req_body d).2 in
  (post_data c req_body d).1 = res_json ok_true
  ∧ get_data c d' = (res_json (JObj [("students", JArr l)]), d')
  ∧ (get_archive c d').1 = (get_archive c d).1
  ∧ (get_settings c d').1 = (get_settings c d).1.
Proof.
  intros Hsup Hload Hl. cbv zeta.
  rewrite (post_data_posted c d d1 req_body fields l Hload Hl). cbn [fst snd].
  pose proof (load_saved c d1 (JObj (obj_set "students" (JArr l) fields))) as L.
  rewrite Hsup in L. cbn [truthy andb] in L.
  split; [done|].
  rewrite (get_data_run _ _ _ _ L), (get_archive_run _ _ _ _ L),
    (get_settings_run _ _ _ _ L), (get_archive_run _ _ _ _ Hload),
    (get_settings_run _ _ _ _ Hload).
  cbn [opt_get fst]. rewrite obj_get_set_eq, !obj_get_set_ne by done. done.
Qed.

Lemma posted_students_are_read_back_witness :
  supabase Sample.config = true
  ∧ loadState Sample.config Sample.database
    = (Ok (JObj Sample.fields), Sample.database)
  ∧ posted_list "students"
      (Some (JObj [("data", JObj [("students", JArr [Sample.meena; JNull])])]))
    = Some [Sample.meena; JNull]
  ∧ (get_data Sample.config
       (post_data Sample.config
          (Some (JObj [("data", JObj [("students", JArr [Sample.meena; JNull])])]))
          Sample.database).2).1
    = res_json (JObj [("students", JArr [Sample.meena; JNull])]).
Proof.
  repeat (split; [reflexivity|]).
  destruct (posted_students_are_read_back Sample.config Sample.database
              Sample.database
              (Some (JObj [("data", JObj [("students", JArr [Sample.meena; JNull])])]))
              Sample.fields [Sample.meena; JNull] eq_refl eq_refl eq_refl)
    as (_ & H & _).
  by rewrite H.
Defined.

(** The same for POST /api/archive and GET /api/archive: the posted array
    replaces the archive wholesale, and the students and the settings
    read as before. *)
Theorem posted_archive_is_read_back (c : config) (d d1 : db)
    (req_body : value) (fields : list (string * json)) (l : list json) :
  supabase c = true →
  loadState c d = (Ok (JObj fields), d1) →
  posted_list "archived" req_body = Some l →
  let d' := (post_archive c req_body d).2 in
  (post_archive c req_body d).1 = res_json ok_true
  ∧ get_archive c d' = (res_json (JObj [("archived", JArr l)]), d')
  ∧ (get_data c d').1 = (get_data c d).1
  ∧ (get_settings c d').1 = (get_settings c d).1.
Proof.
  intros Hsup Hload Hl. cbv zeta.
  rewrite (post_archive_posted c d d1 req_body fields l Hload Hl). cbn [fst snd].
  pose proof (load_saved c d1 (JObj (obj_set "archived" (JArr l) fields))) as L.
  rewrite Hsup in L. cbn [truthy andb] in L.
  split; [done|].
  rewrite (get_data_run _ _ _ _ L), (get_archive_run _ _ _ _ L),
    (get_settings_run _ _ _ _ L), (get_data_run _ _ _ _ Hload),
    (get_settings_run _ _ _ _ Hload).
  cbn [opt_get fst]. rewrite obj_get_set_eq, !obj_get_set_ne by done. done.
Qed.

Lemma posted_archive_is_read_back_witness :
  supabase Sample.config = true
  ∧ loadState Sample.config Sample.database
    = (Ok (JObj Sample.fields), Sample.database)
  ∧ posted_list "archived" (Some (JObj [("archived", JArr [])])) = Some []
  ∧ (get_archive Sample.config
       (post_archive Sample.config (Some (JObj [("archived", JArr [])]))
          Sample.database).2).1
    = res_json (JObj [("archived", JArr [])]).
Proof.
  repeat (split; [reflexivity|]).
  destruct (posted_archive_is_read_back Sample.config Sample.database
              Sample.database (Some (JObj [("archived", JArr [])]))
              Sample.fields [] eq_refl eq_refl eq_refl)
    as (_ & H & _).
  by rewrite H.
Defined.

(** ** Archiving twice, and a list with a hole *)

Lemma post_archive_student_found (c : config) (now : string) (d d1 : db)
    (req_body : value) (studentId : json)
    (fields sfields : list (string * json)) (pre post archived : list json) :
  studentId_of req_body = Some studentId →
  truthy studentId = true →
  loadState c d = (Ok (JObj fields), d1) →
  obj_get "students" fields = Some (JArr (pre ++ JObj sfields :: post)) →
  Forall (other_student studentId) pre →
  strict_eq (obj_get "id" sfields) (Some studentId) = true →
  or_else (obj_get "archived" fields) (Some (JArr [])) = Some (JArr archived) →
  post_archive_student c now req_body d
  = (res_json ok_true,
     (saveState c
        (JObj (obj_set "archived"
                 (JArr (archived_student now sfields :: archived))
                 (obj_set "students" (JArr (pre ++ post)) fields))) d1).2).
Proof.
  intros Hid Ht Hload Hstud Hpre Hs Harch.
  unfold post_archive_student, handle, mbind, M_bind, lift, mret, M_ret.
  cbv zeta. rewrite Hid.
  change (truthyv (Some studentId)) with (truthy studentId).
  rewrite Ht. cbn [negb]. cbv beta iota. rewrite Hload.
  simpl get. rewrite Hstud. simpl or_else. simpl as_array. cbv beta iota.
  rewrite (findIndex_first studentId (JObj sfields) pre post 0 Hpre)
    by (unfold has_id; simpl; by rewrite Hs).
  cbv beta iota. rewrite Nat.add_0_l.
  rewrite list_lookup_middle by done. rewrite delete_middle.
  cbn [assign get]. cbv beta iota.
  rewrite obj_get_set_ne by done. rewrite Harch.
  cbn [as_array]. cbv beta iota. rewrite obj_set_set.
  unfold saveState. by destruct (supabase c).
Qed.

Lemma post_archive_student_missing (c : config) (now : string) (d d1 : db)
    (req_body : value) (studentId state : json) (students : list json) :
  studentId_of req_body = Some studentId →
  truthy studentId = true →
  loadState c d = (Ok state, d1) →
  or_else (opt_get (Some state) "students") (Some (JArr []))
  = Some (JArr students) →
  Forall (other_student studentId) students →
  post_archive_student c now req_body d = (res_json ok_true, d1).
Proof.
  intros Hid Ht Hload Hstud Hall.
  unfold post_archive_student, handle, mbind, M_bind, lift, mret, M_ret.
  cbv zeta. rewrite Hid.
  change (truthyv (Some studentId)) with (truthy studentId).
  rewrite Ht. cbn [negb]. cbv beta iota. rewrite Hload.
  rewrite (get_non_null state "students")
    by (eapply truthy_non_null, loadState_truthy, Hload).
  rewrite Hstud. cbn [as_array]. cbv beta iota.
  by rewrite (findIndex_none studentId students 0 Hall).
Qed.

(** When the identifier occurs once among the students, a second request
    to archive it, at any later time, answers [{ok: true}] and changes
    nothing: the student is archived once, with the time stamp of the
    first request. *)
Theorem archiving_again_changes_nothing (c : config) (now later : string)
    (d : db) (req_body : value) (studentId : json)
    (fields sfields : list (string * json)) (pre post archived : list json) :
  supabase c = true →
  studentId_of req_body = Some studentId →
  truthy studentId = true →
  stored c d = Some (JObj fields) →
  obj_get "students" fields = Some (JArr (pre ++ JObj sfields :: post)) →
  Forall (other_student studentId) pre →
  Forall (other_student studentId) post →
  strict_eq (obj_get "id" sfields) (Some studentId) = true →
  or_else (obj_get "archived" fields) (Some (JArr [])) = Some (JArr archived) →
  let d' := (post_archive_student c now req_body d).2 in
  post_archive_student c later req_body d' = (res_json ok_true, d')
  ∧ get_archive c d'
    = (res_json (JObj [("archived",
                        JArr (archived_student now sfields :: archived))]), d').
Proof.
  intros Hsup Hid Ht Hst Hstud Hpre Hpost Hs Harch. cbv zeta.
  assert (Hload : loadState c d = (Ok (JObj fields), d)).
  { unfold loadState. unfold stored in Hst. by rewrite Hsup, Hst. }
  rewrite (post_archive_student_found c now d d req_body studentId fields
             sfields pre post archived Hid Ht Hload Hstud Hpre Hs Harch).
  cbn [snd].
  match goal with
  | |- context [saveState c (JObj ?fs) d] =>
      pose proof (load_saved c d (JObj fs)) as L
  end.
  rewrite Hsup in L. cbn [truthy andb] in L. split.
  - eapply post_archive_student_missing; [done | done | exact L | | ].
    + cbn [opt_get]. rewrite obj_get_set_ne, obj_get_set_eq by done. done.
    + by apply Forall_app.
  - rewrite (get_archive_run _ _ _ _ L). cbn [opt_get].
    by rewrite obj_get_set_eq.
Qed.

Lemma archiving_again_changes_nothing_witness :
  supabase Sample.config = true
  ∧ studentId_of (Sample.ask (JNum 3)) = Some (JNum 3)
  ∧ truthy (JNum 3) = true
  ∧ stored Sample.config Sample.database = Some (JObj Sample.fields)
  ∧ Forall (other_student (JNum 3)) [JObj Sample.asha; Sample.asha_twice]
  ∧ post_archive_student Sample.config "2026-02-02T00:00:00.000Z"
      (Sample.ask (JNum 3))
      (post_archive_student Sample.config Sample.now (Sample.ask (JNum 3))
         Sample.database).2
    = (res_json ok_true,
       (post_archive_student Sample.config Sample.now (Sample.ask (JNum 3))
          Sample.database).2).
Proof.
  assert (Hpost : Forall (other_student (JNum 3))
                    [JObj Sample.asha; Sample.asha_twice]).
  { repeat (constructor; [split; [discriminate | reflexivity] |]).
    constructor. }
  repeat (split; [first [reflexivity | exact Hpost] |]).
  apply (archiving_again_changes_nothing Sample.config Sample.now
           "2026-02-02T00:00:00.000Z" Sample.database (Sample.ask (JNum 3))
           (JNum 3) Sample.fields
           [("id", JNum 3); ("name", JStr "Ravi")] []
           [JObj Sample.asha; Sample.asha_twice] [Sample.meena]);
    first [reflexivity | exact Hpost | constructor].
Defined.

(** A [null] entry in front of every student with the identifier stops
    the request: it is answered 500 with the message of the failed read
    of [id], and nothing is saved. *)
Theorem archive_stops_at_null_student (c : config) (now : string) (d d1 : db)
    (req_body : value) (studentId state : json) (pre post : list json) :
  studentId_of req_body = Some studentId →
  truthy studentId = true →
  loadState c d = (Ok state, d1) →
  or_else (opt_get (Some state) "students") (Some (JArr []))
  = Some (JArr (pre ++ JNull :: post)) →
  Forall (other_student studentId) pre →
  post_archive_student c now req_body d
  = (res_error 500 "Cannot read properties of null (reading 'id')", d1).
Proof.
  intros Hid Ht Hload Hstud Hpre.
  unfold post_archive_student, handle, mbind, M_bind, lift, mret, M_ret.
  cbv zeta. rewrite Hid.
  change (truthyv (Some studentId)) with (truthy studentId).
  rewrite Ht. cbn [negb]. cbv beta iota. rewrite Hload.
  rewrite (get_non_null state "students")
    by (eapply truthy_non_null, loadState_truthy, Hload).
  rewrite Hstud. cbn [as_array]. cbv beta iota.
  assert (Hfind : ∀ i, findIndex (has_id (Some studentId))
                         (pre ++ JNull :: post) i
                       = Throw "Cannot read properties of null (reading 'id')").
  { clear Hstud. induction Hpre as [|x pre Hx _ IH]; intros i; simpl; [done|].
    rewrite (has_id_other _ _ Hx). simpl. apply IH. }
  by rewrite Hfind.
Qed.

Lemma archive_stops_at_null_student_witness :
  studentId_of (Sample.ask (JNum 7)) = Some (JNum 7)
  ∧ truthy (JNum 7) = true
  ∧ loadState Sample.config
      (Db {[ "main" := JObj [("students",
                              JArr [Sample.ravi; JNull; JObj Sample.asha])] ]} ∅)
    = (Ok (JObj [("students", JArr [Sample.ravi; JNull; JObj Sample.asha])]),
       Db {[ "main" := JObj [("students",
                              JArr [Sample.ravi; JNull; JObj Sample.asha])] ]} ∅)
  ∧ Forall (other_student (JNum 7)) [Sample.ravi]
  ∧ post_archive_student Sample.config Sample.now (Sample.ask (JNum 7))
      (Db {[ "main" := JObj [("students",
                              JArr [Sample.ravi; JNull; JObj Sample.asha])] ]} ∅)
    = (res_error 500 "Cannot read properties of null (reading 'id')",
       Db {[ "main" := JObj [("students",
                              JArr [Sample.ravi; JNull; JObj Sample.asha])] ]} ∅).
Proof.
  assert (Hpre : Forall (other_student (JNum 7)) [Sample.ravi]).
  { constructor; [split; [discriminate | reflexivity] | constructor]. }
  repeat (split; [first [reflexivity | exact Hpre] |]).
  apply (archive_stops_at_null_student Sample.config Sample.now _ _
           (Sample.ask (JNum 7)) (JNum 7)
           (JObj [("students", JArr [Sample.ravi; JNull; JObj Sample.asha])])
           [Sample.ravi] [JObj Sample.asha]);
    first [reflexivity | exact Hpre].
Defined.

(** ** The document keeps its three fields *)

Lemma wf_default : wf_doc default_state = true.
Proof. done. Qed.

Lemma load_wellformed (c : config) (d d1 : db) (state : json) :
  wellformed c d → loadState c d = (Ok state, d1) →
  wf_doc state = true ∧ wellformed c d1.
Proof.
  intros Hinv Hload.
  destruct (loadState_cases c d d1 state Hload)
    as [[-> [Hst | ->]]|(_ & Hnone & -> & ->)].
  - split; [by apply Hinv | done].
  - done.
  - split; [done|]. intros doc. unfold stored. simpl.
    rewrite lookup_insert_eq. by intros [= <-].
Qed.

Lemma save_wellformed (c : config) (d : db) (st : json) :
  wf_doc st = true → wellformed c d → wellformed c (saveState c st d).2.
Proof.
  intros Hst Hinv. unfold saveState. destruct (supabase c); simpl; [|done].
  intros doc. unfold stored. simpl. rewrite lookup_insert_eq. by intros [= <-].
Qed.

Lemma assign_wf (st st' : json) (k : string) (x : value) :
  wf_doc st = true →
  assign st k x = Ok st' →
  (k = "students" ∨ k = "archived" → isArray x = true) →
  (k = "settings" → is_object x = true) →
  wf_doc st' = true.
Proof.
  intros Hst Hassign Harr Hobj.
  destruct st as [| | | | |fs]; try done. injection Hassign as <-.
  simpl in *. apply andb_prop in Hst as [Hst Hse].
  apply andb_prop in Hst as [Hs Ha].
  assert (Hget : ∀ k', obj_get k' match x with
                                  | Some j => obj_set k j fs
                                  | None => obj_delete k fs
                                  end
                       = if decide (k = k') then x else obj_get k' fs).
  { intros k'. destruct x as [j|].
    - destruct (decide (k = k')) as [<-|];
        [apply obj_get_set_eq | by apply obj_get_set_ne].
    - rewrite obj_get_delete. by destruct (decide (k = k')). }
  rewrite !Hget.
  repeat case_decide; subst; rewrite ?Hs, ?Ha, ?Hse, ?Harr, ?Hobj; auto.
Qed.

Ltac load_wf_first c d :=
  let state := fresh "state" in
  let d1 := fresh "d1" in
  let Hload := fresh "Hload" in
  let Hwf := fresh "Hwf" in
  let Hd1 := fresh "Hd1" in
  unfold handle, mbind, M_bind, lift, mret, M_ret;
  destruct (loadState_total c d) as (state & d1 & Hload);
  rewrite Hload;
  match goal with
  | Hinv : wellformed c d |- _ =>
      destruct (load_wellformed c d d1 state Hinv Hload) as [Hwf Hd1]
  end.

Lemma wf_get_array (state : json) (k : string) (x : value) :
  wf_doc state = true → k = "students" ∨ k = "archived" →
  get state k = Ok x → isArray x = true.
Proof.
  intros Hwf Hk. destruct state as [| | | | |fs]; try done. simpl in *.
  apply andb_prop in Hwf as [Hwf _]. apply andb_prop in Hwf as [Hs Ha].
  intros [= <-]. by destruct Hk as [-> | ->].
Qed.

Lemma as_array_is_array (what : string) (x : value) (l : list json) :
  as_array what x = Ok l → isArray x = true.
Proof. by destruct x as [[]|]. Qed.

Ltac wf_chain :=
  repeat match goal with
         | H : assign ?s ?k ?x = Ok ?s' |- wf_doc ?s' = true =>
             eapply (assign_wf s s' k x);
             [ | exact H
               | let Hk := fresh in
                 intros Hk; try (by destruct Hk)
               | let Hk := fresh in intros Hk; try done ]
         end;
  try done;
  try (eapply wf_get_array; [eassumption | | eassumption]; by auto);
  try (eapply as_array_is_array; eassumption).

Lemma serve_wellformed (c : config) (r : request) (d : db) :
  wellformed c d → wellformed c (serve c r d).2.
Proof.
  intros Hinv. destruct r; simpl.
  - unfold get_data. load_wf_first c d.
    repeat case_match; simplify_eq; done.
  - unfold post_data. load_wf_first c d.
    repeat case_match; simplify_eq; try done;
      rewrite saveState_ok in *; simplify_eq; apply save_wellformed; try done;
      wf_chain.
  - unfold get_archive. load_wf_first c d.
    repeat case_match; simplify_eq; done.
  - unfold post_archive. load_wf_first c d.
    repeat case_match; simplify_eq; try done;
      rewrite saveState_ok in *; simplify_eq; apply save_wellformed; try done;
      wf_chain.
  - unfold post_archive_student. cbv zeta.
    destruct (negb (truthyv (studentId_of req_body))); [done|].
    load_wf_first c d.
    repeat case_match; simplify_eq; try done;
      rewrite saveState_ok in *; simplify_eq; apply save_wellformed; try done;
      wf_chain.
  - unfold post_backup, handle, mret, M_ret. settle_cases; try done.
  - unfold get_restore, handle, mret, M_ret. by settle_cases.
  - unfold get_settings. load_wf_first c d.
    repeat case_match; simplify_eq; done.
  - unfold post_settings. load_wf_first c d.
    repeat case_match; simplify_eq; try done;
      rewrite saveState_ok in *; simplify_eq; apply save_wellformed; try done;
      wf_chain.
Qed.

Lemma run_wellformed (c : config) (rs : list request) (d : db) :
  wellformed c d → wellformed c (run c rs d).
Proof.
  revert d. induction rs as [|r rs IH]; intros d Hinv; simpl; [done|].
  by apply IH, serve_wellformed.
Qed.

(** However the requests follow one another from a database whose row is
    absent or holds a document with a [students] array, an [archived]
    array and a [settings] object, the stored document keeps these three
    fields in that shape; GET /api/data and GET /api/archive then answer
    the stored arrays themselves. *)
Theorem document_keeps_its_shape (c : config) (rs : list request) (d : db) :
  wellformed c d →
  wellformed c (run c rs d)
  ∧ ∃ students archived,
      (get_data c (run c rs d)).1
      = res_json (JObj [("students", JArr students)])
      ∧ (get_archive c (run c rs d)).1
        = res_json (JObj [("archived", JArr archived)])
      ∧ ∀ fields, stored c (run c rs d) = Some (JObj fields) →
          supabase c = true →
          obj_get "students" fields = Some (JArr students)
          ∧ obj_get "archived" fields = Some (JArr archived).
Proof.
  intros Hinv. pose proof (run_wellformed c rs d Hinv) as Hrun.
  split; [done|].
  destruct (loadState_total c (run c rs d)) as (state & d1 & Hload).
  destruct (load_wellformed _ _ _ _ Hrun Hload) as [Hwf _].
  destruct state as [| | | | |fs]; try done. simpl in Hwf.
  apply andb_prop in Hwf as [Hwf _]. apply andb_prop in Hwf as [Hs Ha].
  destruct (obj_get "students" fs) as [[| | | |students|]|] eqn:Es; try done.
  destruct (obj_get "archived" fs) as [[| | | |archived|]|] eqn:Ea; try done.
  exists students, archived.
  rewrite (get_data_run _ _ _ _ Hload), (get_archive_run _ _ _ _ Hload).
  cbn [opt_get fst]. rewrite Es, Ea. split; [done|]. split; [done|].
  intros fields Hst Hsup.
  assert (fields = fs) as ->; [|done].
  revert Hload. unfold loadState. unfold stored in Hst.
  rewrite Hsup, Hst. simpl. by intros [= -> _].
Qed.

Lemma document_keeps_its_shape_witness :
  wellformed Sample.config Sample.empty_database
  ∧ wellformed Sample.config
      (run Sample.config
         [PostData (Some (JObj [("students", JArr [Sample.ravi])]));
          PostArchiveStudent Sample.now (Sample.ask (JNum 3));
          PostSettings a1; PostData (Some (JStr "no list"))]
         Sample.empty_database).
Proof.
  assert (H : wellformed Sample.config Sample.empty_database).
  { intros doc Hdoc. unfold stored in Hdoc. simpl in Hdoc.
    rewrite lookup_empty in Hdoc. discriminate Hdoc. }
  split; [exact H|].
  apply (document_keeps_its_shape Sample.config _ Sample.empty_database H).
Defined.

(** ** The other key *)

Lemma stripped_no_truthy_gemini_key (merged : list (string * json)) :
  truthyv (obj_get "geminiKey" (stripped merged)) = false.
Proof. unfold stripped. apply delete_if_truthy_falsy. Qed.

Lemma load_no_key (key : string) (c : config) (d d1 : db) (state : json) :
  no_key key c d → loadState c d = (Ok state, d1) →
  key_free key state ∧ no_key key c d1.
Proof.
  intros Hinv Hload.
  destruct (loadState_cases c d d1 state Hload)
    as [[-> [Hst | ->]]|(Hsup & Hnone & -> & ->)].
  - split; [|done]. destruct (supabase c) eqn:Hsup; [by apply Hinv|].
    revert Hload. unfold loadState. rewrite Hsup. simpl. by intros [= <-].
  - done.
  - split; [done|]. intros _ doc. unfold stored. simpl.
    rewrite lookup_insert_eq. by intros [= <-].
Qed.

Lemma serve_no_key (key : string) (c : config) (r : request) (d : db) :
  (∀ merged, truthyv (obj_get key (stripped merged)) = false) →
  no_key key c d → no_key key c (serve c r d).2.
Proof.
  intros Hkey Hinv.
  destruct (serve_cases c r d)
    as (state & d1 & Hload & [->|[->|[(st & -> & Hst)|(p & _ & ->)]]]).
  - done.
  - by eapply load_no_key.
  - destruct (load_no_key key c d d1 state Hinv Hload) as [Hfree _].
    intros Hsup doc. unfold saveState, stored. rewrite Hsup. simpl.
    rewrite lookup_insert_eq. intros [= <-]. unfold key_free.
    destruct Hst as [-> | [merged ->]]; [done | apply Hkey].
  - done.
Qed.

Lemma run_no_key (key : string) (c : config) (rs : list request) (d : db) :
  (∀ merged, truthyv (obj_get key (stripped merged)) = false) →
  no_key key c d → no_key key c (run c rs d).
Proof.
  intros Hkey. revert d.
  induction rs as [|r rs IH]; intros d Hinv; simpl; [done|].
  by apply IH, serve_no_key.
Qed.

Lemma post_settings_no_key (key : string) (c : config) (d : db)
    (req_body : value) :
  (∀ merged, truthyv (obj_get key (stripped merged)) = false) →
  no_key key c (post_settings c req_body d).2.
Proof.
  intros Hkey Hsup doc.
  destruct (loadState_total c d) as (state & d1 & Hload).
  assert (Hsame : ∀ doc', stored c d1 = Some doc' → truthy doc' = true →
            doc' = state).
  { intros doc' Hdoc Ht.
    destruct (loadState_cases c d d1 state Hload)
      as [[-> [Hst | ->]]|(_ & _ & -> & ->)].
    - congruence.
    - revert Hload. unfold loadState. unfold stored in Hdoc.
      rewrite Hsup, Hdoc, Ht. simpl. by intros [= ->].
    - revert Hdoc. unfold stored. simpl. rewrite lookup_insert_eq. congruence. }
  destruct state as [| b | n | s | l | fields] eqn:Est.
  6: { rewrite (post_settings_object c d d1 req_body fields Hload).
       unfold saveState, stored. rewrite Hsup. simpl. rewrite lookup_insert_eq.
       intros [= <-]. unfold key_free. simpl. rewrite obj_get_set_eq. simpl.
       apply Hkey. }
  all: destruct (post_settings_other c d d1 req_body _ Hload) as [-> | ->];
    [done | | unfold saveState, stored; rewrite Hsup; simpl;
              rewrite lookup_insert_eq; by intros [= <-] ..].
  all: intros Hdoc; destruct (truthy doc) eqn:Ht;
    [by rewrite (Hsame doc Hdoc Ht) | by destruct doc].
Qed.

(** After any POST of settings and any requests that follow, in every
    configuration and from every database, the settings read back hold
    no truthy [geminiKey]. *)
Theorem gemini_key_is_never_read_back (c : config) (d : db)
    (posted : value) (rs : list request) :
  truthyv
    (opt_get (Some (body (get_settings c
                            (run c rs (post_settings c posted d).2)).1))
       "geminiKey") = false.
Proof.
  pose proof (run_no_key "geminiKey" c rs _ stripped_no_truthy_gemini_key
                (post_settings_no_key "geminiKey" c d posted
                   stripped_no_truthy_gemini_key)) as Hinv.
  destruct (loadState_total c (run c rs (post_settings c posted d).2))
    as (state & d1 & Hload).
  rewrite (get_settings_run _ _ _ _ Hload). unfold res_json. cbn [fst body].
  destruct (load_no_key _ _ _ _ _ Hinv Hload) as [Hfree _].
  unfold key_free in Hfree. unfold or_else.
  destruct (truthyv (opt_get (Some state) "settings")) eqn:Hs; [|done].
  destruct (opt_get (Some state) "settings") as [settings|]; done.
Qed.

(** * Properties of the file-backed server *)

Import Disk.

Lemma string_app_assoc (s1 s2 s3 : string) :
  (s1 +:+ s2) +:+ s3 = s1 +:+ (s2 +:+ s3).
Proof.
  induction s1 as [|a s1 IH]; [done|].
  change (String a ((s1 +:+ s2) +:+ s3) = String a (s1 +:+ (s2 +:+ s3))).
  by rewrite IH.
Qed.

Lemma data_file_is_not_archive_file (c : FileServer.config) :
  FileServer.DATA_FILE c ≠ FileServer.ARCHIVE_FILE c.
Proof.
  unfold FileServer.DATA_FILE, FileServer.ARCHIVE_FILE.
  intros H. by apply (inj (String.app _)) in H.
Qed.

Lemma backup_path_is_no_document (c : FileServer.config) (now : string) :
  FileServer.backup_path c now ≠ FileServer.DATA_FILE c
  ∧ FileServer.backup_path c now ≠ FileServer.ARCHIVE_FILE c.
Proof.
  unfold FileServer.backup_path, FileServer.BACKUPS_DIR, FileServer.DATA_FILE,
    FileServer.ARCHIVE_FILE.
  rewrite string_app_assoc.
  split; intros H; by apply (inj (String.app _)) in H.
Qed.

Lemma read_after_write (J : FileServer.codec) (fs fs' : FileServer.filesystem)
    (filePath : string) (doc fallback : json) :
  FileServer.parse J (FileServer.stringify J doc) = Some doc →
  FileServer.stringify J doc ≠ "" →
  FileServer.writeJSONFile J filePath doc fs = (true, fs') →
  FileServer.readJSONFile J fs' filePath fallback = doc.
Proof.
  intros Hrt Hne Hw. unfold FileServer.writeJSONFile in Hw.
  case_bool_decide; [done|]. injection Hw as <-.
  unfold FileServer.readJSONFile. simpl. rewrite lookup_insert_eq.
  rewrite bool_decide_eq_false_2 by done. by rewrite Hrt.
Qed.

Lemma read_other_file (J : FileServer.codec) (fs : FileServer.filesystem)
    (written read : string) (doc fallback : json) :
  written ≠ read →
  FileServer.readJSONFile J (FileServer.writeJSONFile J written doc fs).2
    read fallback
  = FileServer.readJSONFile J fs read fallback.
Proof.
  intros Hne. unfold FileServer.writeJSONFile, FileServer.readJSONFile.
  case_bool_decide; simpl; [done|]. by rewrite lookup_insert_ne.
Qed.

(** ** Posting and reading back a file *)

(** When [data.json] can be written and the JSON text of the document
    reads back, POST /api/data answers [{ok: true}] and GET /api/data
    then answers the posted body (the object [{students: []}] for a
    missing body), while GET /api/archive answers as before; when the
    file cannot be written the answer is 500 and no file changes. *)
Theorem file_data_is_read_back (J : FileServer.codec) (c : FileServer.config)
    (req_body : value) (fs : FileServer.filesystem) :
  FileServer.parse J (FileServer.stringify J (data_of req_body))
  = Some (data_of req_body) →
  FileServer.stringify J (data_of req_body) ≠ "" →
  let fs' := (FileServer.post_data J c req_body fs).2 in
  (FileServer.DATA_FILE c ∉ FileServer.locked fs →
     (FileServer.post_data J c req_body fs).1 = res_json ok_true
     ∧ FileServer.get_data J c fs' = (res_json (data_of req_body), fs')
     ∧ (FileServer.get_archive J c fs').1 = (FileServer.get_archive J c fs).1)
  ∧ (FileServer.DATA_FILE c ∈ FileServer.locked fs →
       FileServer.post_data J c req_body fs
       = (res_error 500 "Failed to save data", fs)).
Proof.
  intros Hrt Hne. cbv zeta. unfold FileServer.post_data. fold (data_of req_body).
  split; intros Hlock.
  - assert (Hw : FileServer.writeJSONFile J (FileServer.DATA_FILE c)
                   (data_of req_body) fs
                 = (true, (FileServer.writeJSONFile J (FileServer.DATA_FILE c)
                             (data_of req_body) fs).2)).
    { unfold FileServer.writeJSONFile. by rewrite bool_decide_eq_false_2. }
    rewrite Hw. cbn [fst snd]. split; [done|].
    unfold FileServer.get_data, FileServer.get_archive. cbn [fst].
    rewrite (read_after_write J fs _ _ _ _ Hrt Hne Hw).
    by rewrite read_other_file by apply data_file_is_not_archive_file.
  - unfold FileServer.writeJSONFile. by rewrite bool_decide_eq_true_2.
Qed.

Lemma file_data_is_read_back_witness :
  FileServer.parse JsonText.json_text
    (FileServer.stringify JsonText.json_text
       (data_of (Some SampleFiles.document)))
  = Some (data_of (Some SampleFiles.document))
  ∧ FileServer.stringify JsonText.json_text
      (data_of (Some SampleFiles.document)) ≠ ""
  ∧ (FileServer.get_data JsonText.json_text SampleFiles.config
       (FileServer.post_data JsonText.json_text SampleFiles.config
          (Some SampleFiles.document) SampleFiles.blank).2).1
    = res_json SampleFiles.document.
Proof.
  assert (Hrt : FileServer.parse JsonText.json_text
                  (FileServer.stringify JsonText.json_text
                     (data_of (Some SampleFiles.document)))
                = Some (data_of (Some SampleFiles.document)))
    by (vm_compute; reflexivity).
  assert (Hne : FileServer.stringify JsonText.json_text
                  (data_of (Some SampleFiles.document)) ≠ "")
    by (vm_compute; discriminate).
  split; [exact Hrt|]. split; [exact Hne|].
  destruct (file_data_is_read_back JsonText.json_text SampleFiles.config
              (Some SampleFiles.document) SampleFiles.blank Hrt Hne)
    as [Hok _].
  destruct Hok as (_ & H & _); [vm_compute; set_solver|].
  by rewrite H.
Defined.

(** The archive file is written and read in the same way, on its own:
    when [archive.json] can be written and the JSON text of the document
    reads back, POST /api/archive answers [{ok: true}] and
    GET /api/archive then answers the posted body (the object
    [{archived: []}] for a missing body), while GET /api/data answers as
    before; when the file cannot be written the answer is 500 and no file
    changes. *)
Theorem file_archive_is_read_back (J : FileServer.codec)
    (c : FileServer.config) (req_body : value) (fs : FileServer.filesystem) :
  FileServer.parse J (FileServer.stringify J (archive_of req_body))
  = Some (archive_of req_body) →
  FileServer.stringify J (archive_of req_body) ≠ "" →
  let fs' := (FileServer.post_archive J c req_body fs).2 in
  (FileServer.ARCHIVE_FILE c ∉ FileServer.locked fs →
     (FileServer.post_archive J c req_body fs).1 = res_json ok_true
     ∧ FileServer.get_archive J c fs' = (res_json (archive_of req_body), fs')
     ∧ (FileServer.get_data J c fs').1 = (FileServer.get_data J c fs).1)
  ∧ (FileServer.ARCHIVE_FILE c ∈ FileServer.locked fs →
       FileServer.post_archive J c req_body fs
       = (res_error 500 "Failed to save archive", fs)).
Proof.
  intros Hrt Hne. cbv zeta. unfold FileServer.post_archive.
  fold (archive_of req_body).
  split; intros Hlock.
  - assert (Hw : FileServer.writeJSONFile J (FileServer.ARCHIVE_FILE c)
                   (archive_of req_body) fs
                 = (true, (FileServer.writeJSONFile J (FileServer.ARCHIVE_FILE c)
                             (archive_of req_body) fs).2)).
    { unfold FileServer.writeJSONFile. by rewrite bool_decide_eq_false_2. }
    rewrite Hw. cbn [fst snd]. split; [done|].
    unfold FileServer.get_data, FileServer.get_archive. cbn [fst].
    rewrite (read_after_write J fs _ _ _ _ Hrt Hne Hw).
    rewrite read_other_file; [done|].
    intros H. by apply (data_file_is_not_archive_file c).
  - unfold FileServer.writeJSONFile. by rewrite bool_decide_eq_true_2.
Qed.

Lemma file_archive_is_read_back_witness :
  FileServer.parse JsonText.json_text
    (FileServer.stringify JsonText.json_text
       (archive_of (Some (JObj [("archived", JArr [Sample.meena])]))))
  = Some (archive_of (Some (JObj [("archived", JArr [Sample.meena])])))
  ∧ FileServer.stringify JsonText.json_text
      (archive_of (Some (JObj [("archived", JArr [Sample.meena])]))) ≠ ""
  ∧ (FileServer.get_archive JsonText.json_text SampleFiles.config
       (FileServer.post_archive JsonText.json_text SampleFiles.config
          (Some (JObj [("archived", JArr [Sample.meena])]))
          SampleFiles.blank).2).1
    = res_json (JObj [("archived", JArr [Sample.meena])]).
Proof.
  assert (Hrt : FileServer.parse JsonText.json_text
                  (FileServer.stringify JsonText.json_text
                     (archive_of (Some (JObj [("archived", JArr [Sample.meena])]))))
                = Some (archive_of (Some (JObj [("archived", JArr [Sample.meena])]))))
    by (vm_compute; reflexivity).
  assert (Hne : FileServer.stringify JsonText.json_text
                  (archive_of (Some (JObj [("archived", JArr [Sample.meena])])))
                ≠ "")
    by (vm_compute; discriminate).
  split; [exact Hrt|]. split; [exact Hne|].
  destruct (file_archive_is_read_back JsonText.json_text SampleFiles.config
              (Some (JObj [("archived", JArr [Sample.meena])]))
              SampleFiles.blank Hrt Hne)
    as [Hok _].
  destruct Hok as (_ & H & _); [vm_compute; set_solver|].
  by rewrite H.
Defined.

(** A file that does not parse, like an empty file, reads as the
    fallback: GET /api/data answers [{students: []}] with status 200 and
    leaves the file as it is. *)
Theorem unreadable_data_file_reads_as_empty (J : FileServer.codec)
    (c : FileServer.config) (fs : FileServer.filesystem) (raw : string) :
  FileServer.files fs !! FileServer.DATA_FILE c = Some raw →
  FileServer.parse J (FileServer.stringify J FileServer.no_students)
  = Some FileServer.no_students →
  raw = "" ∨ FileServer.parse J raw = None →
  FileServer.get_data J c fs = (res_json FileServer.no_students, fs).
Proof.
  intros Hraw Hfb Hbad. unfold FileServer.get_data, FileServer.readJSONFile.
  rewrite Hraw. destruct Hbad as [-> | Hnone].
  - simpl. by rewrite Hfb.
  - case_bool_decide; [by rewrite Hfb | by rewrite Hnone].
Qed.

Lemma unreadable_data_file_reads_as_empty_witness :
  FileServer.files
    (FileServer.Fs {[ FileServer.DATA_FILE SampleFiles.config := "{ broken" ]} ∅)
    !! FileServer.DATA_FILE SampleFiles.config = Some "{ broken"
  ∧ FileServer.parse JsonText.json_text
      (FileServer.stringify JsonText.json_text FileServer.no_students)
    = Some FileServer.no_students
  ∧ ("{ broken" = "" ∨ FileServer.parse JsonText.json_text "{ broken" = None)
  ∧ FileServer.get_data JsonText.json_text SampleFiles.config
      (FileServer.Fs {[ FileServer.DATA_FILE SampleFiles.config := "{ broken" ]} ∅)
    = (res_json FileServer.no_students,
       FileServer.Fs {[ FileServer.DATA_FILE SampleFiles.config := "{ broken" ]} ∅).
Proof.
  assert (H1 : FileServer.files
    (FileServer.Fs {[ FileServer.DATA_FILE SampleFiles.config := "{ broken" ]} ∅)
    !! FileServer.DATA_FILE SampleFiles.config = Some "{ broken")
    by (vm_compute; reflexivity).
  assert (H2 : FileServer.parse JsonText.json_text
      (FileServer.stringify JsonText.json_text FileServer.no_students)
    = Some FileServer.no_students) by (vm_compute; reflexivity).
  assert (H3 : "{ broken" = ""
               ∨ FileServer.parse JsonText.json_text "{ broken" = None)
    by (right; vm_compute; reflexivity).
  split; [exact H1|]. split; [exact H2|]. split; [exact H3|].
  exact (unreadable_data_file_reads_as_empty JsonText.json_text
           SampleFiles.config _ "{ broken" H1 H2 H3).
Defined.

(** ** Backups on disk *)

Lemma createBackup_run (J : FileServer.codec) (c : FileServer.config)
    (now stamped : string) (fs : FileServer.filesystem) :
  FileServer.createBackup J c now stamped fs
  = (Some (FileServer.backup_path c now),
     (FileServer.writeJSONFile J (FileServer.backup_path c now)
        (snapshot J c stamped fs) fs).2).
Proof.
  unfold FileServer.createBackup, snapshot. cbv zeta.
  by destruct (FileServer.writeJSONFile _ _ _ _).
Qed.

Lemma backup_path_truthy (c : FileServer.config) (now : string) :
  truthy (JStr (FileServer.backup_path c now)) = true.
Proof.
  unfold FileServer.backup_path, FileServer.BACKUPS_DIR. simpl.
  rewrite string_app_assoc. destruct (FileServer.dirname c); done.
Qed.

(** POST /api/backup always answers [{ok: true}] with the path of the
    backup file, also when that file could not be written, in which case
    no file has changed: the outcome of the write is not looked at. *)
Theorem file_backup_always_reports_success (J : FileServer.codec)
    (c : FileServer.config) (now stamped : string)
    (fs : FileServer.filesystem) :
  (FileServer.post_backup J c now stamped fs).1
  = res_json (JObj [("ok", JBool true);
                    ("backupFile", JStr (FileServer.backup_path c now))])
  ∧ (FileServer.backup_path c now ∈ FileServer.locked fs →
       (FileServer.post_backup J c now stamped fs).2 = fs).
Proof.
  unfold FileServer.post_backup. rewrite createBackup_run, backup_path_truthy.
  split; [done|]. intros Hlock. cbn [snd].
  unfold FileServer.writeJSONFile. by rewrite bool_decide_eq_true_2.
Qed.

(** A backup that can be written holds the time stamp and what
    GET /api/data and GET /api/archive answer at that moment, and it
    changes neither of these. *)
Theorem file_backup_is_a_snapshot (J : FileServer.codec)
    (c : FileServer.config) (now stamped : string)
    (fs : FileServer.filesystem) (fallback : json) :
  FileServer.backup_path c now ∉ FileServer.locked fs →
  FileServer.parse J (FileServer.stringify J (snapshot J c stamped fs))
  = Some (snapshot J c stamped fs) →
  FileServer.stringify J (snapshot J c stamped fs) ≠ "" →
  let fs' := (FileServer.post_backup J c now stamped fs).2 in
  FileServer.readJSONFile J fs' (FileServer.backup_path c now) fallback
  = JObj [("timestamp", JStr stamped);
          ("data", body (FileServer.get_data J c fs).1);
          ("archive", body (FileServer.get_archive J c fs).1)]
  ∧ (FileServer.get_data J c fs').1 = (FileServer.get_data J c fs).1
  ∧ (FileServer.get_archive J c fs').1 = (FileServer.get_archive J c fs).1.
Proof.
  intros Hlock Hrt Hne. cbv zeta.
  unfold FileServer.post_backup. rewrite createBackup_run, backup_path_truthy.
  cbn [snd].
  assert (Hw : FileServer.writeJSONFile J (FileServer.backup_path c now)
                 (snapshot J c stamped fs) fs
               = (true, (FileServer.writeJSONFile J (FileServer.backup_path c now)
                           (snapshot J c stamped fs) fs).2)).
  { unfold FileServer.writeJSONFile. by rewrite bool_decide_eq_false_2. }
  destruct (backup_path_is_no_document c now) as [Hd Ha].
  split; [by rewrite (read_after_write J fs _ _ _ _ Hrt Hne Hw)|].
  unfold FileServer.get_data, FileServer.get_archive. cbn [fst].
  by rewrite !read_other_file.
Qed.

Lemma file_backup_is_a_snapshot_witness :
  (FileServer.backup_path SampleFiles.config Sample.now
     ∉ FileServer.locked SampleFiles.blank)
  ∧ FileServer.parse JsonText.json_text
      (FileServer.stringify JsonText.json_text
         (snapshot JsonText.json_text SampleFiles.config Sample.now
            SampleFiles.blank))
    = Some (snapshot JsonText.json_text SampleFiles.config Sample.now
              SampleFiles.blank)
  ∧ FileServer.stringify JsonText.json_text
      (snapshot JsonText.json_text SampleFiles.config Sample.now
         SampleFiles.blank) ≠ ""
  ∧ FileServer.readJSONFile JsonText.json_text
      (FileServer.post_backup JsonText.json_text SampleFiles.config
         Sample.now Sample.now SampleFiles.blank).2
      (FileServer.backup_path SampleFiles.config Sample.now) JNull
    = JObj [("timestamp", JStr Sample.now);
            ("data", FileServer.no_students);
            ("archive", FileServer.no_archived)].
Proof.
  assert (H1 : FileServer.backup_path SampleFiles.config Sample.now
                 ∉ FileServer.locked SampleFiles.blank)
    by (simpl; set_solver).
  assert (H2 : FileServer.parse JsonText.json_text
      (FileServer.stringify JsonText.json_text
         (snapshot JsonText.json_text SampleFiles.config Sample.now
            SampleFiles.blank))
    = Some (snapshot JsonText.json_text SampleFiles.config Sample.now
              SampleFiles.blank)) by (vm_compute; reflexivity).
  assert (H3 : FileServer.stringify JsonText.json_text
      (snapshot JsonText.json_text SampleFiles.config Sample.now
         SampleFiles.blank) ≠ "") by (vm_compute; discriminate).
  split; [exact H1|]. split; [exact H2|]. split; [exact H3|].
  destruct (file_backup_is_a_snapshot JsonText.json_text SampleFiles.config
              Sample.now Sample.now SampleFiles.blank JNull H1 H2 H3)
    as [H _].
  exact H.
Defined.

Lemma write_unlocked (J : FileServer.codec) (filePath : string) (doc : json)
    (fs : FileServer.filesystem) :
  filePath ∉ FileServer.locked fs →
  (FileServer.writeJSONFile J filePath doc fs).2
  = FileServer.Fs (<[filePath := FileServer.stringify J doc]>
                     (FileServer.files fs))
                  (FileServer.locked fs).
Proof.
  intros Hlock. unfold FileServer.writeJSONFile.
  by rewrite bool_decide_eq_false_2.
Qed.

Lemma slice0_dashes (n : nat) (s : string) :
  FileServer.slice0 n (FileServer.dashes s)
  = FileServer.dashes (FileServer.slice0 n s).
Proof.
  revert s. induction n as [|n IH]; intros [|a s]; simpl; try done.
  by rewrite IH.
Qed.

(** Two backups whose clock readings agree on their first nineteen
    characters, that is down to the second, go to the same file: the
    second replaces the first and no file is added. *)
Theorem file_backups_of_one_second_collide (J : FileServer.codec)
    (c : FileServer.config) (now1 stamped1 now2 stamped2 : string)
    (fs : FileServer.filesystem) :
  FileServer.slice0 19 now1 = FileServer.slice0 19 now2 →
  FileServer.backup_path c now1 ∉ FileServer.locked fs →
  let fs1 := (FileServer.post_backup J c now1 stamped1 fs).2 in
  let fs2 := (FileServer.post_backup J c now2 stamped2 fs1).2 in
  (FileServer.post_backup J c now1 stamped1 fs).1
  = (FileServer.post_backup J c now2 stamped2 fs1).1
  ∧ FileServer.files fs2 !! FileServer.backup_path c now1
    = Some (FileServer.stringify J (snapshot J c stamped2 fs1))
  ∧ dom (FileServer.files fs2) = dom (FileServer.files fs1).
Proof.
  intros Hsame Hlock. cbv zeta.
  assert (Hpath : FileServer.backup_path c now2 = FileServer.backup_path c now1).
  { unfold FileServer.backup_path. by rewrite !slice0_dashes, Hsame. }
  unfold FileServer.post_backup.
  rewrite !createBackup_run, !backup_path_truthy, Hpath. cbn [fst snd].
  split; [done|].
  set (path := FileServer.backup_path c now1) in *.
  set (fs1 := (FileServer.writeJSONFile J path (snapshot J c stamped1 fs) fs).2).
  assert (Hfs1 : fs1 = FileServer.Fs
                         (<[path := FileServer.stringify J
                                      (snapshot J c stamped1 fs)]>
                            (FileServer.files fs))
                         (FileServer.locked fs))
    by (subst fs1; by rewrite write_unlocked).
  assert (Hlock1 : path ∉ FileServer.locked fs1) by by rewrite Hfs1.
  rewrite (write_unlocked J path _ fs1 Hlock1). cbn [FileServer.files].
  split; [apply lookup_insert_eq|].
  rewrite dom_insert_L.
  apply subseteq_union_1_L, singleton_subseteq_l.
  rewrite Hfs1. simpl. rewrite dom_insert_L.
  apply elem_of_union_l, elem_of_singleton. reflexivity.
Qed.

Lemma file_backups_of_one_second_collide_witness :
  FileServer.slice0 19 "2026-01-01T00:00:00.120Z"
  = FileServer.slice0 19 "2026-01-01T00:00:00.870Z"
  ∧ (FileServer.backup_path SampleFiles.config "2026-01-01T00:00:00.120Z"
       ∉ FileServer.locked SampleFiles.blank)
  ∧ dom (FileServer.files
           (FileServer.post_backup JsonText.json_text SampleFiles.config
              "2026-01-01T00:00:00.870Z" "2026-01-01T00:00:00.871Z"
              (FileServer.post_backup JsonText.json_text SampleFiles.config
                 "2026-01-01T00:00:00.120Z" "2026-01-01T00:00:00.121Z"
                 SampleFiles.blank).2).2)
    = dom (FileServer.files
             (FileServer.post_backup JsonText.json_text SampleFiles.config
                "2026-01-01T00:00:00.120Z" "2026-01-01T00:00:00.121Z"
                SampleFiles.blank).2).
Proof.
  assert (H1 : FileServer.slice0 19 "2026-01-01T00:00:00.120Z"
               = FileServer.slice0 19 "2026-01-01T00:00:00.870Z")
    by reflexivity.
  assert (H2 : FileServer.backup_path SampleFiles.config
                 "2026-01-01T00:00:00.120Z"
                 ∉ FileServer.locked SampleFiles.blank)
    by (simpl; set_solver).
  split; [exact H1|]. split; [exact H2|].
  apply (file_backups_of_one_second_collide JsonText.json_text
           SampleFiles.config _ _ _ _ SampleFiles.blank H1 H2).
Defined.

(** The time stamp in the name of a backup file has at most nineteen
    characters and among them neither a colon nor a dot. *)
Theorem backup_name_is_plain (now : string) :
  (String.length (FileServer.slice0 19 (FileServer.dashes now)) ≤ 19)%nat
  ∧ Forall (λ a, ¬ colon_or_dot a)
      (chars (FileServer.slice0 19 (FileServer.dashes now))).
Proof.
  split.
  - generalize 19%nat. intros n. revert now.
    induction n as [|n IH]; intros [|a s]; simpl; try lia.
    specialize (IH s). lia.
  - rewrite slice0_dashes. generalize (FileServer.slice0 19 now). intros s.
    induction s as [|a s IH]; simpl; constructor; [|done].
    unfold colon_or_dot. case_bool_decide as Ha; [|done].
    rewrite Ascii.nat_ascii_embedding by lia. lia.
Qed.

(** * Properties of the chat endpoints *)

(** ** What is sent upstream *)

Lemma upstream_turns_shape (l : list json) (turns : list json) :
  upstream_turns l = Ok turns →
  Forall chat_message turns ∧ (length turns ≤ length l)%nat.
Proof.
  revert turns. induction l as [|h l IH]; intros turns; cbn [upstream_turns].
  - intros [= <-]. split; [constructor | done].
  - destruct (kept_as h) as [role|] eqn:Hk.
    + destruct (as_text (opt_get (Some h) "text")) as [content|e]; [|done].
      destruct (upstream_turns l) as [rest|e]; [|done].
      intros [= <-]. destruct (IH rest eq_refl) as [Hall Hlen].
      split; [|simpl; lia]. constructor; [|done].
      exists role, content. split; [done|].
      unfold kept_as in Hk. destruct h as [| | | | |fs]; try done.
      destruct (obj_get "role" fs) as [[| | |r| |]|]; try done.
      repeat case_decide; simplify_eq; auto.
    + intros Hl. destruct (IH turns Hl) as [Hall Hlen].
      split; [done | simpl; lia].
Qed.

Lemma upstream_turns_throws (l : list json) (e : string) :
  upstream_turns l = Throw e → e = "Cannot convert object to primitive value".
Proof.
  induction l as [|h l IH]; cbn [upstream_turns]; [done|].
  destruct (kept_as h) as [role|]; [|done].
  destruct (as_text (opt_get (Some h) "text")) as [content|e'] eqn:E.
  - destruct (upstream_turns l) as [rest|e']; [done|].
    intros [= <-]. by apply IH.
  - intros [= <-]. by apply as_text_throws in E.
Qed.

Lemma upstream_turns_convertible (l : list json) :
  Forall (λ h, ∀ t, opt_get (Some h) "text" = Some t → convertible t = true) l →
  ∃ turns, upstream_turns l = Ok turns.
Proof.
  induction 1 as [|h l Hh _ [turns IH]]; cbn [upstream_turns]; [eauto|].
  rewrite IH. destruct (kept_as h) as [role|]; [|eauto].
  destruct (opt_get (Some h) "text") as [t|] eqn:E.
  - destruct (as_text_convertible t (Hh t eq_refl)) as [s ->]. simpl. eauto.
  - simpl. eauto.
Qed.

(** Whatever JSON the body holds at [message] and [history],
    [buildMessages] either throws the conversion error or returns a list
    that starts with the system instruction, ends with the new user turn
    that carries the message made a string, holds at most one message per
    history entry in between, and has only messages with the role
    ["system"], ["user"] or ["assistant"] and a string as content; it
    returns a list whenever the message and the texts of the history
    entries hold no object with a [toString] of its own. *)
Theorem primary_messages_are_well_formed (message history : value) :
  (∀ messages,
     FileServer.buildMessages message history = Ok messages →
     Forall chat_message messages
     ∧ head messages
       = Some (JObj [("role", JStr "system");
                     ("content", JStr "You are SSL BOT for Savitri Success Library. Answer in simple Hinglish. Help students for any subject/exam. Be polite, concise, and accurate. If asked for study material, share official/free resources links when possible.")])
     ∧ (∃ content,
          as_text message = Ok content
          ∧ last messages
            = Some (JObj [("role", JStr "user"); ("content", JStr content)]))
     ∧ (length messages ≤ length (entries history) + 2)%nat)
  ∧ (∀ e, FileServer.buildMessages message history = Throw e →
          e = "Cannot convert object to primitive value")
  ∧ ((∀ m, message = Some m → convertible m = true) →
     Forall (λ h, ∀ t, opt_get (Some h) "text" = Some t → convertible t = true)
       (entries history) →
     ∃ messages, FileServer.buildMessages message history = Ok messages).
Proof.
  assert (Hlist : FileServer.buildMessages message history
                  = primary_messages message (entries history)).
  { destruct history as [[| | | | l |]|];
      try (rewrite buildMessages_no_array by done);
      apply buildMessages_primary. }
  rewrite Hlist. unfold primary_messages. split; [|split].
  - intros messages.
    destruct (upstream_turns (entries history)) as [turns|e] eqn:Ht; [|done].
    destruct (as_text message) as [content|e] eqn:Hm; [|done].
    intros [= <-]. destruct (upstream_turns_shape _ _ Ht) as [Hall Hlen].
    split; [|split; [done|split]].
    + constructor; [exists "system"; eexists; split; [reflexivity | auto]|].
      apply Forall_app. split; [done|].
      constructor; [|constructor]. exists "user", content. auto.
    + exists content. split; [done|]. by rewrite last_cons, last_snoc.
    + simpl. rewrite length_app. simpl. lia.
  - intros e.
    destruct (upstream_turns (entries history)) as [turns|e'] eqn:Ht.
    + destruct (as_text message) as [content|e'] eqn:Hm; [done|].
      intros [= <-]. by apply as_text_throws in Hm.
    + intros [= <-]. by apply upstream_turns_throws in Ht.
  - intros Hm Hh. destruct (upstream_turns_convertible _ Hh) as [turns ->].
    destruct message as [m|]; [|simpl; eauto].
    destruct (as_text_convertible m (Hm m eq_refl)) as [s Hs].
    change (Ok turns ≫= (λ turns0, as_text (Some m) ≫= _))
      with (as_text (Some m) ≫= (λ content : string,
              Ok (JObj [("role", JStr "system");
                        ("content", JStr "You are SSL BOT for Savitri Success Library. Answer in simple Hinglish. Help students for any subject/exam. Be polite, concise, and accurate. If asked for study material, share official/free resources links when possible.")]
                  :: turns ++ [JObj [("role", JStr "user");
                                     ("content", JStr content)]]))).
    rewrite Hs. simpl. eauto.
Qed.

(** ** What the fallback asks and answers *)


Lemma secondary_turns_length (l turns : list json) :
  secondary_turns l = Ok turns → length turns = length l.
Proof.
  revert turns. induction l as [|h l IH]; intros turns; cbn [secondary_turns].
  - by intros [= <-].
  - destruct h; try done;
      (destruct (as_text _) as [text|e]; [|done]);
      (destruct (secondary_turns l) as [rest|e]; [|done]);
      intros [= <-]; simpl; by rewrite (IH rest eq_refl).
Qed.

Lemma secondary_turns_null (pre post : list json) :
  Forall (λ h, h ≠ JNull
               ∧ ∀ t, opt_get (Some h) "text" = Some t → convertible t = true)
    pre →
  secondary_turns (pre ++ JNull :: post)
  = Throw "Cannot read properties of null (reading 'role')".
Proof.
  induction 1 as [|h pre [Hh Ht] _ IH]; [done|].
  cbn [app secondary_turns]. rewrite IH.
  assert (Hs : ∃ s, as_text (opt_get (Some h) "text") = Ok s).
  { destruct (opt_get (Some h) "text") as [t|] eqn:E.
    - apply as_text_convertible. by apply Ht.
    - simpl. eauto. }
  destruct Hs as [s Hs]. destruct h; try done; by rewrite Hs.
Qed.


(** When the primary call fails, the secondary key is set and every
    secondary model fails, all three models were asked in their order
    and the message of the 500 is the failure of the last of them; the
    primary's own error message is not reported.  For a last model that
    is refused with an error object carrying a message, that message is
    the one reported. *)
Theorem exhausted_fallback_reports_last_model
    (c : FileServer.config) (up : Providers.upstream) (req_body : value)
    (message : json) (e1 : string) (first : list Providers.call)
    (contents : list json) :
  message_of req_body = Some message →
  truthy message = true →
  FileServer.callOpenAI c up (Some message) (history_of req_body)
  = (Throw e1, first) →
  FileServer.GEMINI_API_KEY c ≠ "" →
  gemini_contents (Some message) (entries (history_of req_body)) = Ok contents →
  Forall (λ m, is_Some (failure up contents m))
    ["gemini-2.0-flash"; "gemini-2.5-flash"; "gemini-2.0-flash-lite-001"] →
  ∃ e,
    failure up contents "gemini-2.0-flash-lite-001" = Some e
    ∧ FileServer.post_chat c up req_body
      = (Response 500
           (JObj [("error", JStr (if decide (e = "") then "Chat failed" else e))]),
         first
         ++ [Providers.GeminiCall "gemini-2.0-flash" contents;
             Providers.GeminiCall "gemini-2.5-flash" contents;
             Providers.GeminiCall "gemini-2.0-flash-lite-001" contents])
    ∧ (∀ st s,
         Providers.gemini up "gemini-2.0-flash-lite-001" contents
         = Providers.GeminiReply st
             (Some (JObj [("error", JObj [("message", JStr s)])])) →
         st ≠ 200%nat → s ≠ "" → e = s).
Proof.
  intros Hmsg Ht Hprimary Hkey Hcontents Hall.
  assert (Hlast : is_Some (failure up contents "gemini-2.0-flash-lite-001")).
  { apply Forall_cons in Hall as [_ Hall].
    apply Forall_cons in Hall as [_ Hall].
    by apply Forall_cons in Hall as [Hall _]. }
  destruct Hlast as [e He]. exists e. split; [done|]. split.
  - rewrite (post_chat_after_failure c up req_body message e1 first
               Hmsg Ht Hprimary), Hcontents.
    rewrite bool_decide_eq_false_2 by done.
    rewrite (try_models_none up contents FileServer.models None Hall).
    change (last FileServer.models) with (Some "gemini-2.0-flash-lite-001").
    cbv iota. rewrite He. cbn [default]. unfold id. cbv beta.
    unfold FileServer.chat_failed, res_error.
    destruct (decide (e = "")) as [->|Hne].
    + by rewrite bool_decide_eq_true_2.
    + by rewrite bool_decide_eq_false_2.
  - intros st s Hreply Hst Hs. unfold failure, attempt_outcome in He.
    rewrite Hreply in He. rewrite decide_False in He by done.
    unfold refusal in He. simpl in He.
    rewrite bool_decide_eq_false_2 in He by done. simpl in He.
    by injection He.
Qed.

Lemma exhausted_fallback_reports_last_model_witness :
  message_of SampleChat.question = Some (JStr "fees kab jama karni hai?")
  ∧ truthy (JStr "fees kab jama karni hai?") = true
  ∧ FileServer.GEMINI_API_KEY SampleFiles.config ≠ ""
  ∧ FileServer.post_chat SampleFiles.config SampleChat.down SampleChat.question
    = (res_error 500 "Quota exceeded",
       Providers.OpenAICall
         [FileServer.sys; FileServer.turn "user" "hi";
          FileServer.turn "assistant" "Namaste!";
          FileServer.turn "user" "fees kab jama karni hai?"]
       :: gemini_calls
            [part "user" "hi"; part "model" "Namaste!";
             part "user" "fees kab jama karni hai?"]
            FileServer.models).
Proof.
  assert (Hkey : FileServer.GEMINI_API_KEY SampleFiles.config ≠ "")
    by discriminate.
  assert (Hall : Forall (λ m, is_Some (failure SampleChat.down
                     [part "user" "hi"; part "model" "Namaste!";
                      part "user" "fees kab jama karni hai?"] m))
                   ["gemini-2.0-flash"; "gemini-2.5-flash";
                    "gemini-2.0-flash-lite-001"]).
  { repeat (constructor; [by eexists; vm_compute|]). constructor. }
  split; [reflexivity|]. split; [reflexivity|]. split; [exact Hkey|].
  destruct (exhausted_fallback_reports_last_model SampleFiles.config
              SampleChat.down SampleChat.question
              (JStr "fees kab jama karni hai?") "The server is overloaded" _
              [part "user" "hi"; part "model" "Namaste!";
               part "user" "fees kab jama karni hai?"]
              eq_refl eq_refl eq_refl Hkey eq_refl Hall)
    as (e & He & -> & _).
  vm_compute in He. by injection He as <-.
Defined.

(** With the secondary key set, [callGemini] asks no model at all when
    the contents of the request cannot be built: for a history with a
    [null] entry after entries that can be read, it throws the error of
    the read of [role]; when the contents can be built, there is one
    entry per history entry and the new user turn, and the first request
    goes to the first model with them. *)
Theorem secondary_needs_a_readable_history (c : FileServer.config)
    (up : Providers.upstream) (message : value) (history : list json) :
  FileServer.GEMINI_API_KEY c ≠ "" →
  (∀ pre post,
     history = pre ++ JNull :: post →
     Forall (λ h, h ≠ JNull
                  ∧ ∀ t, opt_get (Some h) "text" = Some t → convertible t = true)
       pre →
     FileServer.callGemini c up message (Some (JArr history))
     = (Throw "Cannot read properties of null (reading 'role')", []))
  ∧ (∀ e, gemini_contents message history = Throw e →
          FileServer.callGemini c up message (Some (JArr history))
          = (Throw e, []))
  ∧ (∀ contents,
       gemini_contents message history = Ok contents →
       head (FileServer.callGemini c up message (Some (JArr history))).2
       = Some (Providers.GeminiCall "gemini-2.0-flash" contents)
       ∧ length contents = S (length history)
       ∧ ∃ text, as_text message = Ok text
                 ∧ last contents
                   = Some (JObj [("role", JStr "user");
                                 ("parts", JArr [JObj [("text", JStr text)]])])).
Proof.
  intros Hkey. rewrite (callGemini_contents c up _ _ Hkey).
  change (entries (Some (JArr history))) with history.
  split; [|split].
  - intros pre post -> Hpre. unfold gemini_contents.
    by rewrite (secondary_turns_null pre post Hpre).
  - by intros e ->.
  - intros contents Hc. rewrite Hc. split.
    { unfold FileServer.models. rewrite try_models_step.
      by destruct (attempt_outcome up contents "gemini-2.0-flash"). }
    unfold gemini_contents in Hc.
    destruct (secondary_turns history) as [turns|e] eqn:Hturns; [|done].
    destruct (as_text message) as [text|e] eqn:Htext; [|done].
    injection Hc as <-. split.
    + rewrite length_app, (secondary_turns_length _ _ Hturns). simpl. lia.
    + exists text. split; [done|]. by rewrite last_snoc.
Qed.

Lemma secondary_needs_a_readable_history_witness :
  FileServer.GEMINI_API_KEY SampleFiles.config ≠ ""
  ∧ FileServer.callGemini SampleFiles.config SampleChat.busy
      (Some (JStr "hi")) (Some (JArr [JObj []; JNull]))
    = (Throw "Cannot read properties of null (reading 'role')", []).
Proof.
  assert (Hkey : FileServer.GEMINI_API_KEY SampleFiles.config ≠ "")
    by discriminate.
  split; [exact Hkey|].
  destruct (secondary_needs_a_readable_history SampleFiles.config
              SampleChat.busy (Some (JStr "hi")) [JObj []; JNull] Hkey)
    as [Hnull _].
  apply (Hnull [JObj []] []); [reflexivity|].
  constructor; [|constructor]. split; [discriminate|]. intros t Ht.
  simpl in Ht. discriminate.
Defined.

(** ** The chat endpoint of the database-backed server *)

(** Every chat request of the database-backed server sends at most one
    request, to the primary provider: the developer instruction, then the
    entries of the history as they came, none dropped or changed, then
    one user turn whose content is the message as it came; without a key,
    or without a truthy message, nothing is sent.  Its answer names the
    provider ["openai"] or is an error status with a non-empty message. *)
Theorem db_chat_asks_once (key : string) (up : Providers.upstream)
    (req_body : value) :
  ((DbServer.post_chat key up req_body).2
   = match message_of req_body with
     | Some message =>
         if truthy message && negb (bool_decide (key = ""))
         then [Providers.OpenAICall
                 (JObj [("role", JStr "developer");
                        ("content", JStr "You are SSL Bot for Savitri Success Library. Answer in simple Hinglish. Be concise and helpful.")]
                  :: entries (history_of req_body)
                  ++ [JObj [("role", JStr "user"); ("content", message)]])]
         else []
     | None => []
     end)
  ∧ ((∃ reply, (DbServer.post_chat key up req_body).1
               = res_json (JObj [("reply", reply); ("provider", JStr "openai")]))
     ∨ error_answer (DbServer.post_chat key up req_body).1).
Proof.
  unfold DbServer.post_chat. cbv zeta.
  change (opt_get (or_else req_body (Some (JObj []))) "message")
    with (message_of req_body).
  change (opt_get (or_else req_body (Some (JObj []))) "history")
    with (history_of req_body).
  assert (H400 : (∃ reply, res_error 400 "message is required"
                           = res_json (JObj [("reply", reply);
                                             ("provider", JStr "openai")]))
                 ∨ error_answer (res_error 400 "message is required")).
  { right. exists 400%nat, "message is required".
    split; [done|]. split; [done|]. by left. }
  destruct (message_of req_body) as [message|]; [|by split].
  change (truthyv (Some message)) with (truthy message).
  destruct (truthy message); cbn [negb andb]; [|by split].
  unfold DbServer.callOpenAI. case_bool_decide as Hkey; cbn [negb].
  { split; [done|]. right. exists 500%nat, "Missing OPENAI_API_KEY".
    split; [done|]. split; [done|]. by right. }
  change (DbServer.build_input (Some message) (history_of req_body))
    with (JObj [("role", JStr "developer");
                ("content", JStr "You are SSL Bot for Savitri Success Library. Answer in simple Hinglish. Be concise and helpful.")]
          :: entries (history_of req_body)
          ++ [JObj [("role", JStr "user"); ("content", message)]]).
  destruct (Providers.openai up _) as [m|st data].
  - split; [done|]. right. exists 500%nat, (DbServer.chat_failed m).
    split; [done|]. split; [apply db_chat_failed_non_empty | by right].
  - destruct (negb (Providers.http_ok st)).
    + split; [done|]. right. eexists 500%nat, _.
      split; [done|]. split; [apply db_chat_failed_non_empty | by right].
    + destruct data as [data|].
      * split; [done|]. left. by eexists.
      * split; [done|]. right. eexists 500%nat, _.
        split; [done|]. split; [apply db_chat_failed_non_empty | by right].
Qed.
